(** * vcSource: the fit / quality scoring and portfolio-conflict core

    A shallow embedding of the scoring pipeline of the repository
    ([models/fit_metric.py], [models/optimized_fit_metric.py],
    [metrics/quality_scorer.py], the de-duplication, conflict, portfolio-fit,
    website and ranking methods of [unified_vc_sourcing_agent.py] and the
    cache and the batches of [utils/parallel_processor.py]), followed by the
    properties of that code.

    Conventions of the embedding.
    - A Python [float] is a primitive binary64 float; a Python [int] is a
      [Z].  A score that the source accumulates as an [int] and then returns
      through [min(35.0, score)] is converted with [float_of_int], which is
      exact for every score the code can build.
    - A [str] is a [string] whose characters are read as code points below
      256; [Optional[T]] is [option T]; Python truthiness of an optional
      string or number is written out ([truthy_str], [truthy_int]).
    - A raised exception is the [Raise] branch of [Result]; a
      [try / except Exception] is [try_except].  Where no operation of a
      [try] body can raise, the body is written without its handler.
      [int(y)] on a string of digits raises [ValueError] beyond CPython's
      default limit of 4300 digits.
    - Collaborators that live outside the repository (the sentence
      embedding model and [difflib.SequenceMatcher.ratio]) are arguments of
      the functions that call them; [sklearn]'s cosine similarity, Python's
      [round] and [re.findall] are written out. *)

From Stdlib Require Import ZArith List Bool Ascii String Lia Permutation Sorted.
From Stdlib Require Import Floats.
From stdpp Require Import base option gmap strings list fin_maps.
Import ListNotations.

Set Warnings "-inexact-float".
Local Open Scope string_scope.
Local Open Scope Z_scope.

(** ** Python primitives used by the scoring code *)

Module Py.

(** Exceptions the modelled code can raise. *)
Inductive exn : Type :=
| TypeError
| ValueError
| AttributeError
| ValidationError.

Inductive Result (A : Type) : Type :=
| Ok (a : A)
| Raise (e : exn).
Arguments Ok {A} a.
Arguments Raise {A} e.

Definition bind {A B : Type} (r : Result A) (k : A -> Result B) : Result B :=
  match r with
  | Ok a => k a
  | Raise e => Raise e
  end.

(** [try: body  except Exception: return fallback]. *)
Definition try_except {A : Type} (body : Result A) (fallback : A) : A :=
  match body with
  | Ok a => a
  | Raise _ => fallback
  end.

(** *** Strings *)

(** [str.lower] on one character: the ASCII capitals and the Latin-1
    capitals (all of U+00C0..U+00DE but the multiplication sign). *)
Definition lower_char (c : ascii) : ascii :=
  let n := N_of_ascii c in
  if ((65 <=? n) && (n <=? 90))%N
     || ((192 <=? n) && (n <=? 222) && negb (n =? 215))%N
  then ascii_of_N (n + 32)
  else c.

Fixpoint lower (s : string) : string :=
  match s with
  | EmptyString => EmptyString
  | String c s' => String (lower_char c) (lower s')
  end.

(** [needle in hay] for two strings. *)
Fixpoint contains (needle hay : string) : bool :=
  String.prefix needle hay
  || match hay with
     | EmptyString => false
     | String _ hay' => contains needle hay'
     end.

(** [any(k in text for k in keys)]. *)
Definition any_in (keys : list string) (text : string) : bool :=
  existsb (fun k => contains k text) keys.

(** [s.split(', ')]. *)
Fixpoint split_comma_space_from (cur s : string) : list string :=
  match s with
  | EmptyString => [cur]
  | String "," (String " " rest) => cur :: split_comma_space_from "" rest
  | String c rest => split_comma_space_from (cur ++ String c "") rest
  end.

Definition split_comma_space (s : string) : list string :=
  split_comma_space_from "" s.

(** [" ".join(parts)]. *)
Definition join_space (parts : list string) : string :=
  String.concat " " parts.

(** [s[:n]]. *)
Definition take_prefix (n : nat) (s : string) : string :=
  String.substring 0 n s.

(** Membership of a string in a list of strings, [x in xs]. *)
Definition str_in (x : string) (xs : list string) : bool :=
  existsb (String.eqb x) xs.

(** Truthiness of [Optional[str]]: [None] and [""] are false. *)
Definition truthy_str (o : option string) : bool :=
  match o with
  | Some (String _ _) => true
  | _ => false
  end.

(** Truthiness of [Optional[int]]: [None] and [0] are false. *)
Definition truthy_int (o : option Z) : bool :=
  match o with
  | Some n => negb (n =? 0)
  | None => false
  end.

(** The value read from an optional field once it is known to be truthy. *)
Definition str_of (o : option string) : string := default "" o.
Definition int_of (o : option Z) : Z := default 0 o.

(** [str(n)] for an integer, as an f-string prints it. *)
Definition digit_char (d : Z) : ascii := ascii_of_N (48 + Z.to_N d).

Fixpoint digits_fuel (fuel : nat) (n : Z) (acc : string) : string :=
  match fuel with
  | O => acc
  | S fuel' =>
      let acc' := String (digit_char (n mod 10)) acc in
      if n <? 10 then acc' else digits_fuel fuel' (n / 10) acc'
  end.

Definition str_of_int (n : Z) : string :=
  if n <? 0
  then String "-" (digits_fuel (Z.to_nat (Z.log2 (- n)) + 1) (- n) "")
  else digits_fuel (Z.to_nat (Z.log2 n) + 1) n "".

(** *** Numbers *)

(** [float(n)]: the binary64 float nearest to the integer [n]. *)
Definition float_of_int (n : Z) : float :=
  SF2Prim (binary_normalize prec emax n 0 false).

(** [min(a, b)] on two numbers: [b] when [b < a], else [a]. *)
Definition min (a b : float) : float :=
  if (b <? a)%float then b else a.

(** [sum(xs)] of a list of floats, added from the left starting at 0.
    (Recent CPython compensates the rounding errors of such a sum; the
    integer-valued scores summed in this code produce none.) *)
Definition sum (xs : list float) : float :=
  fold_left PrimFloat.add xs 0%float.

(** Nearest integer to [num / den], ties to the even one ([den > 0],
    [num >= 0]). *)
Definition div_half_even (num den : Z) : Z :=
  let q := num / den in
  let r := num mod den in
  match (2 * r ?= den) with
  | Lt => q
  | Gt => q + 1
  | Eq => if Z.even q then q else q + 1
  end.

(** [round(x, 2)].  CPython rounds the exact binary value of [x] to two
    decimals (ties to even) and returns the float nearest to that decimal.
From 2^46 on the spacing of floats exceeds 0.01 and the result is [x]
itself; so it is for zeros, infinities and NaN. *)
Definition round2 (x : float) : float :=
  match Prim2SF x with
  | S754_finite s m e =>
      if (70368744177664 <=? abs x)%float then x
      else
        let k := match e with
                 | Zneg p => div_half_even (Zpos m * 100) (Zpos (2 ^ p))
                 | _ => Zpos m * 100 * 2 ^ e
                 end in
        let r := (float_of_int k / 100)%float in
        if s then (- r)%float else r
  | _ => x
  end.

(** Python's stable [list.sort(key=..., reverse=True)]: descending by key,
    equal keys keep their order. *)
Section Sort.
Context {A : Type} (key : A -> float).

Fixpoint insert_desc (x : A) (l : list A) : list A :=
  match l with
  | [] => [x]
  | y :: l' =>
      if (key x <? key y)%float
      then y :: insert_desc x l'
      else x :: y :: l'
  end.

Definition sort_desc (l : list A) : list A :=
  fold_right insert_desc [] l.
End Sort.

End Py.

#[global] Instance result_bind : MBind Py.Result :=
  fun A B k r => Py.bind r k.

(** ** data/schemas.py and the portfolio record of portfolio_rag_scraper.py

    Only the fields the scoring core reads are kept. *)

Module CompanyProfile.
Record t : Type := mk {
  name : string;
  description : option string;
  website : option string;
  industry : option string;
  location : option string;
  founded_year : option Z;
  funding_stage : option string
}.
End CompanyProfile.

Module FounderProfile.
Record t : Type := mk {
  name : string;
  title : option string;
  experience : option string;
  education : option string;
  linkedin_url : option string;
  linkedin_connections : option Z;
  endorsements : option Z
}.
End FounderProfile.

Module VCProfile.
Record t : Type := mk {
  name : string;
  investment_thesis : option string;
  focus_areas : list string;
  investment_stages : list string;
  portfolio_companies : list string;
  geographic_focus : list string
}.
End VCProfile.

(** The dict built by [_detect_portfolio_conflicts]; its key set is fixed. *)
Module Conflicts.
Record t : Type := mk {
  has_conflicts : bool;
  conflict_companies : list string;
  conflict_types : list string;
  severity : string
}.
End Conflicts.

(** The dict built by [_calculate_portfolio_fit]. *)
Module PortfolioFit.
Record t : Type := mk {
  portfolio_fit_score : float;
  reasoning : list string
}.
End PortfolioFit.

Module StartupProfile.
Record t : Type := mk {
  company : CompanyProfile.t;
  founders : list FounderProfile.t;
  quality_score : option float;
  portfolio_conflicts : option Conflicts.t;
  portfolio_fit : option PortfolioFit.t
}.
End StartupProfile.

Module FitMetrics.
Record t : Type := mk {
  startup_id : string;
  vc_firm : string;
  overall_score : float;
  text_similarity : float;
  industry_alignment : float;
  stage_alignment : float;
  geographic_alignment : float;
  network_proximity : float
}.

(** [Field(ge=0, le=100)]. *)
Definition in_range (v : float) : bool :=
  ((0 <=? v) && (v <=? 100))%float.

(** The validating constructor [FitMetrics(...)]: a score outside
    [0, 100] raises a validation error. *)
Definition create (startup_id vc_firm : string)
    (overall_score text_similarity industry_alignment stage_alignment
     geographic_alignment network_proximity : float) : Py.Result t :=
  if in_range overall_score && in_range text_similarity
     && in_range industry_alignment && in_range stage_alignment
     && in_range geographic_alignment && in_range network_proximity
  then Py.Ok (mk startup_id vc_firm overall_score text_similarity
                industry_alignment stage_alignment geographic_alignment
                network_proximity)
  else Py.Raise Py.ValidationError.
End FitMetrics.

Module PortfolioCompany.
Record t : Type := mk {
  name : string;
  industry : option string;
  description : option string
}.
End PortfolioCompany.

(** ** sklearn.metrics.pairwise.cosine_similarity on two single rows

    The library call of the text-similarity scorers: each row is divided by
    its Euclidean norm (a norm below ten machine epsilons counts as 1) and
    the two rows are multiplied.  Rows of different length, empty rows and
    rows holding NaN or an infinity are rejected with a [ValueError].  Sums
    are taken from the left. *)

Module Sklearn.
Definition is_finite (a : float) : bool :=
  negb (is_nan a || is_infinity a).

Definition dot (x y : list float) : float :=
  fold_left (fun acc p => (acc + fst p * snd p)%float) (combine x y) 0%float.

Definition row_norm (x : list float) : float := sqrt (dot x x).

Definition handle_zeros_in_scale (n : float) : float :=
  if (n <? 10 * 2.220446049250313e-16)%float then 1%float else n.

Definition normalize (x : list float) : list float :=
  let n := handle_zeros_in_scale (row_norm x) in
  map (fun a => (a / n)%float) x.

Definition cosine_similarity (x y : list float) : Py.Result float :=
  if negb (length x =? length y)%nat
     || (length x =? 0)%nat
     || negb (forallb is_finite x && forallb is_finite y)
  then Py.Raise Py.ValueError
  else Py.Ok (dot (normalize x) (normalize y)).
End Sklearn.

(** The sentence-embedding model: [None] when loading it failed, else the
    [encode] of one text, which may itself raise. *)
Definition EmbeddingModel : Type := option (string -> Py.Result (list float)).

(** ** models/fit_metric.py *)

Module FitMetricCalculator.
Section Calculator.
Variable embedding_model : EmbeddingModel.
(** [difflib.SequenceMatcher(None, a, b).ratio()]. *)
Variable sequence_ratio : string -> string -> float.

Definition _prepare_startup_text (startup : StartupProfile.t) : string :=
  let company := StartupProfile.company startup in
  let text_parts :=
    ((if Py.truthy_str (CompanyProfile.description company)
      then [Py.str_of (CompanyProfile.description company)] else [])
     ++ (if Py.truthy_str (CompanyProfile.industry company)
         then [Py.str_of (CompanyProfile.industry company)] else [])
     ++ flat_map
          (fun founder =>
             (if Py.truthy_str (FounderProfile.experience founder)
              then [Py.str_of (FounderProfile.experience founder)] else [])
             ++ (if Py.truthy_str (FounderProfile.title founder)
                 then [Py.str_of (FounderProfile.title founder)] else []))
          (StartupProfile.founders startup))%list in
  Py.join_space text_parts.

Definition _prepare_vc_text (vc_profile : VCProfile.t) : string :=
  let text_parts :=
    ((if Py.truthy_str (VCProfile.investment_thesis vc_profile)
      then [Py.str_of (VCProfile.investment_thesis vc_profile)] else [])
     ++ VCProfile.focus_areas vc_profile
     ++ VCProfile.portfolio_companies vc_profile)%list in
  Py.join_space text_parts.

(** [self.embedding_model.encode([text])[0]]; with no model loaded the
    attribute access on [None] raises. *)
Definition encode (text : string) : Py.Result (list float) :=
  match embedding_model with
  | Some model => model text
  | None => Py.Raise Py.AttributeError
  end.

Definition _calculate_text_similarity
    (startup : StartupProfile.t) (vc_profile : VCProfile.t) : float :=
  Py.try_except
    (let startup_text := _prepare_startup_text startup in
     let vc_text := _prepare_vc_text vc_profile in
     if negb (Py.truthy_str (Some startup_text))
        || negb (Py.truthy_str (Some vc_text))
     then Py.Ok 0%float
     else
       startup_embedding ← encode startup_text;
       vc_embedding ← encode vc_text;
       similarity ← Sklearn.cosine_similarity startup_embedding vc_embedding;
       Py.Ok (similarity * 100)%float)
    0%float.

Definition _calculate_word_similarity (word1 word2 : string) : float :=
  sequence_ratio word1 word2.

Definition _get_related_industries (industry : string) : list string :=
  if String.eqb industry "fintech"
  then ["financial services"; "banking"; "payments"; "insurtech"]
  else if String.eqb industry "healthtech"
  then ["healthcare"; "medical"; "biotech"; "digital health"]
  else if String.eqb industry "e-commerce"
  then ["retail"; "marketplace"; "online shopping"]
  else if String.eqb industry "saas"
  then ["software"; "enterprise"; "b2b"; "cloud"]
  else if String.eqb industry "ai/ml"
  then ["artificial intelligence"; "machine learning"; "data science"]
  else if String.eqb industry "mobile"
  then ["mobile app"; "ios"; "android"; "mobile gaming"]
  else [].

(** The three tiers of [_calculate_industry_alignment] after the guard. *)
Definition partial_match (startup_industry focus_area : string) : bool :=
  Py.contains startup_industry focus_area
  || Py.contains focus_area startup_industry
  || (0.7 <? _calculate_word_similarity startup_industry focus_area)%float.

Definition _calculate_industry_alignment
    (startup : StartupProfile.t) (vc_profile : VCProfile.t) : float :=
  let industry := CompanyProfile.industry (StartupProfile.company startup) in
  if negb (Py.truthy_str industry)
     || (length (VCProfile.focus_areas vc_profile) =? 0)%nat
  then 0%float
  else
    let startup_industry := Py.lower (Py.str_of industry) in
    let vc_focus_areas := map Py.lower (VCProfile.focus_areas vc_profile) in
    if Py.str_in startup_industry vc_focus_areas then 100%float
    else if existsb (partial_match startup_industry) vc_focus_areas
    then 75%float
    else if existsb (fun related => Py.str_in related vc_focus_areas)
              (_get_related_industries startup_industry)
    then 50%float
    else 0%float.

(** [stage_hierarchy.get(stage, 0)]. *)
Definition stage_hierarchy_get (stage : string) : Z :=
  if String.eqb stage "pre-seed" then 1
  else if String.eqb stage "seed" then 2
  else if String.eqb stage "series-a" then 3
  else if String.eqb stage "series-b" then 4
  else if String.eqb stage "series-c" then 5
  else if String.eqb stage "growth" then 6
  else 0.

(** The [for vc_stage in vc_stages] loop with its two [return]s. *)
Fixpoint stage_loop (startup_stage_num : Z) (vc_stages : list string) : float :=
  match vc_stages with
  | [] => 0%float
  | vc_stage :: rest =>
      let vc_stage_num := stage_hierarchy_get vc_stage in
      if Z.abs (startup_stage_num - vc_stage_num) <=? 1 then 75%float
      else if Z.abs (startup_stage_num - vc_stage_num) <=? 2 then 50%float
      else stage_loop startup_stage_num rest
  end.

Definition _calculate_stage_alignment
    (startup : StartupProfile.t) (vc_profile : VCProfile.t) : float :=
  let funding_stage :=
    CompanyProfile.funding_stage (StartupProfile.company startup) in
  if negb (Py.truthy_str funding_stage)
     || (length (VCProfile.investment_stages vc_profile) =? 0)%nat
  then 0%float
  else
    let startup_stage := Py.lower (Py.str_of funding_stage) in
    let vc_stages := map Py.lower (VCProfile.investment_stages vc_profile) in
    if Py.str_in startup_stage vc_stages then 100%float
    else stage_loop (stage_hierarchy_get startup_stage) vc_stages.

Definition _get_region (location : string) : string :=
  let location_lower := Py.lower location in
  if Py.any_in ["san francisco"; "palo alto"; "mountain view"] location_lower
  then "bay area"
  else if Py.any_in ["new york"; "brooklyn"; "manhattan"] location_lower
  then "new york"
  else if Py.any_in ["austin"; "dallas"; "houston"] location_lower
  then "texas"
  else if Py.any_in ["boston"; "cambridge"] location_lower
  then "boston"
  else "other".

Definition _calculate_geographic_alignment
    (startup : StartupProfile.t) (vc_profile : VCProfile.t) : float :=
  let location := CompanyProfile.location (StartupProfile.company startup) in
  if negb (Py.truthy_str location)
     || (length (VCProfile.geographic_focus vc_profile) =? 0)%nat
  then 0%float
  else
    let startup_location := Py.lower (Py.str_of location) in
    let vc_locations := map Py.lower (VCProfile.geographic_focus vc_profile) in
    if Py.str_in startup_location vc_locations then 100%float
    else if existsb (fun part => Py.str_in part vc_locations)
              (Py.split_comma_space startup_location)
    then 75%float
    else if existsb
              (fun vc_loc =>
                 String.eqb (_get_region startup_location) (_get_region vc_loc))
              vc_locations
    then 50%float
    else 0%float.

Definition relevant_keywords : list string :=
  ["founder"; "ceo"; "cto"; "co-founder"; "startup"; "entrepreneur";
   "google"; "facebook"; "amazon"; "apple"; "microsoft"; "netflix";
   "uber"; "airbnb"; "stripe"; "square"; "palantir"].

(** [score += points] for every key of [keys] found in [text]. *)
Definition keyword_points (points : Z) (keys : list string) (text : string) : Z :=
  fold_left (fun score k => if Py.contains k text then score + points else score)
    keys 0.

Definition _evaluate_experience_quality (experience : string) : float :=
  let experience_lower := Py.lower experience in
  let score := keyword_points 10 relevant_keywords experience_lower in
  Py.min 50%float (Py.float_of_int score).

Definition connection_points (founder : FounderProfile.t) : Z :=
  let c := FounderProfile.linkedin_connections founder in
  if Py.truthy_int c then
    if Py.int_of c >? 1000 then 30
    else if Py.int_of c >? 500 then 20
    else if Py.int_of c >? 200 then 10
    else 0
  else 0.

Definition endorsement_points (founder : FounderProfile.t) : Z :=
  let e := FounderProfile.endorsements founder in
  if Py.truthy_int e then
    if Py.int_of e >? 50 then 20
    else if Py.int_of e >? 20 then 15
    else if Py.int_of e >? 10 then 10
    else 0
  else 0.

Definition founder_network_score (founder : FounderProfile.t) : float :=
  let founder_score :=
    Py.float_of_int (connection_points founder + endorsement_points founder) in
  if Py.truthy_str (FounderProfile.experience founder)
  then (founder_score
        + _evaluate_experience_quality
            (Py.str_of (FounderProfile.experience founder)))%float
  else founder_score.

Definition _calculate_network_proximity
    (startup : StartupProfile.t) (vc_profile : VCProfile.t) : float :=
  let founders := StartupProfile.founders startup in
  let founder_count := Z.of_nat (length founders) in
  if founder_count =? 0 then 0%float
  else
    let total_score :=
      fold_left (fun total founder => (total + founder_network_score founder)%float)
        founders 0%float in
    Py.min 100%float (total_score / Py.float_of_int founder_count)%float.

Definition _calculate_overall_score
    (text_similarity industry_alignment stage_alignment
     geographic_alignment network_proximity : float) : float :=
  let overall_score :=
    (text_similarity * 0.25 + industry_alignment * 0.25
     + stage_alignment * 0.20 + geographic_alignment * 0.15
     + network_proximity * 0.15)%float in
  Py.round2 overall_score.

Definition calculate_fit_metrics
    (startup : StartupProfile.t) (vc_profile : VCProfile.t)
  : Py.Result FitMetrics.t :=
  let text_similarity := _calculate_text_similarity startup vc_profile in
  let industry_alignment := _calculate_industry_alignment startup vc_profile in
  let stage_alignment := _calculate_stage_alignment startup vc_profile in
  let geographic_alignment := _calculate_geographic_alignment startup vc_profile in
  let network_proximity := _calculate_network_proximity startup vc_profile in
  let overall_score :=
    _calculate_overall_score text_similarity industry_alignment
      stage_alignment geographic_alignment network_proximity in
  FitMetrics.create
    (CompanyProfile.name (StartupProfile.company startup))
    (VCProfile.name vc_profile)
    overall_score text_similarity industry_alignment stage_alignment
    geographic_alignment network_proximity.
End Calculator.
End FitMetricCalculator.

(** ** models/optimized_fit_metric.py

    [_get_text_embedding] is memoised twice in the source (an LRU cache and a
    keyed cache with a time to live); both caches store what [encode]
    returned for the same text, so the embedding of a text is written here as
    a function of the text.  (The keyed cache files a text under its MD5
    digest; two texts with one digest, which would share an entry, are not
    told apart from this.)  The per-VC cache [vc_embeddings] is keyed by the
    firm's name, not by its text, and is kept as explicit state. *)

Module OptimizedFitMetricCalculator.
Section Calculator.
Variable embedding_model : EmbeddingModel.

(** [np.zeros(384)]. *)
Definition zeros384 : list float := repeat 0%float 384.

Definition _get_text_embedding (text : string) : list float :=
  match embedding_model with
  | Some model =>
      if negb (Py.truthy_str (Some text)) then zeros384
      else Py.try_except (model text) zeros384
  | None => zeros384
  end.

Definition _prepare_startup_text (startup : StartupProfile.t) : string :=
  let company := StartupProfile.company startup in
  let text_parts :=
    ((if Py.truthy_str (CompanyProfile.description company)
      then [Py.str_of (CompanyProfile.description company)] else [])
     ++ (if Py.truthy_str (CompanyProfile.industry company)
         then [Py.str_of (CompanyProfile.industry company)] else [])
     ++ flat_map
          (fun founder =>
             (if Py.truthy_str (FounderProfile.experience founder)
              then [Py.take_prefix 200
                      (Py.str_of (FounderProfile.experience founder))]
              else [])
             ++ (if Py.truthy_str (FounderProfile.title founder)
                 then [Py.str_of (FounderProfile.title founder)] else []))
          (firstn 2 (StartupProfile.founders startup)))%list in
  Py.join_space text_parts.

Definition _prepare_vc_text (vc_profile : VCProfile.t) : string :=
  let text_parts :=
    ((if Py.truthy_str (VCProfile.investment_thesis vc_profile)
      then [Py.str_of (VCProfile.investment_thesis vc_profile)] else [])
     ++ firstn 5 (VCProfile.focus_areas vc_profile)
     ++ firstn 10 (VCProfile.portfolio_companies vc_profile))%list in
  Py.join_space text_parts.

Definition _get_vc_embedding
    (vc_embeddings : gmap string (list float)) (vc_profile : VCProfile.t)
  : list float * gmap string (list float) :=
  let vc_key := "vc_" ++ VCProfile.name vc_profile in
  match vc_embeddings !! vc_key with
  | Some embedding => (embedding, vc_embeddings)
  | None =>
      let vc_text := _prepare_vc_text vc_profile in
      let embedding := _get_text_embedding vc_text in
      (embedding, <[vc_key := embedding]> vc_embeddings)
  end.

Definition _calculate_text_similarity_optimized
    (startup : StartupProfile.t) (vc_embedding : list float) : float :=
  Py.try_except
    (let startup_text := _prepare_startup_text startup in
     let startup_embedding := _get_text_embedding startup_text in
     similarity ← Sklearn.cosine_similarity startup_embedding vc_embedding;
     Py.Ok (similarity * 100)%float)
    0%float.

Definition _calculate_industry_alignment
    (startup : StartupProfile.t) (vc_profile : VCProfile.t) : float :=
  let industry := CompanyProfile.industry (StartupProfile.company startup) in
  if negb (Py.truthy_str industry)
     || (length (VCProfile.focus_areas vc_profile) =? 0)%nat
  then 0%float
  else
    let startup_industry := Py.lower (Py.str_of industry) in
    let vc_focus_areas := map Py.lower (VCProfile.focus_areas vc_profile) in
    if Py.str_in startup_industry vc_focus_areas then 100%float
    else if existsb
              (fun focus_area =>
                 Py.contains startup_industry focus_area
                 || Py.contains focus_area startup_industry)
              vc_focus_areas
    then 75%float
    else 0%float.

Definition stage_hierarchy_get (stage : string) : Z :=
  if String.eqb stage "pre-seed" then 1
  else if String.eqb stage "seed" then 2
  else if String.eqb stage "series-a" then 3
  else if String.eqb stage "series-b" then 4
  else 0.

Definition _calculate_stage_alignment
    (startup : StartupProfile.t) (vc_profile : VCProfile.t) : float :=
  let funding_stage :=
    CompanyProfile.funding_stage (StartupProfile.company startup) in
  if negb (Py.truthy_str funding_stage)
     || (length (VCProfile.investment_stages vc_profile) =? 0)%nat
  then 0%float
  else
    let startup_stage := Py.lower (Py.str_of funding_stage) in
    let vc_stages := map Py.lower (VCProfile.investment_stages vc_profile) in
    if Py.str_in startup_stage vc_stages then 100%float
    else
      let startup_stage_num := stage_hierarchy_get startup_stage in
      if existsb
           (fun vc_stage =>
              Z.abs (startup_stage_num - stage_hierarchy_get vc_stage) <=? 1)
           vc_stages
      then 75%float
      else 0%float.

Definition _calculate_geographic_alignment
    (startup : StartupProfile.t) (vc_profile : VCProfile.t) : float :=
  let location := CompanyProfile.location (StartupProfile.company startup) in
  if negb (Py.truthy_str location)
     || (length (VCProfile.geographic_focus vc_profile) =? 0)%nat
  then 0%float
  else
    let startup_location := Py.lower (Py.str_of location) in
    let vc_locations := map Py.lower (VCProfile.geographic_focus vc_profile) in
    if Py.str_in startup_location vc_locations then 100%float
    else if existsb (fun part => Py.str_in part vc_locations)
              (Py.split_comma_space startup_location)
    then 75%float
    else 0%float.

Definition _evaluate_experience_fast (experience : string) : float :=
  let experience_lower := Py.lower experience in
  let score :=
    FitMetricCalculator.keyword_points 10
      ["founder"; "ceo"; "cto"; "startup"; "google"; "facebook"; "amazon"]
      experience_lower in
  Py.min 50%float (Py.float_of_int score).

Definition connection_points (founder : FounderProfile.t) : Z :=
  let c := FounderProfile.linkedin_connections founder in
  if Py.truthy_int c then
    if Py.int_of c >? 500 then 30
    else if Py.int_of c >? 200 then 20
    else if Py.int_of c >? 100 then 10
    else 0
  else 0.

Definition endorsement_points (founder : FounderProfile.t) : Z :=
  let e := FounderProfile.endorsements founder in
  if Py.truthy_int e then
    if Py.int_of e >? 20 then 20
    else if Py.int_of e >? 10 then 15
    else 0
  else 0.

Definition founder_network_score (founder : FounderProfile.t) : float :=
  let founder_score :=
    Py.float_of_int (connection_points founder + endorsement_points founder) in
  if Py.truthy_str (FounderProfile.experience founder)
  then (founder_score
        + _evaluate_experience_fast
            (Py.str_of (FounderProfile.experience founder)))%float
  else founder_score.

Definition _calculate_network_proximity
    (startup : StartupProfile.t) (vc_profile : VCProfile.t) : float :=
  let founders := StartupProfile.founders startup in
  match founders with
  | [] => 0%float
  | _ =>
      let founder_count := Z.of_nat (length founders) in
      let total_score :=
        fold_left
          (fun total founder => (total + founder_network_score founder)%float)
          founders 0%float in
      Py.min 100%float (total_score / Py.float_of_int founder_count)%float
  end.

Definition _calculate_overall_score
    (text_similarity industry_alignment stage_alignment
     geographic_alignment network_proximity : float) : float :=
  let overall_score :=
    (text_similarity * 0.25 + industry_alignment * 0.25
     + stage_alignment * 0.20 + geographic_alignment * 0.15
     + network_proximity * 0.15)%float in
  Py.round2 overall_score.

Definition _calculate_single_fit_metrics
    (startup : StartupProfile.t) (vc_profile : VCProfile.t)
    (vc_embedding : list float) : Py.Result FitMetrics.t :=
  let text_similarity :=
    _calculate_text_similarity_optimized startup vc_embedding in
  let industry_alignment := _calculate_industry_alignment startup vc_profile in
  let stage_alignment := _calculate_stage_alignment startup vc_profile in
  let geographic_alignment := _calculate_geographic_alignment startup vc_profile in
  let network_proximity := _calculate_network_proximity startup vc_profile in
  let overall_score :=
    _calculate_overall_score text_similarity industry_alignment
      stage_alignment geographic_alignment network_proximity in
  FitMetrics.create
    (CompanyProfile.name (StartupProfile.company startup))
    (VCProfile.name vc_profile)
    overall_score text_similarity industry_alignment stage_alignment
    geographic_alignment network_proximity.

(** One turn of the [for startup in startups] loop: the [try] appends the
    metrics, the [except Exception] logs and continues. *)
Definition batch_step (vc_profile : VCProfile.t) (vc_embedding : list float)
    (results : list FitMetrics.t) (startup : StartupProfile.t)
  : list FitMetrics.t :=
  match _calculate_single_fit_metrics startup vc_profile vc_embedding with
  | Py.Ok fit_metrics => (results ++ [fit_metrics])%list
  | Py.Raise _ => results
  end.

Definition calculate_fit_metrics_batch
    (vc_embeddings : gmap string (list float))
    (startups : list StartupProfile.t) (vc_profile : VCProfile.t)
  : list FitMetrics.t * gmap string (list float) :=
  let '(vc_embedding, vc_embeddings') :=
    _get_vc_embedding vc_embeddings vc_profile in
  (fold_left (batch_step vc_profile vc_embedding) startups [],
   vc_embeddings').
End Calculator.
End OptimizedFitMetricCalculator.

(** ** metrics/quality_scorer.py *)

Module QualityScorer.

Definition prestigious_companies : list string :=
  ["google"; "facebook"; "meta"; "amazon"; "apple"; "microsoft"; "netflix";
   "uber"; "airbnb"; "stripe"; "square"; "palantir"; "tesla"; "spacex";
   "linkedin"; "twitter"; "snapchat"; "instagram"; "whatsapp"; "zoom";
   "salesforce"; "oracle"; "adobe"; "intel"; "nvidia"; "amd"; "cisco";
   "goldman sachs"; "mckinsey"; "bain"; "bcg"; "deloitte"; "pwc"].

Definition prestigious_universities : list string :=
  ["stanford"; "harvard"; "mit"; "berkeley"; "caltech"; "princeton";
   "yale"; "columbia"; "upenn"; "cornell"; "brown"; "dartmouth";
   "duke"; "northwestern"; "chicago"; "nyu"; "usc"; "ucla"; "ucsd";
   "oxford"; "cambridge"; "imperial"; "lse"; "eth zurich"; "tsinghua"].

Definition prestigious_honors : list (string * Z) :=
  [("rhodes scholar", 25); ("marshall scholar", 25);
   ("fulbright scholar", 20); ("gates cambridge", 20);
   ("truman scholar", 18); ("goldwater scholar", 15);
   ("churchill scholar", 20); ("mitchell scholar", 18);
   ("schwarzman scholar", 20); ("knight-hennessy", 25);
   ("neuroscience scholar", 15); ("neo scholar", 20);
   ("y combinator", 30); ("y combinator alumni", 25); ("techstars", 15);
   ("500 startups", 12); ("startup chile", 10); ("masschallenge", 8);
   ("founder institute", 5);
   ("rise fellow", 25); ("kleiner perkins fellow", 25); ("kp fellow", 25);
   ("greylock fellow", 25); ("sequoia scout", 20);
   ("first round fellow", 20); ("andreessen horowitz scout", 20);
   ("a16z scout", 20); ("thiel fellow", 30); ("thiel fellowship", 30);
   ("forbes 30 under 30", 20); ("fortune 40 under 40", 18);
   ("inc 30 under 30", 15);
   ("turing award", 50); ("nobel prize", 50); ("macarthur fellow", 35);
   ("macarthur genius", 35); ("sloan fellow", 25); ("packard fellow", 25);
   ("guggenheim fellow", 20); ("national science foundation", 15);
   ("nsf graduate fellow", 15); ("nsf postdoc", 12);
   ("google science fair", 15); ("intel isef", 12); ("regeneron sts", 15);
   ("davidson fellow", 15); ("google code-in", 8);
   ("google summer of code", 8); ("facebook hackathon", 5);
   ("microsoft imagine cup", 8);
   ("west point", 20); ("naval academy", 20); ("air force academy", 20);
   ("coast guard academy", 18); ("merchant marine academy", 15);
   ("white house fellow", 25); ("presidential innovation fellow", 20);
   ("google apm", 20); ("google associate product manager", 20);
   ("facebook rotpm", 18); ("facebook rotational product manager", 18);
   ("microsoft pm", 15); ("amazon pm", 15); ("apple pm", 15);
   ("uber pm", 12); ("airbnb pm", 12);
   ("nature", 20); ("science", 20); ("cell", 18); ("neuron", 15);
   ("pnas", 12); ("jama", 15); ("lancet", 15); ("ieee", 10); ("acm", 10);
   ("arxiv", 8);
   ("patent", 10); ("patents", 10); ("patented", 10); ("inventor", 12);
   ("co-inventor", 8)].

(** [score += points] for every [(honor, points)] whose honor is in [text]. *)
Definition honor_points (text : string) : Z :=
  fold_left
    (fun score hp => if Py.contains (fst hp) text then score + snd hp else score)
    prestigious_honors 0.

Definition _evaluate_honors (founder : FounderProfile.t) : float :=
  let from_experience :=
    if Py.truthy_str (FounderProfile.experience founder)
    then honor_points (Py.lower (Py.str_of (FounderProfile.experience founder)))
    else 0 in
  let from_education :=
    if Py.truthy_str (FounderProfile.education founder)
    then honor_points (Py.lower (Py.str_of (FounderProfile.education founder)))
    else 0 in
  let from_name :=
    if Py.truthy_str (Some (FounderProfile.name founder))
       && Py.contains "dr." (Py.lower (FounderProfile.name founder))
    then 10 else 0 in
  Py.min 30%float (Py.float_of_int (from_experience + from_education + from_name)).

(** *** The years-of-experience pattern

    [re.findall(r'(\d+)\s*(?:years?|yrs?)', text)].  Greedy matching
    decides the match at a position: a shorter run of digits is followed
    by a digit and a shorter run of spaces by a space, neither of which
    starts a unit. *)

Definition is_digit (c : ascii) : bool :=
  let n := N_of_ascii c in ((48 <=? n) && (n <=? 57))%N.

(** [\s] on code points below 256. *)
Definition is_space (c : ascii) : bool :=
  let n := N_of_ascii c in
  (((9 <=? n) && (n <=? 13)) || ((28 <=? n) && (n <=? 32))
   || (n =? 133) || (n =? 160))%N.

(** The longest prefix of [s] whose characters satisfy [p], and the rest. *)
Fixpoint span (p : ascii -> bool) (s : string) : string * string :=
  match s with
  | EmptyString => (EmptyString, EmptyString)
  | String c s' =>
      if p c
      then let '(taken, rest) := span p s' in (String c taken, rest)
      else (EmptyString, s)
  end.

(** Length of the unit [years?|yrs?] at the head of [s], if one is there. *)
Definition unit_length (s : string) : option nat :=
  let optional_s (rest : string) : nat :=
    match rest with
    | String "s" _ => 1%nat
    | _ => 0%nat
    end in
  match s with
  | String "y" (String "e" (String "a" (String "r" rest))) =>
      Some (4 + optional_s rest)%nat
  | String "y" (String "r" rest) => Some (2 + optional_s rest)%nat
  | _ => None
  end.

(** A match of the pattern at the head of [s]: the captured digits and the
    length of the whole match. *)
Definition match_years (s : string) : option (string * nat) :=
  let '(digits, after_digits) := span is_digit s in
  match digits with
  | EmptyString => None
  | _ =>
      let '(spaces, after_spaces) := span is_space after_digits in
      match unit_length after_spaces with
      | Some n => Some (digits, (String.length digits + String.length spaces + n)%nat)
      | None => None
      end
  end.

(** The scan of [findall]: after a match the search resumes behind it. *)
Fixpoint findall_years_from (skip : nat) (s : string) : list string :=
  match s with
  | EmptyString => []
  | String _ s' =>
      match skip with
      | S k => findall_years_from k s'
      | O =>
          match match_years s with
          | Some (digits, n) => digits :: findall_years_from (n - 1) s'
          | None => findall_years_from 0 s'
          end
      end
  end.

Definition findall_years (s : string) : list string :=
  findall_years_from 0 s.

(** The number a string of decimal digits denotes. *)
Definition decimal_value (y : string) : Z :=
  fold_left (fun acc c => 10 * acc + Z.of_N (N_of_ascii c - 48))
    (list_ascii_of_string y) 0.

(** [sys.int_info.default_max_str_digits]. *)
Definition max_str_digits : Z := 4300.

(** [int(y)] for a string of decimal digits: CPython converts at most
    [max_str_digits] digits and raises [ValueError] on a longer string. *)
Definition int_of_digits (y : string) : Py.Result Z :=
  if Z.of_nat (String.length y) >? max_str_digits
  then Py.Raise Py.ValueError
  else Py.Ok (decimal_value y).

(** [[int(y) for y in year_patterns]]: the first conversion that raises ends
    the comprehension. *)
Fixpoint int_of_each (year_patterns : list string) : Py.Result (list Z) :=
  match year_patterns with
  | [] => Py.Ok []
  | y :: rest =>
      n ← int_of_digits y;
      ns ← int_of_each rest;
      Py.Ok (n :: ns)
  end.

(** [max(xs)] of a non-empty list of integers. *)
Definition max_list (xs : list Z) : Z :=
  match xs with
  | [] => 0
  | x :: rest => fold_left Z.max rest x
  end.

(** The points the years-of-experience block adds to [score]. *)
Definition years_bonus (experience_lower : string) : Py.Result Z :=
  if Py.contains "years" experience_lower || Py.contains "yr" experience_lower
  then
    let year_patterns := findall_years experience_lower in
    match year_patterns with
    | [] => Py.Ok 0
    | _ =>
        converted ← int_of_each year_patterns;
        let years := max_list converted in
        Py.Ok (if years >=? 10 then 15
               else if years >=? 5 then 12
               else if years >=? 3 then 8
               else if years >=? 1 then 4
               else 0)
    end
  else Py.Ok 0.

Definition experience_keywords : list string :=
  ["founder"; "ceo"; "cto"; "co-founder"; "startup"; "entrepreneur";
   "director"; "manager"; "lead"; "senior"; "principal"; "architect";
   "vp"; "vice president"; "head of"; "chief"; "executive"].

(** The function has no handler of its own: a [ValueError] of [int(y)]
    leaves it. *)
Definition _evaluate_experience (experience : option string) : Py.Result float :=
  if negb (Py.truthy_str experience) then Py.Ok 0%float
  else
    let experience_lower := Py.lower (Py.str_of experience) in
    bonus ← years_bonus experience_lower;
    let score :=
      FitMetricCalculator.keyword_points 12 prestigious_companies experience_lower
      + FitMetricCalculator.keyword_points 3 experience_keywords experience_lower
      + bonus in
    Py.Ok (Py.min 35%float (Py.float_of_int score)).

Definition _evaluate_education (education : option string) : float :=
  if negb (Py.truthy_str education) then 0%float
  else
    let education_lower := Py.lower (Py.str_of education) in
    let score :=
      FitMetricCalculator.keyword_points 12 prestigious_universities education_lower
      + FitMetricCalculator.keyword_points 8
          ["phd"; "doctorate"; "mba"; "master"; "m.s."; "m.a."; "md"]
          education_lower
      + FitMetricCalculator.keyword_points 3
          ["computer science"; "engineering"; "business"; "economics";
           "mathematics"; "physics"; "chemistry"; "biology"; "medicine";
           "data science"; "statistics"; "finance"; "marketing"]
          education_lower in
    Py.min 20%float (Py.float_of_int score).

Definition _evaluate_network (founder : FounderProfile.t) : float :=
  let c := FounderProfile.linkedin_connections founder in
  let e := FounderProfile.endorsements founder in
  let from_connections :=
    if Py.truthy_int c then
      if Py.int_of c >? 1000 then 10
      else if Py.int_of c >? 500 then 8
      else if Py.int_of c >? 200 then 6
      else if Py.int_of c >? 100 then 4
      else 0
    else 0 in
  let from_endorsements :=
    if Py.truthy_int e then
      if Py.int_of e >? 50 then 5
      else if Py.int_of e >? 20 then 4
      else if Py.int_of e >? 10 then 3
      else 0
    else 0 in
  Py.min 15%float (Py.float_of_int (from_connections + from_endorsements)).

(** The body of the [try]; the [except Exception] returns 0.0. *)
Definition _calculate_founder_quality (founder : FounderProfile.t) : float :=
  Py.try_except
    (experience_score ← _evaluate_experience (FounderProfile.experience founder);
     let education_score := _evaluate_education (FounderProfile.education founder) in
     let honors_score := _evaluate_honors founder in
     let network_score := _evaluate_network founder in
     let total_score :=
       (0 + experience_score + education_score + honors_score + network_score)%float in
     Py.Ok (Py.min 100%float total_score))
    0%float.

Definition _calculate_company_quality (company : CompanyProfile.t) : float :=
  let from_description :=
    if Py.truthy_str (CompanyProfile.description company) then
      let desc_length :=
        Z.of_nat (String.length (Py.str_of (CompanyProfile.description company))) in
      if desc_length >? 200 then 20
      else if desc_length >? 100 then 15
      else if desc_length >? 50 then 10
      else 0
    else 0 in
  let from_industry :=
    if Py.truthy_str (CompanyProfile.industry company)
       && Py.any_in
            ["fintech"; "healthtech"; "ai"; "ml"; "saas"; "e-commerce";
             "marketplace"; "mobile"; "software"; "technology"]
            (Py.lower (Py.str_of (CompanyProfile.industry company)))
    then 15 else 0 in
  let from_location :=
    if Py.truthy_str (CompanyProfile.location company)
       && Py.any_in
            ["san francisco"; "new york"; "austin"; "boston";
             "seattle"; "los angeles"; "chicago"; "miami"]
            (Py.lower (Py.str_of (CompanyProfile.location company)))
    then 10 else 0 in
  let from_age :=
    if Py.truthy_int (CompanyProfile.founded_year company) then
      let current_year := 2024 in
      let age := current_year - Py.int_of (CompanyProfile.founded_year company) in
      if age <=? 3 then 15
      else if age <=? 5 then 10
      else if age <=? 10 then 5
      else 0
    else 0 in
  Py.min 100%float
    (Py.float_of_int (from_description + from_industry + from_location + from_age)).

(** The role a title contributes to the [roles] set, if any. *)
Definition role_of_title (title : option string) : option string :=
  if Py.truthy_str title then
    let title_lower := Py.lower (Py.str_of title) in
    if Py.contains "ceo" title_lower || Py.contains "founder" title_lower
    then Some "ceo"
    else if Py.contains "cto" title_lower || Py.contains "tech" title_lower
    then Some "cto"
    else if Py.contains "cpo" title_lower || Py.contains "product" title_lower
    then Some "cpo"
    else if Py.contains "cmo" title_lower || Py.contains "marketing" title_lower
    then Some "cmo"
    else if Py.contains "cfo" title_lower || Py.contains "finance" title_lower
    then Some "cfo"
    else None
  else None.

Definition collect_roles (founders : list FounderProfile.t) : gset string :=
  fold_left
    (fun roles founder =>
       match role_of_title (FounderProfile.title founder) with
       | Some role => roles ∪ {[ role ]}
       | None => roles
       end)
    founders ∅.

Definition _calculate_team_completeness (founders : list FounderProfile.t) : float :=
  let founder_count := Z.of_nat (length founders) in
  let from_count :=
    if founder_count >=? 3 then 30
    else if founder_count =? 2 then 25
    else if founder_count =? 1 then 15
    else 0 in
  let roles := collect_roles founders in
  let n_roles := Z.of_nat (size roles) in
  let from_diversity :=
    if n_roles >=? 3 then 40
    else if n_roles =? 2 then 30
    else if n_roles =? 1 then 20
    else 0 in
  let key_roles : gset string := {[ "ceo"; "cto"; "cpo" ]} in
  let n_key := Z.of_nat (size (key_roles ∩ roles)) in
  let from_key_roles :=
    if bool_decide (key_roles ⊆ roles) then 30
    else if n_key >=? 2 then 20
    else if n_key >=? 1 then 10
    else 0 in
  Py.min 100%float (Py.float_of_int (from_count + from_diversity + from_key_roles)).

(** The [for founder in startup.founders] loop that fills [founder_scores]. *)
Definition founder_scores_of (founders : list FounderProfile.t) : list float :=
  fold_left
    (fun founder_scores founder =>
       (founder_scores ++ [_calculate_founder_quality founder])%list)
    founders [].

Definition calculate_quality_score (startup : StartupProfile.t) : float :=
  match StartupProfile.founders startup with
  | [] => 0%float
  | _ =>
      let founder_scores := founder_scores_of (StartupProfile.founders startup) in
      let company_score := _calculate_company_quality (StartupProfile.company startup) in
      let team_score := _calculate_team_completeness (StartupProfile.founders startup) in
      let overall_score :=
        ((Py.sum founder_scores
          / Py.float_of_int (Z.of_nat (length founder_scores))) * 0.6
         + company_score * 0.25
         + team_score * 0.15)%float in
      Py.round2 overall_score
  end.

End QualityScorer.

(** ** unified_vc_sourcing_agent.py: conflicts, portfolio fit and ranking

    The asynchronous methods first resolve the firm's portfolio through the
    scraping collaborators; the resolved list is an argument here. *)

Module ResultFitMetrics.
(** The ["fit_metrics"] dict of one result. *)
Record t : Type := mk {
  overall_score : float;
  fit_score : float;
  quality_score : option float;
  portfolio_fit_score : option float;
  portfolio_conflicts : option Conflicts.t;
  text_similarity : float;
  industry_alignment : float;
  stage_alignment : float;
  geographic_alignment : float;
  network_proximity : float
}.
End ResultFitMetrics.

Module AnalysisResult.
(** One dict of [detailed_results]; the founder dicts carry the fields of
    [FounderProfile.t]. *)
Record t : Type := mk {
  company_name : string;
  website : option string;
  industry : option string;
  location : option string;
  funding_stage : option string;
  product_description : option string;
  founders : list FounderProfile.t;
  fit_metrics : ResultFitMetrics.t;
  recommendation : string;
  pros : list string;
  cons : list string;
  portfolio_conflict_details : option Conflicts.t;
  portfolio_fit_details : option PortfolioFit.t
}.
End AnalysisResult.

Module UnifiedVCSourcingAgent.
Section Agent.
(** [difflib.SequenceMatcher(None, text1, text2).ratio()]. *)
Variable sequence_ratio : string -> string -> float.

Definition _calculate_similarity (text1 text2 : string) : float :=
  sequence_ratio text1 text2.

(** *** _detect_portfolio_conflicts *)

Definition name_rule (startup : StartupProfile.t)
    (portfolio_company : PortfolioCompany.t) : bool :=
  (0.7 <? _calculate_similarity
            (Py.lower (CompanyProfile.name (StartupProfile.company startup)))
            (Py.lower (PortfolioCompany.name portfolio_company)))%float.

Definition industry_rule (startup : StartupProfile.t)
    (portfolio_company : PortfolioCompany.t) : bool :=
  let mine := CompanyProfile.industry (StartupProfile.company startup) in
  let theirs := PortfolioCompany.industry portfolio_company in
  Py.truthy_str mine && Py.truthy_str theirs
  && String.eqb (Py.lower (Py.str_of mine)) (Py.lower (Py.str_of theirs)).

Definition description_rule (startup : StartupProfile.t)
    (portfolio_company : PortfolioCompany.t) : bool :=
  let mine := CompanyProfile.description (StartupProfile.company startup) in
  let theirs := PortfolioCompany.description portfolio_company in
  Py.truthy_str mine && Py.truthy_str theirs
  && (0.6 <? _calculate_similarity
               (Py.lower (Py.str_of mine)) (Py.lower (Py.str_of theirs)))%float.

(** The three assignments under one triggered [if]. *)
Definition record_conflict (company_name conflict_type : string)
    (conflicts : Conflicts.t) : Conflicts.t :=
  Conflicts.mk true
    (Conflicts.conflict_companies conflicts ++ [company_name])%list
    (Conflicts.conflict_types conflicts ++ [conflict_type])%list
    (Conflicts.severity conflicts).

(** The body of [for portfolio_company in portfolio_companies]. *)
Definition conflict_step (startup : StartupProfile.t)
    (conflicts : Conflicts.t) (portfolio_company : PortfolioCompany.t)
  : Conflicts.t :=
  let name := PortfolioCompany.name portfolio_company in
  let c1 :=
    if name_rule startup portfolio_company
    then record_conflict name "name_similarity" conflicts else conflicts in
  let c2 :=
    if industry_rule startup portfolio_company
    then record_conflict name "industry_conflict" c1 else c1 in
  if description_rule startup portfolio_company
  then record_conflict name "business_model_conflict" c2 else c2.

Definition _detect_portfolio_conflicts (startup : StartupProfile.t)
    (portfolio_companies : list PortfolioCompany.t) : Conflicts.t :=
  let conflicts :=
    fold_left (conflict_step startup) portfolio_companies
      (Conflicts.mk false [] [] "none") in
  let n := Z.of_nat (length (Conflicts.conflict_companies conflicts)) in
  Conflicts.mk
    (Conflicts.has_conflicts conflicts)
    (Conflicts.conflict_companies conflicts)
    (Conflicts.conflict_types conflicts)
    (if n >? 2 then "high"
     else if n >? 0 then "medium"
     else Conflicts.severity conflicts).

(** *** _calculate_portfolio_fit *)

(** The [industry_counts] dict; its keys are the [industry] attributes as
    they are, [None] included. *)
Definition count_industries (portfolio_industries : list (option string))
  : gmap (option string) Z :=
  fold_left
    (fun industry_counts industry =>
       <[industry := default 0 (industry_counts !! industry) + 1]> industry_counts)
    portfolio_industries ∅.

Definition _calculate_portfolio_fit (startup : StartupProfile.t)
    (portfolio_companies : list PortfolioCompany.t) : PortfolioFit.t :=
  match portfolio_companies with
  | [] => PortfolioFit.mk 50%float ["No portfolio data available"]
  | _ =>
      let portfolio_industries := map PortfolioCompany.industry portfolio_companies in
      let industry_counts := count_industries portfolio_industries in
      let startup_industry :=
        CompanyProfile.industry (StartupProfile.company startup) in
      match industry_counts !! startup_industry with
      | None => PortfolioFit.mk 75%float ["New industry for portfolio"]
      | Some count =>
          if count >? 5 then
            PortfolioFit.mk 30%float
              ["Industry over-represented (" ++ Py.str_of_int count ++ " companies)"]
          else if count >? 2 then
            PortfolioFit.mk 50%float
              ["Industry well-represented (" ++ Py.str_of_int count ++ " companies)"]
          else
            PortfolioFit.mk 65%float
              ["Industry under-represented (" ++ Py.str_of_int count ++ " companies)"]
      end
  end.

(** *** Ranking *)

(** Reading a score off an attribute that may be [None]: comparing [None]
    with a number, or subscripting it, raises. *)
Definition required {A : Type} (o : option A) : Py.Result A :=
  match o with
  | Some a => Py.Ok a
  | None => Py.Raise Py.TypeError
  end.

Definition _analyze_startup_pros_cons (startup : StartupProfile.t)
    (metric : FitMetrics.t) (vc_profile : VCProfile.t)
  : Py.Result (list string * list string) :=
  let overall := FitMetrics.overall_score metric in
  let '(pros1, cons1) :=
    if (80 <? overall)%float then (["Excellent fit with VC criteria"], [])
    else if (60 <? overall)%float then (["Good fit with VC criteria"], [])
    else ([], ["Poor fit with VC criteria"]) in
  quality ← required (StartupProfile.quality_score startup);
  let '(pros2, cons2) :=
    if (80 <? quality)%float then ((pros1 ++ ["High quality founders"])%list, cons1)
    else if (quality <? 50)%float then (pros1, (cons1 ++ ["Low quality founders"])%list)
    else (pros1, cons1) in
  fit ← required (StartupProfile.portfolio_fit startup);
  let score := PortfolioFit.portfolio_fit_score fit in
  let '(pros3, cons3) :=
    if (70 <? score)%float then ((pros2 ++ ["Good portfolio fit"])%list, cons2)
    else if (score <? 40)%float then (pros2, (cons2 ++ ["Poor portfolio fit"])%list)
    else (pros2, cons2) in
  conflicts ← required (StartupProfile.portfolio_conflicts startup);
  if Conflicts.has_conflicts conflicts
  then Py.Ok (pros3,
              (cons3 ++ [("Conflicts with "
                          ++ Py.str_of_int
                               (Z.of_nat (length (Conflicts.conflict_companies conflicts)))
                          ++ " portfolio companies")%string])%list)
  else Py.Ok (pros3, cons3).

Definition _get_startup_recommendation (score : float)
    (pros cons : list string) : string :=
  if (80 <=? score)%float then "Strong Match - Highly recommend"
  else if (65 <=? score)%float then "Good Match - Worth considering"
  else if (50 <=? score)%float then "Moderate Match - Review further"
  else "Weak Match - Low priority".

(** [startup.quality_score or 0]: [None] and a zero give the integer 0. *)
Definition quality_or_zero (startup : StartupProfile.t) : float :=
  match StartupProfile.quality_score startup with
  | Some q => if (q =? 0)%float then 0%float else q
  | None => 0%float
  end.

(** [startup.portfolio_fit["portfolio_fit_score"] if startup.portfolio_fit else 0]. *)
Definition portfolio_fit_or_zero (startup : StartupProfile.t) : float :=
  match StartupProfile.portfolio_fit startup with
  | Some fit => PortfolioFit.portfolio_fit_score fit
  | None => 0%float
  end.

(** The conflict override of the recommendation. *)
Definition override_recommendation (startup : StartupProfile.t)
    (recommendation : string) : string :=
  match StartupProfile.portfolio_conflicts startup with
  | Some conflicts =>
      if Conflicts.has_conflicts conflicts then
        if String.eqb (Conflicts.severity conflicts) "high"
        then "High Conflict - Avoid"
        else if String.eqb (Conflicts.severity conflicts) "medium"
        then "Moderate Conflict - Review carefully"
        else recommendation
      else recommendation
  | None => recommendation
  end.

(** The body of [for metric in fit_metrics] for a startup found in
    [startup_map]. *)
Definition analyse_startup (startup : StartupProfile.t) (metric : FitMetrics.t)
    (vc_profile : VCProfile.t) : Py.Result AnalysisResult.t :=
  let overall_score := FitMetrics.overall_score metric in
  let combined_score :=
    (overall_score * 0.4
     + quality_or_zero startup * 0.3
     + portfolio_fit_or_zero startup * 0.3)%float in
  pros_cons ← _analyze_startup_pros_cons startup metric vc_profile;
  let recommendation :=
    override_recommendation startup
      (_get_startup_recommendation combined_score (fst pros_cons) (snd pros_cons)) in
  let company := StartupProfile.company startup in
  Py.Ok
    (AnalysisResult.mk
       (CompanyProfile.name company)
       (CompanyProfile.website company)
       (CompanyProfile.industry company)
       (CompanyProfile.location company)
       (CompanyProfile.funding_stage company)
       (CompanyProfile.description company)
       (StartupProfile.founders startup)
       (ResultFitMetrics.mk
          combined_score
          overall_score
          (StartupProfile.quality_score startup)
          (PortfolioFit.portfolio_fit_score <$> StartupProfile.portfolio_fit startup)
          (StartupProfile.portfolio_conflicts startup)
          (FitMetrics.text_similarity metric)
          (FitMetrics.industry_alignment metric)
          (FitMetrics.stage_alignment metric)
          (FitMetrics.geographic_alignment metric)
          (FitMetrics.network_proximity metric))
       recommendation
       (fst pros_cons)
       (snd pros_cons)
       (StartupProfile.portfolio_conflicts startup)
       (StartupProfile.portfolio_fit startup)).

(** [{startup.company.name: startup for startup in startups}]: a later
    startup of the same name replaces an earlier one. *)
Definition make_startup_map (startups : list StartupProfile.t)
  : gmap string StartupProfile.t :=
  fold_left
    (fun startup_map startup =>
       <[CompanyProfile.name (StartupProfile.company startup) := startup]> startup_map)
    startups ∅.

Fixpoint analysis_loop (startup_map : gmap string StartupProfile.t)
    (vc_profile : VCProfile.t) (fit_metrics : list FitMetrics.t)
    (detailed_results : list AnalysisResult.t)
  : Py.Result (list AnalysisResult.t) :=
  match fit_metrics with
  | [] => Py.Ok detailed_results
  | metric :: rest =>
      match startup_map !! FitMetrics.startup_id metric with
      | Some startup =>
          result ← analyse_startup startup metric vc_profile;
          analysis_loop startup_map vc_profile rest
            (detailed_results ++ [result])%list
      | None => analysis_loop startup_map vc_profile rest detailed_results
      end
  end.

Definition sort_key (result : AnalysisResult.t) : float :=
  ResultFitMetrics.overall_score (AnalysisResult.fit_metrics result).

Definition _create_startup_analysis (fit_metrics : list FitMetrics.t)
    (startups : list StartupProfile.t) (vc_profile : VCProfile.t)
  : Py.Result (list AnalysisResult.t) :=
  let startup_map := make_startup_map startups in
  detailed_results ← analysis_loop startup_map vc_profile fit_metrics [];
  Py.Ok (Py.sort_desc sort_key detailed_results).
End Agent.
End UnifiedVCSourcingAgent.

(** ** More Python string primitives *)

Module PyText.

(** [str.isspace] on one character (code points below 256). *)
Definition is_whitespace (c : ascii) : bool :=
  let n := N_of_ascii c in
  (((9 <=? n) && (n <=? 13)) || ((28 <=? n) && (n <=? 32))
   || (n =? 133) || (n =? 160))%N.

(** [s.lstrip()]. *)
Fixpoint lstrip (s : string) : string :=
  match s with
  | EmptyString => EmptyString
  | String c s' => if is_whitespace c then lstrip s' else s
  end.

(** [s.rstrip()]. *)
Fixpoint rstrip (s : string) : string :=
  match s with
  | EmptyString => EmptyString
  | String c s' =>
      match rstrip s' with
      | EmptyString => if is_whitespace c then EmptyString else String c EmptyString
      | rest => String c rest
      end
  end.

(** [s.strip()]. *)
Definition strip (s : string) : string := rstrip (lstrip s).

End PyText.

(** ** utils/parallel_processor.py: CachingProcessor

    [self.cache] maps a key to a pair of a result and the time it was stored;
    [time.time()] is the argument [now] of the two methods that read the
    clock. *)

Module CachingProcessor.
Section Cache.
Context {V : Type}.

Definition cache_ttl : float := 3600%float.

Definition get_cached_result (now : float) (key : string)
    (cache : gmap string (V * float)) : option V * gmap string (V * float) :=
  match cache !! key with
  | Some (result, timestamp) =>
      if (now - timestamp <? cache_ttl)%float
      then (Some result, cache)
      else (None, delete key cache)
  | None => (None, cache)
  end.

Definition cache_result (now : float) (key : string) (result : V)
    (cache : gmap string (V * float)) : gmap string (V * float) :=
  <[key := (result, now)]> cache.

Definition clear_cache (cache : gmap string (V * float)) : gmap string (V * float) :=
  ∅.

End Cache.
End CachingProcessor.

(** ** utils/parallel_processor.py: BatchProcessor

    [process_large_dataset] is a generator; the model gives the list of the
    batches it yields when it is run to its end.  [truthy] is the truth value
    of a result ([if result:]). *)

Module BatchProcessor.
Section Batches.
Context {A B : Type}.
Variable truthy : B -> bool.
Variable processor_func : A -> Py.Result B.

(** [range(0, n, step)] for a positive [step]:
    [0, step, 2 * step, ...] below [n]. *)
Definition range_step (n step : nat) : list nat :=
  map (fun k => (k * step)%nat) (seq 0 ((n + step - 1) / step)).

(** [items[i:i + batch_size]]. *)
Definition slice (items : list A) (i batch_size : nat) : list A :=
  take batch_size (drop i items).

(** The loop over one batch: a result is kept when the call raised nothing
    and the result is truthy. *)
Definition process_items (batch : list A) : list B :=
  fold_left
    (fun batch_results item =>
       match processor_func item with
       | Py.Ok result =>
           if truthy result then (batch_results ++ [result])%list else batch_results
       | Py.Raise _ => batch_results
       end)
    batch [].

(** The batches yielded; [None] is the [ZeroDivisionError] of
    [total_batches] when [batch_size] is 0.  A negative [batch_size] makes
    the range empty. *)
Definition process_large_dataset (batch_size : Z) (items : list A)
  : option (list (list B)) :=
  if batch_size =? 0 then None
  else if batch_size <? 0 then Some []
  else
    Some (map (fun i => process_items (slice items i (Z.to_nat batch_size)))
            (range_step (length items) (Z.to_nat batch_size))).

End Batches.
End BatchProcessor.

(** ** unified_vc_sourcing_agent.py: de-duplication and the scoring steps of
    [source_startups_for_vc]

    Steps 5 to 9 of [source_startups_for_vc] work on the startups the search
    returned; what the collaborators hand over (the resolved portfolio and the
    outcome of the website search) are arguments. *)

Module SourcingPipeline.
Section Pipeline.
Variable embedding_model : EmbeddingModel.
Variable sequence_ratio : string -> string -> float.

(** [startup.company.name.lower().strip()]. *)
Definition company_key (startup : StartupProfile.t) : string :=
  PyText.strip (Py.lower (CompanyProfile.name (StartupProfile.company startup))).

(** The body of the loop of [_remove_duplicates] on the pair of [seen] and
    [unique_startups]. *)
Definition remove_duplicates_step
    (state : gset string * list StartupProfile.t) (startup : StartupProfile.t)
  : gset string * list StartupProfile.t :=
  let '(seen, unique_startups) := state in
  let company_name := company_key startup in
  if decide (company_name ∈ seen)
  then (seen, unique_startups)
  else ({[ company_name ]} ∪ seen, (unique_startups ++ [startup])%list).

Definition _remove_duplicates (startups : list StartupProfile.t)
  : list StartupProfile.t :=
  snd (fold_left remove_duplicates_step startups (∅, [])).

(** Step 6: [startup.quality_score = calculate_quality_score(startup)]. *)
Definition set_quality_score (startup : StartupProfile.t) : StartupProfile.t :=
  StartupProfile.mk
    (StartupProfile.company startup)
    (StartupProfile.founders startup)
    (Some (QualityScorer.calculate_quality_score startup))
    (StartupProfile.portfolio_conflicts startup)
    (StartupProfile.portfolio_fit startup).

(** Step 7: the two assignments of the conflict dict and the portfolio fit. *)
Definition set_portfolio_checks (portfolio_companies : list PortfolioCompany.t)
    (startup : StartupProfile.t) : StartupProfile.t :=
  let with_conflicts :=
    StartupProfile.mk
      (StartupProfile.company startup)
      (StartupProfile.founders startup)
      (StartupProfile.quality_score startup)
      (Some (UnifiedVCSourcingAgent._detect_portfolio_conflicts
               sequence_ratio startup portfolio_companies))
      (StartupProfile.portfolio_fit startup) in
  StartupProfile.mk
    (StartupProfile.company with_conflicts)
    (StartupProfile.founders with_conflicts)
    (StartupProfile.quality_score with_conflicts)
    (StartupProfile.portfolio_conflicts with_conflicts)
    (Some (UnifiedVCSourcingAgent._calculate_portfolio_fit
             with_conflicts portfolio_companies)).

(** [startup.company.website = websites[startup.company.name]] when the
    name is a key of [websites] and its value is truthy. *)
Definition set_website (websites : gmap string (option string))
    (startup : StartupProfile.t) : StartupProfile.t :=
  let company := StartupProfile.company startup in
  match websites !! CompanyProfile.name company with
  | Some url =>
      if Py.truthy_str url
      then
        StartupProfile.mk
          (CompanyProfile.mk
             (CompanyProfile.name company)
             (CompanyProfile.description company)
             url
             (CompanyProfile.industry company)
             (CompanyProfile.location company)
             (CompanyProfile.founded_year company)
             (CompanyProfile.funding_stage company))
          (StartupProfile.founders startup)
          (StartupProfile.quality_score startup)
          (StartupProfile.portfolio_conflicts startup)
          (StartupProfile.portfolio_fit startup)
      else startup
  | None => startup
  end.

(** [_enhance_startups_with_websites]: [found] is what the website finder
    returned for the company names, or the exception it raised. *)
Definition _enhance_startups_with_websites
    (found : Py.Result (gmap string (option string)))
    (startups : list StartupProfile.t) : list StartupProfile.t :=
  match found with
  | Py.Ok websites => map (set_website websites) startups
  | Py.Raise _ => startups
  end.

(** Steps 5 to 9 of [source_startups_for_vc]. *)
Definition score_and_rank
    (vc_embeddings : gmap string (list float))
    (portfolio_companies : list PortfolioCompany.t)
    (find_websites : bool) (found : Py.Result (gmap string (option string)))
    (unique_startups : list StartupProfile.t) (vc_profile : VCProfile.t)
  : Py.Result (list AnalysisResult.t) :=
  let fit_metrics :=
    fst (OptimizedFitMetricCalculator.calculate_fit_metrics_batch
           embedding_model vc_embeddings unique_startups vc_profile) in
  let with_quality := map set_quality_score unique_startups in
  let with_checks := map (set_portfolio_checks portfolio_companies) with_quality in
  let enhanced :=
    if find_websites
    then _enhance_startups_with_websites found with_checks
    else with_checks in
  UnifiedVCSourcingAgent._create_startup_analysis fit_metrics enhanced vc_profile.

End Pipeline.
End SourcingPipeline.

(** ** What one turn of the detector's loop appends

    The entries one portfolio company adds to the two lists of the conflict
    dict, read off [conflict_step]; the loop lemmas are stated with them. *)

Module ConflictLoop.

Definition triggered_types (sequence_ratio : string -> string -> float)
    (startup : StartupProfile.t) (portfolio_company : PortfolioCompany.t)
  : list string :=
  ((if UnifiedVCSourcingAgent.name_rule sequence_ratio startup portfolio_company
    then ["name_similarity"] else [])
   ++ (if UnifiedVCSourcingAgent.industry_rule startup portfolio_company
       then ["industry_conflict"] else [])
   ++ (if UnifiedVCSourcingAgent.description_rule sequence_ratio startup portfolio_company
       then ["business_model_conflict"] else []))%list.

Definition triggered_companies (sequence_ratio : string -> string -> float)
    (startup : StartupProfile.t) (portfolio_company : PortfolioCompany.t)
  : list string :=
  map (fun _ => PortfolioCompany.name portfolio_company)
    (triggered_types sequence_ratio startup portfolio_company).

End ConflictLoop.

(** ** The specification's reading of the scorers

    Definitions that follow the words of the specification, to be compared
    with the functions above. *)

Module Spec.

(** "Case-insensitive exact match of industry and some focus area": the
    startup has an industry and its lower-cased text is one of the lower-cased
    focus areas. *)
Definition industry_exact_match (industry : option string)
    (focus_areas : list string) : Prop :=
  exists s, industry = Some s /\ s <> "" /\ In (Py.lower s) (map Py.lower focus_areas).

(** "Either side is empty/missing". *)
Definition side_missing (field : option string) (targets : list string) : Prop :=
  field = None \/ field = Some "" \/ targets = [].

(** "Each returns one of a small fixed set of scores": the levels of the
    rule-based alignment scorers. *)
Definition is_level (score : float) : Prop :=
  score = 0%float \/ score = 50%float \/ score = 75%float \/ score = 100%float.

(** The ordinal distance between a stage number and a VC stage. *)
Definition stage_distance (startup_stage_num : Z) (vc_stage : string) : Z :=
  Z.abs (startup_stage_num - FitMetricCalculator.stage_hierarchy_get vc_stage).

(** The arithmetic mean of a list of scores. *)
Definition mean (scores : list float) : float :=
  (Py.sum scores / Py.float_of_int (Z.of_nat (length scores)))%float.

(** "0.6 x mean(per-founder scores) + 0.25 x company score + 0.15 x
    team-completeness score, rounded to 2 decimals". *)
Definition weighted_quality (startup : StartupProfile.t) : float :=
  Py.round2
    (0.6 * mean (map QualityScorer._calculate_founder_quality
                   (StartupProfile.founders startup))
     + 0.25 * QualityScorer._calculate_company_quality (StartupProfile.company startup)
     + 0.15 * QualityScorer._calculate_team_completeness
                (StartupProfile.founders startup))%float.

(** "Combined score = 0.4 x fit overall + 0.3 x quality + 0.3 x portfolio-fit
    score". *)
Definition combined_score (fit quality portfolio_fit : float) : float :=
  (0.4 * fit + 0.3 * quality + 0.3 * portfolio_fit)%float.

(** The startups of a batch that are scored without an exception, with
    their metrics, in input order. *)
Definition successfully_scored (embedding_model : EmbeddingModel)
    (vc_profile : VCProfile.t) (vc_embedding : list float)
    (startups : list StartupProfile.t) : list FitMetrics.t :=
  flat_map
    (fun startup =>
       match OptimizedFitMetricCalculator._calculate_single_fit_metrics
               embedding_model startup vc_profile vc_embedding with
       | Py.Ok fit_metrics => [fit_metrics]
       | Py.Raise _ => []
       end)
    startups.

(** The three rules of the conflict detector, as the specification words
    them.  The similarity of two texts is the collaborator's ratio of the
    lower-cased texts. *)

(** "Fuzzy name-similarity ratio > 0.7". *)
Definition name_similar (sequence_ratio : string -> string -> float)
    (startup : StartupProfile.t) (portfolio_company : PortfolioCompany.t) : bool :=
  (0.7 <? sequence_ratio
            (Py.lower (CompanyProfile.name (StartupProfile.company startup)))
            (Py.lower (PortfolioCompany.name portfolio_company)))%float.

(** "Case-insensitive exact industry match": the two industries are the same
    text once lower-cased. *)
Definition same_industry (startup : StartupProfile.t)
    (portfolio_company : PortfolioCompany.t) : bool :=
  match CompanyProfile.industry (StartupProfile.company startup),
        PortfolioCompany.industry portfolio_company with
  | Some mine, Some theirs => String.eqb (Py.lower mine) (Py.lower theirs)
  | _, _ => false
  end.

(** "Description fuzzy-similarity ratio > 0.6". *)
Definition description_similar (sequence_ratio : string -> string -> float)
    (startup : StartupProfile.t) (portfolio_company : PortfolioCompany.t) : bool :=
  match CompanyProfile.description (StartupProfile.company startup),
        PortfolioCompany.description portfolio_company with
  | Some mine, Some theirs =>
      (0.6 <? sequence_ratio (Py.lower mine) (Py.lower theirs))%float
  | _, _ => false
  end.

(** "Added once per trigger type": the entries of [conflict_types] that the
    three rules, as worded, give one portfolio company. *)
Definition claimed_types (sequence_ratio : string -> string -> float)
    (startup : StartupProfile.t) (portfolio_company : PortfolioCompany.t)
  : list string :=
  ((if name_similar sequence_ratio startup portfolio_company
    then ["name_similarity"] else [])
   ++ (if same_industry startup portfolio_company
       then ["industry_conflict"] else [])
   ++ (if description_similar sequence_ratio startup portfolio_company
       then ["business_model_conflict"] else []))%list.

(** A field that is present and not the empty text. *)
Definition given (field : option string) : bool :=
  match field with
  | Some text => negb (String.eqb text "")
  | None => false
  end.

(** The entries when the industry rule and the description rule are read
    only on fields that are given on both sides. *)
Definition guarded_types (sequence_ratio : string -> string -> float)
    (startup : StartupProfile.t) (portfolio_company : PortfolioCompany.t)
  : list string :=
  let company := StartupProfile.company startup in
  ((if name_similar sequence_ratio startup portfolio_company
    then ["name_similarity"] else [])
   ++ (if given (CompanyProfile.industry company)
          && given (PortfolioCompany.industry portfolio_company)
          && same_industry startup portfolio_company
       then ["industry_conflict"] else [])
   ++ (if given (CompanyProfile.description company)
          && given (PortfolioCompany.description portfolio_company)
          && description_similar sequence_ratio startup portfolio_company
       then ["business_model_conflict"] else []))%list.

(** The company's name, once per entry. *)
Definition guarded_companies (sequence_ratio : string -> string -> float)
    (startup : StartupProfile.t) (portfolio_company : PortfolioCompany.t)
  : list string :=
  map (fun _ => PortfolioCompany.name portfolio_company)
    (guarded_types sequence_ratio startup portfolio_company).

(** "Counts portfolio companies per industry": the number of portfolio
    companies whose industry is the candidate's. *)
Definition industry_count (startup : StartupProfile.t)
    (portfolio_companies : list PortfolioCompany.t) : Z :=
  Z.of_nat
    (length
       (filter
          (fun company =>
             PortfolioCompany.industry company
             = CompanyProfile.industry (StartupProfile.company startup))
          portfolio_companies)).

(** The whole-number points behind [_evaluate_network]. *)
Definition network_points (connections endorsements : option Z) : Z :=
  (if Py.truthy_int connections then
     if Py.int_of connections >? 1000 then 10
     else if Py.int_of connections >? 500 then 8
     else if Py.int_of connections >? 200 then 6
     else if Py.int_of connections >? 100 then 4
     else 0
   else 0)
  + (if Py.truthy_int endorsements then
       if Py.int_of endorsements >? 50 then 5
       else if Py.int_of endorsements >? 20 then 4
       else if Py.int_of endorsements >? 10 then 3
       else 0
     else 0).

(** A founder with another number of LinkedIn connections, all else equal. *)
Definition with_connections (founder : FounderProfile.t) (connections : option Z)
  : FounderProfile.t :=
  FounderProfile.mk
    (FounderProfile.name founder)
    (FounderProfile.title founder)
    (FounderProfile.experience founder)
    (FounderProfile.education founder)
    (FounderProfile.linkedin_url founder)
    connections
    (FounderProfile.endorsements founder).

(** A whole number between 0 and [cap], as a float. *)
Definition whole_up_to (cap : Z) (score : float) : Prop :=
  exists k, 0 <= k <= cap /\ score = Py.float_of_int k.

(** A conflict dict that the conflict detector built. *)
Definition from_detector (conflicts : Conflicts.t) : Prop :=
  exists sequence_ratio startup portfolio_companies,
    conflicts = UnifiedVCSourcingAgent._detect_portfolio_conflicts
                  sequence_ratio startup portfolio_companies.

End Spec.

(** ** Concrete inputs *)

Module Examples.

(** A 384-dimensional embedding along the first axis. *)
Definition axis384 (x : float) : list float := x :: repeat 0%float 383.

(** An embedding model that maps texts about payments to one direction and
    every other text to the opposite one. *)
Definition opposed_model : EmbeddingModel :=
  Some (fun text =>
          Py.Ok (if Py.contains "payments" text
                 then axis384 1%float else axis384 (-1)%float)).

Definition company (name : string) (description industry location : option string)
    (founded_year : option Z) (funding_stage : option string) : CompanyProfile.t :=
  CompanyProfile.mk name description None industry location founded_year funding_stage.

Definition founder (name : string) (title experience : option string)
    (linkedin_connections endorsements : option Z) : FounderProfile.t :=
  FounderProfile.mk name title experience None None linkedin_connections endorsements.

Definition payments_startup : StartupProfile.t :=
  StartupProfile.mk
    (company "PayCo" (Some "payments api") (Some "Fintech") None None (Some "seed"))
    [] None None None.

Definition social_vc : VCProfile.t :=
  VCProfile.mk "Social Capital" (Some "consumer social apps")
    ["Consumer"] ["series-b"; "series-a"] [] [].

(** The same firm with its stages listed in the other order. *)
Definition social_vc_reordered : VCProfile.t :=
  VCProfile.mk "Social Capital" (Some "consumer social apps")
    ["Consumer"] ["series-a"; "series-b"] [] [].

(** A similarity that tells equal texts from different ones. *)
Definition equal_ratio (a b : string) : float :=
  if String.eqb a b then 1%float else 0%float.

Definition fintech_portfolio : list PortfolioCompany.t :=
  [PortfolioCompany.mk "Stripe" (Some "Fintech") (Some "Payment processing");
   PortfolioCompany.mk "Coinbase" (Some "fintech") (Some "Cryptocurrency exchange");
   PortfolioCompany.mk "Robinhood" (Some "FINTECH") (Some "Stock trading app");
   PortfolioCompany.mk "Zoom" (Some "SaaS") (Some "Video conferencing")].

Definition scored_startup : StartupProfile.t :=
  StartupProfile.mk
    (company "PayCo" (Some "payments api") (Some "Fintech") None None (Some "seed"))
    [founder "Ada" (Some "CEO") (Some "Founder at Google for 12 years")
       (Some 1200) (Some 60)]
    (Some 37.5%float)
    (Some (UnifiedVCSourcingAgent._detect_portfolio_conflicts
             equal_ratio payments_startup fintech_portfolio))
    (Some (UnifiedVCSourcingAgent._calculate_portfolio_fit
             payments_startup fintech_portfolio)).

Definition scored_metrics : FitMetrics.t :=
  FitMetrics.mk "PayCo" "Social Capital" 90%float 90%float 100%float 100%float
    100%float 50%float.

Definition headless_startup : StartupProfile.t :=
  StartupProfile.mk
    (company "Stealth" (Some "something new") None None None None)
    [] None None None.

Definition ada : FounderProfile.t :=
  founder "Ada" (Some "CEO") (Some "Founder at Google for 12 years")
    (Some 1200) (Some 60).

(** A founder whose years of experience are written with [n] digits. *)
Definition veteran (n : nat) : FounderProfile.t :=
  founder "Grace" (Some "CTO")
    (Some ("cto at google for " ++ string_of_list_ascii (repeat "9"%char n)
           ++ " years")%string)
    (Some 1200) (Some 60).

(** A startup and a portfolio company whose industry and description are
    both the empty text. *)
Definition blank_startup : StartupProfile.t :=
  StartupProfile.mk (company "Acme" (Some "") (Some "") None None None)
    [] None None None.

Definition blank_company : PortfolioCompany.t :=
  PortfolioCompany.mk "Zenith" (Some "") (Some "").

(** A startup in Paris and a firm that looks at Tokyo. *)
Definition paris_startup : StartupProfile.t :=
  StartupProfile.mk
    (company "Atelier" None None (Some "Paris, France") None None)
    [] None None None.

Definition tokyo_vc : VCProfile.t :=
  VCProfile.mk "Sakura Ventures" None [] [] [] ["Tokyo"].

(** The firm of [social_vc] after it rewrote its thesis. *)
Definition social_vc_rewritten : VCProfile.t :=
  VCProfile.mk "Social Capital" (Some "payments infrastructure")
    ["Fintech"] ["seed"] [] [].

(** The ranking of the one scored startup. *)
Definition ranked_results : Py.Result (list AnalysisResult.t) :=
  UnifiedVCSourcingAgent._create_startup_analysis
    [scored_metrics] [scored_startup] social_vc.

(** A second scored startup, of an industry the portfolio does not have. *)
Definition retail_startup : StartupProfile.t :=
  StartupProfile.mk
    (company "ShopCo" (Some "corner shops online") (Some "Retail") None None
       (Some "seed"))
    [] None None None.

Definition scored_retail_startup : StartupProfile.t :=
  StartupProfile.mk
    (StartupProfile.company retail_startup)
    []
    (Some 80%float)
    (Some (UnifiedVCSourcingAgent._detect_portfolio_conflicts
             equal_ratio retail_startup fintech_portfolio))
    (Some (UnifiedVCSourcingAgent._calculate_portfolio_fit
             retail_startup fintech_portfolio)).

Definition retail_metrics : FitMetrics.t :=
  FitMetrics.mk "ShopCo" "Social Capital" 70%float 70%float 50%float 100%float
    50%float 50%float.

(** The ranking of the two scored startups, the weaker one listed first. *)
Definition two_ranked_results : Py.Result (list AnalysisResult.t) :=
  UnifiedVCSourcingAgent._create_startup_analysis
    [scored_metrics; retail_metrics] [scored_startup; scored_retail_startup] social_vc.

End Examples.


(** * Properties *)

(** ** Floats and strings *)

(** Two float literals that differ: compare them with the literal on the
    right and compute. *)
Ltac float_discr H :=
  match type of H with
  | ?a = ?b =>
      let E := fresh in
      assert (E : (a =? b)%float = (b =? b)%float) by (rewrite H; reflexivity);
      vm_compute in E; discriminate E
  end.

Lemma float_mul_comm (x y : float) : (x * y)%float = (y * x)%float.
Proof.
  apply Prim2SF_inj. rewrite !mul_spec.
  destruct (Prim2SF x) as [sx|sx| |sx mx ex], (Prim2SF y) as [sy|sy| |sy my ey];
    simpl; try reflexivity; try (rewrite xorb_comm; reflexivity).
  rewrite xorb_comm, Pos.mul_comm, Z.add_comm. reflexivity.
Qed.

Lemma str_in_In (x : string) (xs : list string) :
  Py.str_in x xs = true <-> In x xs.
Proof.
  unfold Py.str_in. rewrite existsb_exists. split.
  - intros (y & Hy & E). apply String.eqb_eq in E. now subst.
  - intros H. exists x. split; [assumption | apply String.eqb_refl].
Qed.

Lemma truthy_str_spec (o : option string) :
  Py.truthy_str o = true <-> exists s, o = Some s /\ s <> "".
Proof.
  destruct o as [[|c s]|]; simpl; split; try discriminate.
  - intros (s & E & N). inversion E. congruence.
  - intros _. eexists. split; [reflexivity | discriminate].
  - reflexivity.
  - intros (s & E & _). discriminate.
Qed.

Lemma truthy_str_false (o : option string) :
  Py.truthy_str o = false <-> (o = None \/ o = Some "").
Proof.
  destruct o as [[|c s]|]; simpl; split; auto; try discriminate.
  intros [E|E]; discriminate.
Qed.

Lemma length_eqb_0 {A : Type} (l : list A) :
  (length l =? 0)%nat = true <-> l = [].
Proof.
  destruct l; simpl; split; auto; discriminate.
Qed.

(** ** Industry alignment *)

(** The guard of both industry scorers, read as the specification's
    "either side is empty/missing". *)
Lemma industry_guard_spec (industry : option string) (focus_areas : list string) :
  negb (Py.truthy_str industry) || (length focus_areas =? 0)%nat = true
  <-> Spec.side_missing industry focus_areas.
Proof.
  unfold Spec.side_missing.
  rewrite orb_true_iff, negb_true_iff, truthy_str_false, length_eqb_0.
  tauto.
Qed.

Lemma exact_match_needs_both (industry : option string) (focus_areas : list string) :
  Spec.industry_exact_match industry focus_areas ->
  ~ Spec.side_missing industry focus_areas.
Proof.
  intros (s & E & N & HIn) [H | [H | H]]; subst; try congruence.
  destruct HIn.
Qed.

Lemma exact_match_str_in (industry : option string) (focus_areas : list string) :
  ~ Spec.side_missing industry focus_areas ->
  (Py.str_in (Py.lower (Py.str_of industry)) (map Py.lower focus_areas) = true
   <-> Spec.industry_exact_match industry focus_areas).
Proof.
  intros Hpresent. rewrite str_in_In. unfold Spec.industry_exact_match. split.
  - intros HIn. destruct industry as [s|].
    + exists s. repeat split; try assumption.
      intros ->. apply Hpresent. right. left. reflexivity.
    + exfalso. apply Hpresent. left. reflexivity.
  - intros (s & -> & _ & HIn). exact HIn.
Qed.

(** C8: in both calculators industry alignment is 100 exactly when the
    lower-cased industry of the startup equals some lower-cased focus area of
    the firm, and it is 0 whenever the industry is missing or empty or the
    list of focus areas is empty. *)
Theorem industry_alignment_exact_match
    (sequence_ratio : string -> string -> float)
    (startup : StartupProfile.t) (vc_profile : VCProfile.t) :
  let industry := CompanyProfile.industry (StartupProfile.company startup) in
  let focus_areas := VCProfile.focus_areas vc_profile in
  (FitMetricCalculator._calculate_industry_alignment sequence_ratio startup vc_profile
   = 100%float <-> Spec.industry_exact_match industry focus_areas)
  /\ (OptimizedFitMetricCalculator._calculate_industry_alignment startup vc_profile
      = 100%float <-> Spec.industry_exact_match industry focus_areas)
  /\ (Spec.side_missing industry focus_areas ->
      FitMetricCalculator._calculate_industry_alignment sequence_ratio startup vc_profile
      = 0%float
      /\ OptimizedFitMetricCalculator._calculate_industry_alignment startup vc_profile
         = 0%float).
Proof.
  intros industry focus_areas.
  unfold FitMetricCalculator._calculate_industry_alignment,
    OptimizedFitMetricCalculator._calculate_industry_alignment.
  fold industry focus_areas.
  destruct (negb (Py.truthy_str industry) || (length focus_areas =? 0)%nat) eqn:G.
  - apply industry_guard_spec in G.
    split; [| split].
    + split; intros E; [float_discr E | destruct (exact_match_needs_both _ _ E G)].
    + split; intros E; [float_discr E | destruct (exact_match_needs_both _ _ E G)].
    + intros _. split; reflexivity.
  - assert (Hpresent : ~ Spec.side_missing industry focus_areas).
    { intros E. apply industry_guard_spec in E. congruence. }
    pose proof (exact_match_str_in _ _ Hpresent) as Hexact.
    destruct (Py.str_in (Py.lower (Py.str_of industry)) (map Py.lower focus_areas)) eqn:M.
    + split; [| split].
      * split; intros _; [apply Hexact |]; reflexivity.
      * split; intros _; [apply Hexact |]; reflexivity.
      * intros E. contradiction.
    + assert (Hno : ~ Spec.industry_exact_match industry focus_areas).
      { intros E. apply Hexact in E. discriminate. }
      split; [| split].
      * split; [| intros E; contradiction]. intros E.
        repeat match type of E with
               | (if ?c then _ else _) = _ => destruct c
               end; float_discr E.
      * split; [| intros E; contradiction]. intros E.
        repeat match type of E with
               | (if ?c then _ else _) = _ => destruct c
               end; float_discr E.
      * intros E. contradiction.
Qed.

(** ** Stage alignment *)

(** C3 fails on the code: a seed startup scored against a firm that lists
    series-b before series-a gets 50, though series-a is one step away; with
    the two stages listed in the other order the same startup gets 75. *)
Theorem stage_alignment_depends_on_order :
  FitMetricCalculator.stage_hierarchy_get "seed" = 2
  /\ FitMetricCalculator.stage_hierarchy_get "series-a" = 3
  /\ FitMetricCalculator._calculate_stage_alignment
       Examples.payments_startup Examples.social_vc = 50%float
  /\ FitMetricCalculator._calculate_stage_alignment
       Examples.payments_startup Examples.social_vc_reordered = 75%float.
Proof.
  repeat split; vm_compute; reflexivity.
Qed.

(** What the loop does: it answers at the first VC stage within two steps
    of the startup's stage, with 75 when that stage is within one step and
    with 50 otherwise; it answers 0 when no VC stage is within two steps. *)
Lemma stage_loop_first_near_stage (startup_stage_num : Z)
    (far : list string) (vc_stage : string) (rest : list string) :
  Forall (fun v => 2 < Spec.stage_distance startup_stage_num v) far ->
  Spec.stage_distance startup_stage_num vc_stage <= 2 ->
  FitMetricCalculator.stage_loop startup_stage_num (far ++ vc_stage :: rest)
  = if Spec.stage_distance startup_stage_num vc_stage <=? 1
    then 75%float else 50%float.
Proof.
  unfold Spec.stage_distance. intros Hfar Hnear.
  induction Hfar as [|v far Hv Hfar IH]; cbn [app FitMetricCalculator.stage_loop].
  - destruct (_ <=? 1) eqn:E1; [reflexivity |].
    destruct (_ <=? 2) eqn:E2; [reflexivity |].
    apply Z.leb_gt in E2. lia.
  - cbn beta in Hv.
    destruct (Z.leb_spec (Z.abs (startup_stage_num
                                 - FitMetricCalculator.stage_hierarchy_get v)) 1);
      [lia |].
    destruct (Z.leb_spec (Z.abs (startup_stage_num
                                 - FitMetricCalculator.stage_hierarchy_get v)) 2);
      [lia | exact IH].
Qed.

Lemma stage_loop_no_near_stage (startup_stage_num : Z) (vc_stages : list string) :
  Forall (fun v => 2 < Spec.stage_distance startup_stage_num v) vc_stages ->
  FitMetricCalculator.stage_loop startup_stage_num vc_stages = 0%float.
Proof.
  unfold Spec.stage_distance. intros Hfar.
  induction Hfar as [|v far Hv Hfar IH]; cbn [FitMetricCalculator.stage_loop];
    [reflexivity |].
  cbn beta in Hv.
  destruct (Z.leb_spec (Z.abs (startup_stage_num
                               - FitMetricCalculator.stage_hierarchy_get v)) 1);
    [lia |].
  destruct (Z.leb_spec (Z.abs (startup_stage_num
                               - FitMetricCalculator.stage_hierarchy_get v)) 2);
    [lia | exact IH].
Qed.

(** An exact case-insensitive match of the funding stage scores 100. *)
Lemma stage_alignment_exact_match (startup : StartupProfile.t)
    (vc_profile : VCProfile.t) (stage : string) :
  CompanyProfile.funding_stage (StartupProfile.company startup) = Some stage ->
  stage <> "" ->
  In (Py.lower stage) (map Py.lower (VCProfile.investment_stages vc_profile)) ->
  FitMetricCalculator._calculate_stage_alignment startup vc_profile = 100%float.
Proof.
  intros Hstage Hne Hin. unfold FitMetricCalculator._calculate_stage_alignment.
  rewrite Hstage. change (Py.str_of (Some stage)) with stage.
  apply str_in_In in Hin. rewrite Hin.
  destruct stage as [|c stage]; [congruence |].
  destruct (VCProfile.investment_stages vc_profile) as [|v vs]; [discriminate Hin |].
  reflexivity.
Qed.

(** ** Years of experience *)

(** C7 fails on the code: in "1 year" the pattern finds the integer 1, but
    the test for "years" or "yr" that guards the search rejects the text, so
    no bonus is added and the experience score is 0. *)
Theorem singular_year_gets_no_bonus :
  QualityScorer.findall_years (Py.lower "1 year") = ["1"]
  /\ QualityScorer.years_bonus (Py.lower "1 year") = Py.Ok 0
  /\ QualityScorer._evaluate_experience (Some "1 year") = Py.Ok 0%float
  /\ QualityScorer.years_bonus (Py.lower "1 years") = Py.Ok 4.
Proof.
  repeat split; vm_compute; reflexivity.
Qed.

(** Once the text holds "years" or "yr", the bonus follows the largest
    integer the pattern finds. *)
Lemma years_bonus_tiers (experience_lower y : string) (ys : list string)
    (converted : list Z) :
  Py.contains "years" experience_lower || Py.contains "yr" experience_lower = true ->
  QualityScorer.findall_years experience_lower = y :: ys ->
  QualityScorer.int_of_each (y :: ys) = Py.Ok converted ->
  let years := QualityScorer.max_list converted in
  QualityScorer.years_bonus experience_lower
  = Py.Ok (if years >=? 10 then 15
           else if years >=? 5 then 12
           else if years >=? 3 then 8
           else if years >=? 1 then 4
           else 0).
Proof.
  intros Hguard Hfound Hconverted. unfold QualityScorer.years_bonus.
  rewrite Hguard, Hfound. cbn zeta. now rewrite Hconverted.
Qed.

(** ** The levels of the rule-based scorers *)

Lemma level_in_range (score : float) :
  Spec.is_level score -> FitMetrics.in_range score = true.
Proof.
  intros [-> | [-> | [-> | ->]]]; vm_compute; reflexivity.
Qed.

Ltac level_cases :=
  repeat match goal with
         | |- Spec.is_level (if ?c then _ else _) => destruct c
         end;
  unfold Spec.is_level; auto.

Lemma stage_loop_level (startup_stage_num : Z) (vc_stages : list string) :
  Spec.is_level (FitMetricCalculator.stage_loop startup_stage_num vc_stages).
Proof.
  induction vc_stages as [|v vs IH]; cbn [FitMetricCalculator.stage_loop];
    [unfold Spec.is_level; auto |].
  destruct (_ <=? 1); [unfold Spec.is_level; auto |].
  destruct (_ <=? 2); [unfold Spec.is_level; auto | exact IH].
Qed.

(** Industry, stage and geographic alignment of both calculators take one
    of the levels 0, 50, 75, 100, hence lie in [0, 100]. *)
Lemma alignment_scores_are_levels (sequence_ratio : string -> string -> float)
    (startup : StartupProfile.t) (vc_profile : VCProfile.t) :
  Spec.is_level
    (FitMetricCalculator._calculate_industry_alignment sequence_ratio startup vc_profile)
  /\ Spec.is_level (FitMetricCalculator._calculate_stage_alignment startup vc_profile)
  /\ Spec.is_level
       (FitMetricCalculator._calculate_geographic_alignment startup vc_profile)
  /\ Spec.is_level
       (OptimizedFitMetricCalculator._calculate_industry_alignment startup vc_profile)
  /\ Spec.is_level
       (OptimizedFitMetricCalculator._calculate_stage_alignment startup vc_profile)
  /\ Spec.is_level
       (OptimizedFitMetricCalculator._calculate_geographic_alignment startup vc_profile).
Proof.
  unfold FitMetricCalculator._calculate_industry_alignment,
    FitMetricCalculator._calculate_stage_alignment,
    FitMetricCalculator._calculate_geographic_alignment,
    OptimizedFitMetricCalculator._calculate_industry_alignment,
    OptimizedFitMetricCalculator._calculate_stage_alignment,
    OptimizedFitMetricCalculator._calculate_geographic_alignment.
  repeat split; cbn zeta; try level_cases.
  apply stage_loop_level.
Qed.

(** ** Text similarity *)

(** C1 fails on the code: for two embeddings that point in opposite
    directions both text-similarity scorers return -100, which the
    [FitMetrics] schema then refuses. *)
Theorem text_similarity_below_zero :
  OptimizedFitMetricCalculator._calculate_text_similarity_optimized
    Examples.opposed_model Examples.payments_startup (Examples.axis384 (-1)%float)
  = (-100)%float
  /\ FitMetricCalculator._calculate_text_similarity
       Examples.opposed_model Examples.payments_startup Examples.social_vc
     = (-100)%float
  /\ FitMetrics.in_range (-100)%float = false
  /\ OptimizedFitMetricCalculator._calculate_single_fit_metrics
       Examples.opposed_model Examples.payments_startup Examples.social_vc
       (Examples.axis384 (-1)%float)
     = Py.Raise Py.ValidationError.
Proof.
  repeat split; vm_compute; reflexivity.
Qed.

(** ** Batch scoring *)

Section Batch.
Variable embedding_model : EmbeddingModel.
Variable vc_profile : VCProfile.t.
Variable vc_embedding : list float.

(** The loop appends, to what it already holds, the metrics of the startups
    that score without an exception. *)
Lemma batch_loop_appends (startups : list StartupProfile.t) :
  forall results : list FitMetrics.t,
    fold_left
      (OptimizedFitMetricCalculator.batch_step embedding_model vc_profile vc_embedding)
      startups results
    = (results
       ++ Spec.successfully_scored embedding_model vc_profile vc_embedding startups)%list.
Proof.
  induction startups as [|startup rest IH]; intros results; simpl.
  - now rewrite app_nil_r.
  - rewrite IH. unfold OptimizedFitMetricCalculator.batch_step.
    destruct (OptimizedFitMetricCalculator._calculate_single_fit_metrics
                embedding_model startup vc_profile vc_embedding).
    + now rewrite <- app_assoc.
    + reflexivity.
Qed.

Lemma successfully_scored_In (startups : list StartupProfile.t) (m : FitMetrics.t) :
  In m (Spec.successfully_scored embedding_model vc_profile vc_embedding startups)
  <-> exists startup,
        In startup startups
        /\ OptimizedFitMetricCalculator._calculate_single_fit_metrics
             embedding_model startup vc_profile vc_embedding = Py.Ok m.
Proof.
  unfold Spec.successfully_scored. rewrite in_flat_map. split.
  - intros (startup & HIn & Hm). exists startup. split; [assumption |].
    destruct (OptimizedFitMetricCalculator._calculate_single_fit_metrics
                embedding_model startup vc_profile vc_embedding); simpl in Hm.
    + destruct Hm as [-> | []]. reflexivity.
    + destruct Hm.
  - intros (startup & HIn & E). exists startup. split; [assumption |].
    rewrite E. now left.
Qed.

Lemma successfully_scored_length (startups : list StartupProfile.t) :
  (length (Spec.successfully_scored embedding_model vc_profile vc_embedding startups)
   <= length startups)%nat.
Proof.
  induction startups as [|startup rest IH]; simpl; [lia |].
  rewrite length_app.
  destruct (OptimizedFitMetricCalculator._calculate_single_fit_metrics
              embedding_model startup vc_profile vc_embedding); simpl; lia.
Qed.

End Batch.

(** C9: whatever the state of the per-firm cache, the batch returns a list
    (no exception of a single startup leaves it): the metrics of exactly
    those startups whose scoring raised nothing, one each, in input order. *)
Theorem batch_skips_failing_startups
    (embedding_model : EmbeddingModel)
    (vc_embeddings : gmap string (list float))
    (startups : list StartupProfile.t) (vc_profile : VCProfile.t) :
  let vc_embedding :=
    fst (OptimizedFitMetricCalculator._get_vc_embedding
           embedding_model vc_embeddings vc_profile) in
  let results :=
    fst (OptimizedFitMetricCalculator.calculate_fit_metrics_batch
           embedding_model vc_embeddings startups vc_profile) in
  results
  = Spec.successfully_scored embedding_model vc_profile vc_embedding startups
  /\ (forall m,
        In m results <->
        exists startup,
          In startup startups
          /\ OptimizedFitMetricCalculator._calculate_single_fit_metrics
               embedding_model startup vc_profile vc_embedding = Py.Ok m)
  /\ (length results <= length startups)%nat.
Proof.
  intros vc_embedding results.
  assert (E : results
              = Spec.successfully_scored embedding_model vc_profile vc_embedding startups).
  { subst results vc_embedding.
    unfold OptimizedFitMetricCalculator.calculate_fit_metrics_batch.
    destruct (OptimizedFitMetricCalculator._get_vc_embedding
                embedding_model vc_embeddings vc_profile) as [emb cache'].
    simpl. apply (batch_loop_appends embedding_model vc_profile emb startups []). }
  rewrite E. split; [reflexivity | split].
  - intros m. apply successfully_scored_In.
  - apply successfully_scored_length.
Qed.

(** One startup with an embedding opposed to the firm's is dropped from the
    batch, the startup after it is still scored. *)
Example batch_drops_only_the_failing_startup :
  map FitMetrics.startup_id
    (fst (OptimizedFitMetricCalculator.calculate_fit_metrics_batch
            Examples.opposed_model ∅
            [Examples.payments_startup; Examples.headless_startup;
             Examples.scored_startup]
            Examples.social_vc))
  = ["Stealth"].
Proof. vm_compute. reflexivity. Qed.

(** ** Portfolio conflicts *)

Section Detector.
Variable sequence_ratio : string -> string -> float.
Variable startup : StartupProfile.t.

Let types_of := ConflictLoop.triggered_types sequence_ratio startup.
Let companies_of := ConflictLoop.triggered_companies sequence_ratio startup.

(** One turn of the loop appends the entries the company triggers. *)
Lemma conflict_step_appends (conflicts : Conflicts.t) (company : PortfolioCompany.t) :
  UnifiedVCSourcingAgent.conflict_step sequence_ratio startup conflicts company
  = Conflicts.mk
      (Conflicts.has_conflicts conflicts
       || negb (length (types_of company) =? 0)%nat)
      (Conflicts.conflict_companies conflicts ++ companies_of company)%list
      (Conflicts.conflict_types conflicts ++ types_of company)%list
      (Conflicts.severity conflicts).
Proof.
  subst types_of companies_of.
  unfold UnifiedVCSourcingAgent.conflict_step, ConflictLoop.triggered_companies,
    ConflictLoop.triggered_types, UnifiedVCSourcingAgent.record_conflict.
  destruct conflicts as [has companies types severity].
  destruct (UnifiedVCSourcingAgent.name_rule sequence_ratio startup company),
    (UnifiedVCSourcingAgent.industry_rule startup company),
    (UnifiedVCSourcingAgent.description_rule sequence_ratio startup company);
    simpl; rewrite ?orb_true_r, ?orb_false_r, ?app_nil_r, <- ?app_assoc;
    reflexivity.
Qed.

Lemma conflict_loop_appends (portfolio : list PortfolioCompany.t) :
  forall conflicts : Conflicts.t,
    fold_left (UnifiedVCSourcingAgent.conflict_step sequence_ratio startup)
      portfolio conflicts
    = Conflicts.mk
        (Conflicts.has_conflicts conflicts
         || negb (length (flat_map types_of portfolio) =? 0)%nat)
        (Conflicts.conflict_companies conflicts ++ flat_map companies_of portfolio)%list
        (Conflicts.conflict_types conflicts ++ flat_map types_of portfolio)%list
        (Conflicts.severity conflicts).
Proof.
  induction portfolio as [|company rest IH]; intros conflicts.
  - destruct conflicts. simpl. now rewrite orb_false_r, !app_nil_r.
  - cbn [fold_left flat_map]. rewrite IH, conflict_step_appends. simpl.
    rewrite <- !app_assoc, <- orb_assoc. f_equal.
    f_equal. rewrite length_app.
    destruct (length (types_of company)), (length (flat_map types_of rest));
      reflexivity.
Qed.

Lemma triggered_lengths (portfolio : list PortfolioCompany.t) :
  length (flat_map companies_of portfolio) = length (flat_map types_of portfolio).
Proof.
  induction portfolio as [|company rest IH]; simpl; [reflexivity |].
  rewrite !length_app, IH. subst companies_of. unfold ConflictLoop.triggered_companies.
  now rewrite length_map.
Qed.

End Detector.

(** C5, amended: the detector lists, company by company, one entry per
    triggered rule (so a company that trips several rules is listed several
    times), where the industry rule and the description rule are read only on
    fields that are given, and not empty, on both sides; the severity is
    "high" exactly when more than 2 entries were listed, "medium" exactly
    when 1 or 2 were, and "none" exactly when none was.  For a company where
    no compared field is the empty text these are the entries of the rules as
    the claim words them. *)
Theorem conflicts_one_entry_per_trigger
    (sequence_ratio : string -> string -> float)
    (startup : StartupProfile.t) (portfolio : list PortfolioCompany.t) :
  let conflicts :=
    UnifiedVCSourcingAgent._detect_portfolio_conflicts sequence_ratio startup portfolio in
  let n := length (Conflicts.conflict_companies conflicts) in
  Conflicts.conflict_companies conflicts
  = flat_map (Spec.guarded_companies sequence_ratio startup) portfolio
  /\ Conflicts.conflict_types conflicts
     = flat_map (Spec.guarded_types sequence_ratio startup) portfolio
  /\ (Conflicts.severity conflicts = "high" <-> (2 < n)%nat)
  /\ (Conflicts.severity conflicts = "medium" <-> (1 <= n <= 2)%nat)
  /\ (Conflicts.severity conflicts = "none" <-> n = 0%nat)
  /\ (Conflicts.has_conflicts conflicts = true <-> (0 < n)%nat)
  /\ (forall company,
        ~ (CompanyProfile.industry (StartupProfile.company startup) = Some ""
           /\ PortfolioCompany.industry company = Some "") ->
        CompanyProfile.description (StartupProfile.company startup) <> Some "" ->
        PortfolioCompany.description company <> Some "" ->
        Spec.guarded_types sequence_ratio startup company
        = Spec.claimed_types sequence_ratio startup company).
Proof.
  intros conflicts n. subst n conflicts.
  unfold UnifiedVCSourcingAgent._detect_portfolio_conflicts.
  rewrite conflict_loop_appends. cbn [Conflicts.conflict_companies
    Conflicts.conflict_types Conflicts.severity Conflicts.has_conflicts app orb].
  rewrite <- triggered_lengths.
  assert (Hrules : forall company,
             ConflictLoop.triggered_types sequence_ratio startup company
             = Spec.guarded_types sequence_ratio startup company).
  { intros company.
    unfold ConflictLoop.triggered_types, Spec.guarded_types,
      UnifiedVCSourcingAgent.name_rule, UnifiedVCSourcingAgent.industry_rule,
      UnifiedVCSourcingAgent.description_rule,
      UnifiedVCSourcingAgent._calculate_similarity,
      Spec.name_similar, Spec.same_industry, Spec.description_similar, Spec.given.
    cbn zeta.
    destruct (CompanyProfile.industry (StartupProfile.company startup)) as [[|c1 i1]|],
      (PortfolioCompany.industry company) as [[|c2 i2]|],
      (CompanyProfile.description (StartupProfile.company startup)) as [[|c3 d1]|],
      (PortfolioCompany.description company) as [[|c4 d2]|];
      reflexivity. }
  assert (Htypes : flat_map (ConflictLoop.triggered_types sequence_ratio startup) portfolio
                   = flat_map (Spec.guarded_types sequence_ratio startup) portfolio).
  { apply flat_map_ext. intros company. apply Hrules. }
  assert (Hcompanies :
            flat_map (ConflictLoop.triggered_companies sequence_ratio startup) portfolio
            = flat_map (Spec.guarded_companies sequence_ratio startup) portfolio).
  { apply flat_map_ext. intros company.
    unfold ConflictLoop.triggered_companies, Spec.guarded_companies.
    now rewrite Hrules. }
  rewrite Htypes, Hcompanies.
  set (n := length (flat_map (Spec.guarded_companies sequence_ratio startup) portfolio)).
  split; [reflexivity | split; [reflexivity |]].
  assert (Hclaimed : forall company,
             ~ (CompanyProfile.industry (StartupProfile.company startup) = Some ""
                /\ PortfolioCompany.industry company = Some "") ->
             CompanyProfile.description (StartupProfile.company startup) <> Some "" ->
             PortfolioCompany.description company <> Some "" ->
             Spec.guarded_types sequence_ratio startup company
             = Spec.claimed_types sequence_ratio startup company).
  { intros company Hindustry Hmine Htheirs.
    unfold Spec.guarded_types, Spec.claimed_types, Spec.same_industry,
      Spec.description_similar, Spec.given. cbn zeta.
    destruct (CompanyProfile.industry (StartupProfile.company startup)) as [[|c1 i1]|],
      (PortfolioCompany.industry company) as [[|c2 i2]|],
      (CompanyProfile.description (StartupProfile.company startup)) as [[|c3 d1]|],
      (PortfolioCompany.description company) as [[|c4 d2]|];
      try reflexivity; try congruence; try (exfalso; apply Hindustry; now split). }
  destruct (Z.of_nat n >? 2) eqn:Hhigh; [| destruct (Z.of_nat n >? 0) eqn:Hmedium].
  - apply Z.gtb_lt in Hhigh.
    repeat split; try discriminate; try lia; try apply Hclaimed; intros _;
      destruct n; try lia; reflexivity.
  - rewrite Z.gtb_ltb, Z.ltb_ge in Hhigh. apply Z.gtb_lt in Hmedium.
    repeat split; try discriminate; try lia; try apply Hclaimed; intros _;
      destruct n; try lia; reflexivity.
  - rewrite Z.gtb_ltb, Z.ltb_ge in Hmedium.
    assert (n = 0%nat) as -> by lia.
    repeat split; try discriminate; try lia; try apply Hclaimed; reflexivity.
Qed.

(** C5 as worded fails on the code: a startup and a portfolio company whose
    industry and description are both the empty text match exactly, and two
    empty descriptions are equal texts, so the rules as worded give the
    company two entries and the severity "medium"; the code tests
    [if startup.company.industry and portfolio_company.industry] (and the
    same for the descriptions) first, lists nothing and answers "none". *)
Theorem empty_fields_trigger_no_rule :
  flat_map (Spec.claimed_types Examples.equal_ratio Examples.blank_startup)
    [Examples.blank_company]
  = ["industry_conflict"; "business_model_conflict"]
  /\ UnifiedVCSourcingAgent._detect_portfolio_conflicts Examples.equal_ratio
       Examples.blank_startup [Examples.blank_company]
     = Conflicts.mk false [] [] "none".
Proof. split; vm_compute; reflexivity. Qed.

(** A company that matches by name and by industry is listed twice, and
    three entries make the severity "high". *)
Example same_company_listed_twice :
  UnifiedVCSourcingAgent._detect_portfolio_conflicts Examples.equal_ratio
    (StartupProfile.mk
       (Examples.company "stripe" None (Some "Fintech") None None None) [] None None None)
    Examples.fintech_portfolio
  = Conflicts.mk true
      ["Stripe"; "Stripe"; "Coinbase"; "Robinhood"]
      ["name_similarity"; "industry_conflict"; "industry_conflict"; "industry_conflict"]
      "high".
Proof. vm_compute. reflexivity. Qed.

(** ** Portfolio fit *)

(** What the counting loop leaves under a key: untouched when the key does
    not occur, else the old count plus the number of occurrences. *)
Lemma count_loop_lookup (industries : list (option string)) :
  forall (industry_counts : gmap (option string) Z) (key : option string),
    let occurrences := Z.of_nat (length (filter (fun i => i = key) industries)) in
    fold_left
      (fun counts industry => <[industry := default 0 (counts !! industry) + 1]> counts)
      industries industry_counts !! key
    = if decide (occurrences = 0) then industry_counts !! key
      else Some (default 0 (industry_counts !! key) + occurrences).
Proof.
  induction industries as [|industry rest IH]; intros counts key; cbn zeta.
  - reflexivity.
  - cbn [fold_left]. rewrite IH. cbn zeta.
    destruct (decide (industry = key)) as [-> | Hne].
    + rewrite filter_cons_True by reflexivity.
      rewrite lookup_insert_eq. cbn [length default].
      repeat case_decide; try lia; unfold id; f_equal; lia.
    + rewrite filter_cons_False by assumption.
      rewrite lookup_insert_ne by assumption.
      reflexivity.
Qed.

Lemma count_industries_lookup (portfolio : list PortfolioCompany.t)
    (startup : StartupProfile.t) :
  UnifiedVCSourcingAgent.count_industries (map PortfolioCompany.industry portfolio)
    !! CompanyProfile.industry (StartupProfile.company startup)
  = if decide (Spec.industry_count startup portfolio = 0) then None
    else Some (Spec.industry_count startup portfolio).
Proof.
  unfold UnifiedVCSourcingAgent.count_industries. rewrite count_loop_lookup.
  cbn zeta. rewrite lookup_empty. cbn [default].
  assert (E : length (filter (fun i => i = CompanyProfile.industry
                                             (StartupProfile.company startup))
                        (map PortfolioCompany.industry portfolio))
              = length (filter
                          (fun company =>
                             PortfolioCompany.industry company
                             = CompanyProfile.industry (StartupProfile.company startup))
                          portfolio)).
  { induction portfolio as [|company rest IH]; [reflexivity |].
    cbn [map].
    destruct (decide (PortfolioCompany.industry company
                      = CompanyProfile.industry (StartupProfile.company startup))).
    - rewrite !filter_cons_True by assumption. cbn [length]. now rewrite IH.
    - rewrite !filter_cons_False by assumption. exact IH. }
  rewrite E. fold (Spec.industry_count startup portfolio).
  case_decide; [reflexivity | f_equal; lia].
Qed.

Lemma industry_count_nonneg (startup : StartupProfile.t)
    (portfolio : list PortfolioCompany.t) :
  0 <= Spec.industry_count startup portfolio.
Proof. unfold Spec.industry_count. lia. Qed.

(** C6: with no portfolio data the estimator answers 50 and "No portfolio
    data available"; otherwise it answers 75 when no portfolio company has
    the candidate's industry, 30 when more than 5 have it, 50 when more than
    2 (and at most 5) have it and 65 when 1 or 2 have it; the reasoning list
    always has one element. *)
Theorem portfolio_fit_tiers
    (startup : StartupProfile.t) (portfolio : list PortfolioCompany.t) :
  let fit := UnifiedVCSourcingAgent._calculate_portfolio_fit startup portfolio in
  let count := Spec.industry_count startup portfolio in
  (portfolio = [] ->
   fit = PortfolioFit.mk 50%float ["No portfolio data available"])
  /\ (portfolio <> [] ->
      (count = 0 -> PortfolioFit.portfolio_fit_score fit = 75%float)
      /\ (5 < count -> PortfolioFit.portfolio_fit_score fit = 30%float)
      /\ (2 < count <= 5 -> PortfolioFit.portfolio_fit_score fit = 50%float)
      /\ (0 < count <= 2 -> PortfolioFit.portfolio_fit_score fit = 65%float))
  /\ length (PortfolioFit.reasoning fit) = 1%nat.
Proof.
  intros fit count. subst fit.
  unfold UnifiedVCSourcingAgent._calculate_portfolio_fit.
  destruct portfolio as [|company rest]; [repeat split; congruence |].
  rewrite count_industries_lookup. fold count.
  pose proof (industry_count_nonneg startup (company :: rest)) as Hnonneg.
  fold count in Hnonneg.
  split; [discriminate |].
  case_decide as Hzero.
  - split; [| reflexivity]. intros _. repeat split; intros; try lia; reflexivity.
  - destruct (count >? 5) eqn:H5; [| destruct (count >? 2) eqn:H2];
      rewrite ?Z.gtb_ltb, ?Z.ltb_lt, ?Z.ltb_ge in *;
      (split; [| reflexivity]); intros _;
      repeat split; intros; try lia; reflexivity.
Qed.

(** C10: a startup without an industry, scored against a non-empty portfolio
    in which every company has one, is treated as bringing a new industry:
    score 75 with the reasoning "New industry for portfolio". *)
Theorem missing_industry_is_new_industry
    (startup : StartupProfile.t) (portfolio : list PortfolioCompany.t) :
  CompanyProfile.industry (StartupProfile.company startup) = None ->
  portfolio <> [] ->
  (forall company, In company portfolio -> PortfolioCompany.industry company <> None) ->
  UnifiedVCSourcingAgent._calculate_portfolio_fit startup portfolio
  = PortfolioFit.mk 75%float ["New industry for portfolio"].
Proof.
  intros Hnone Hnonempty Hall.
  unfold UnifiedVCSourcingAgent._calculate_portfolio_fit.
  destruct portfolio as [|company rest]; [congruence |].
  rewrite count_industries_lookup.
  assert (E : Spec.industry_count startup (company :: rest) = 0).
  { unfold Spec.industry_count. rewrite Hnone.
    generalize dependent (company :: rest). clear.
    intros l _ Hall. induction l as [|c l IH]; [reflexivity |].
    rewrite filter_cons_False by (apply Hall; now left).
    apply IH. intros c' Hc'. apply Hall. now right. }
  rewrite E. reflexivity.
Qed.

Lemma missing_industry_witness :
  UnifiedVCSourcingAgent._calculate_portfolio_fit
    Examples.headless_startup Examples.fintech_portfolio
  = PortfolioFit.mk 75%float ["New industry for portfolio"].
Proof.
  apply (missing_industry_is_new_industry
           Examples.headless_startup Examples.fintech_portfolio).
  - reflexivity.
  - discriminate.
  - intros company Hin. simpl in Hin.
    destruct Hin as [<- | [<- | [<- | [<- | []]]]]; discriminate.
Defined.

(** ** Quality score *)

Lemma founder_scores_loop (founders : list FounderProfile.t) :
  forall founder_scores : list float,
    fold_left
      (fun scores founder =>
         (scores ++ [QualityScorer._calculate_founder_quality founder])%list)
      founders founder_scores
    = (founder_scores
       ++ map QualityScorer._calculate_founder_quality founders)%list.
Proof.
  induction founders as [|founder rest IH]; intros founder_scores; simpl.
  - now rewrite app_nil_r.
  - rewrite IH, <- app_assoc. reflexivity.
Qed.

Lemma founder_scores_of_map (founders : list FounderProfile.t) :
  QualityScorer.founder_scores_of founders
  = map QualityScorer._calculate_founder_quality founders.
Proof.
  unfold QualityScorer.founder_scores_of. now rewrite founder_scores_loop.
Qed.

(** C4: a startup with no founder scores exactly 0; a startup with founders
    scores 0.6 x the mean of its founders' scores + 0.25 x its company score
    + 0.15 x its team-completeness score, rounded to two decimals. *)
Theorem quality_score_weighted (startup : StartupProfile.t) :
  (StartupProfile.founders startup = [] ->
   QualityScorer.calculate_quality_score startup = 0%float)
  /\ (StartupProfile.founders startup <> [] ->
      QualityScorer.calculate_quality_score startup = Spec.weighted_quality startup).
Proof.
  unfold QualityScorer.calculate_quality_score, Spec.weighted_quality, Spec.mean.
  rewrite founder_scores_of_map.
  destruct (StartupProfile.founders startup) as [|founder rest] eqn:E.
  - split; [reflexivity | congruence].
  - split; [discriminate |]. intros _.
    rewrite (float_mul_comm 0.6), (float_mul_comm 0.25), (float_mul_comm 0.15).
    reflexivity.
Qed.

Example quality_score_of_one_founder :
  QualityScorer.calculate_quality_score Examples.scored_startup = 37.5%float
  /\ QualityScorer.calculate_quality_score Examples.headless_startup = 0%float.
Proof. split; vm_compute; reflexivity. Qed.

(** ** Ranking *)

(** [x or 0] gives back the number [x]: a negative zero comes back as the
    positive one. *)
Lemma zero_or_same (q : float) :
  let q' := if (q =? 0)%float then 0%float else q in
  q' = q \/ (q = (-0)%float /\ q' = 0%float).
Proof.
  cbn zeta. destruct (q =? 0)%float eqn:E; [| now left].
  rewrite FloatAxioms.eqb_spec in E.
  change (Prim2SF 0) with (S754_zero false) in E.
  destruct (Prim2SF q) as [s|s| |s m e] eqn:Hq;
    try discriminate E; try (destruct s; discriminate E).
  rewrite <- (SF2Prim_Prim2SF q), Hq. destruct s; [right | left]; auto.
Qed.

Lemma sort_desc_Permutation {A : Type} (key : A -> float) (l : list A) :
  Permutation (Py.sort_desc key l) l.
Proof.
  assert (Hins : forall x l', Permutation (Py.insert_desc key x l') (x :: l')).
  { intros x l'. induction l' as [|y l' IH]; simpl; [reflexivity |].
    destruct (key x <? key y)%float; [| reflexivity].
    rewrite IH. apply perm_swap. }
  induction l as [|x l IH]; simpl; [reflexivity |].
  rewrite Hins. now apply perm_skip.
Qed.

Lemma sort_desc_In {A : Type} (key : A -> float) (l : list A) (x : A) :
  In x (Py.sort_desc key l) <-> In x l.
Proof.
  split; apply Permutation_in;
    [| symmetry]; apply sort_desc_Permutation.
Qed.

(** Every entry of the startup map is one of the startups, filed under its
    company name. *)
Lemma make_startup_map_lookup (startups : list StartupProfile.t)
    (name : string) (startup : StartupProfile.t) :
  UnifiedVCSourcingAgent.make_startup_map startups !! name = Some startup ->
  In startup startups
  /\ CompanyProfile.name (StartupProfile.company startup) = name.
Proof.
  unfold UnifiedVCSourcingAgent.make_startup_map.
  assert (Hgen : forall (l : list StartupProfile.t) (m : gmap string StartupProfile.t),
             fold_left
               (fun startup_map s =>
                  <[CompanyProfile.name (StartupProfile.company s) := s]> startup_map)
               l m !! name = Some startup ->
             m !! name = Some startup
             \/ (In startup l
                 /\ CompanyProfile.name (StartupProfile.company startup) = name)).
  { induction l as [|s l IH]; intros m H; simpl in H; [now left |].
    apply IH in H as [H | [H1 H2]].
    - destruct (decide (CompanyProfile.name (StartupProfile.company s) = name))
        as [E | Hne].
      + rewrite E, lookup_insert_eq in H. injection H as <-.
        right. split; [now left | assumption].
      + rewrite lookup_insert_ne in H by assumption. now left.
    - right. split; [now right | assumption]. }
  intros H. apply Hgen in H as [H | H]; [| assumption].
  rewrite lookup_empty in H. discriminate.
Qed.

(** The pros and cons are built only for a startup whose quality score,
    portfolio fit and conflicts have been filled in. *)
Lemma pros_cons_need_scores (startup : StartupProfile.t) (metric : FitMetrics.t)
    (vc_profile : VCProfile.t) (pros_cons : list string * list string) :
  UnifiedVCSourcingAgent._analyze_startup_pros_cons startup metric vc_profile
  = Py.Ok pros_cons ->
  exists quality fit conflicts,
    StartupProfile.quality_score startup = Some quality
    /\ StartupProfile.portfolio_fit startup = Some fit
    /\ StartupProfile.portfolio_conflicts startup = Some conflicts.
Proof.
  unfold UnifiedVCSourcingAgent._analyze_startup_pros_cons,
    UnifiedVCSourcingAgent.required, mbind, result_bind, Py.bind.
  destruct (StartupProfile.quality_score startup) as [quality|],
    (StartupProfile.portfolio_fit startup) as [fit|],
    (StartupProfile.portfolio_conflicts startup) as [conflicts|];
    intros H; eauto 10; exfalso;
    repeat match type of H with
           | context [if ?b then _ else _] => destruct b
           end; discriminate H.
Qed.

(** A conflict dict of the detector with severity "high" has its
    [has_conflicts] flag set. *)
Lemma detector_high_has_conflicts (conflicts : Conflicts.t) :
  Spec.from_detector conflicts ->
  Conflicts.severity conflicts = "high" ->
  Conflicts.has_conflicts conflicts = true.
Proof.
  intros (sequence_ratio & startup & portfolio & ->).
  unfold UnifiedVCSourcingAgent._detect_portfolio_conflicts.
  rewrite conflict_loop_appends.
  cbn [Conflicts.conflict_companies Conflicts.severity Conflicts.has_conflicts app orb].
  rewrite triggered_lengths.
  destruct (flat_map (ConflictLoop.triggered_types sequence_ratio startup) portfolio);
    [discriminate | reflexivity].
Qed.

(** What one turn of the ranking loop puts into its result. *)
Lemma analyse_startup_result (startup : StartupProfile.t) (metric : FitMetrics.t)
    (vc_profile : VCProfile.t) (result : AnalysisResult.t) :
  UnifiedVCSourcingAgent.analyse_startup startup metric vc_profile = Py.Ok result ->
  exists quality fit conflicts,
    StartupProfile.quality_score startup = Some quality
    /\ StartupProfile.portfolio_fit startup = Some fit
    /\ StartupProfile.portfolio_conflicts startup = Some conflicts
    /\ ResultFitMetrics.overall_score (AnalysisResult.fit_metrics result)
       = Spec.combined_score
           (FitMetrics.overall_score metric)
           (if (quality =? 0)%float then 0%float else quality)
           (PortfolioFit.portfolio_fit_score fit)
    /\ (Conflicts.has_conflicts conflicts = true \/ Spec.from_detector conflicts ->
        Conflicts.severity conflicts = "high" ->
        AnalysisResult.recommendation result = "High Conflict - Avoid").
Proof.
  unfold UnifiedVCSourcingAgent.analyse_startup.
  unfold mbind at 1. unfold result_bind, Py.bind.
  destruct (UnifiedVCSourcingAgent._analyze_startup_pros_cons startup metric vc_profile)
    as [pros_cons|] eqn:Hpc; [| discriminate].
  apply pros_cons_need_scores in Hpc as (quality & fit & conflicts & Hq & Hf & Hc).
  intros [= <-]. exists quality, fit, conflicts.
  repeat split; try assumption.
  - cbn [AnalysisResult.fit_metrics ResultFitMetrics.overall_score].
    unfold UnifiedVCSourcingAgent.quality_or_zero,
      UnifiedVCSourcingAgent.portfolio_fit_or_zero, Spec.combined_score.
    rewrite Hq, Hf.
    rewrite (float_mul_comm 0.4), !(float_mul_comm 0.3).
    reflexivity.
  - intros Hflag Hhigh. cbn [AnalysisResult.recommendation].
    unfold UnifiedVCSourcingAgent.override_recommendation.
    assert (Hhas : Conflicts.has_conflicts conflicts = true).
    { destruct Hflag as [Hhas | Hdet];
        [exact Hhas | exact (detector_high_has_conflicts _ Hdet Hhigh)]. }
    rewrite Hc, Hhas, Hhigh. reflexivity.
Qed.

Lemma analysis_loop_In (startup_map : gmap string StartupProfile.t)
    (vc_profile : VCProfile.t) (fit_metrics : list FitMetrics.t) :
  forall (detailed_results results : list AnalysisResult.t),
    UnifiedVCSourcingAgent.analysis_loop startup_map vc_profile fit_metrics
      detailed_results = Py.Ok results ->
    forall result, In result results ->
      In result detailed_results
      \/ exists metric startup,
           In metric fit_metrics
           /\ startup_map !! FitMetrics.startup_id metric = Some startup
           /\ UnifiedVCSourcingAgent.analyse_startup startup metric vc_profile
              = Py.Ok result.
Proof.
  induction fit_metrics as [|metric rest IH]; intros detailed results H result HIn.
  - injection H as <-. now left.
  - cbn [UnifiedVCSourcingAgent.analysis_loop] in H.
    destruct (startup_map !! FitMetrics.startup_id metric) as [startup|] eqn:Hlookup.
    + unfold mbind, result_bind, Py.bind in H.
      destruct (UnifiedVCSourcingAgent.analyse_startup startup metric vc_profile)
        as [r|] eqn:Hr; [| discriminate].
      destruct (IH _ _ H _ HIn) as [Hacc | (m & s & Hm & Hs & Hrs)].
      * apply in_app_or in Hacc as [Hacc | [<- | []]]; [now left |].
        right. exists metric, startup. repeat split; try assumption. now left.
      * right. exists m, s. repeat split; try assumption. now right.
    + destruct (IH _ _ H _ HIn) as [Hacc | (m & s & Hm & Hs & Hrs)]; [now left |].
      right. exists m, s. repeat split; try assumption. now right.
Qed.

(** C2: every result of the ranker comes from one of the fit metrics and
    from the startup filed under its name; its combined score is
    0.4 x the overall fit score + 0.3 x the quality score + 0.3 x the
    portfolio-fit score (for startups with and without conflicts alike), and
    when the startup's conflict dict has severity "high" (the dict being one
    the detector built, or any dict whose [has_conflicts] flag is set), its
    recommendation is "High Conflict - Avoid" whatever the combined score. *)
Theorem ranked_result_score_and_override
    (fit_metrics : list FitMetrics.t) (startups : list StartupProfile.t)
    (vc_profile : VCProfile.t) (results : list AnalysisResult.t)
    (result : AnalysisResult.t) :
  UnifiedVCSourcingAgent._create_startup_analysis fit_metrics startups vc_profile
  = Py.Ok results ->
  In result results ->
  exists metric startup quality fit conflicts,
    In metric fit_metrics
    /\ In startup startups
    /\ CompanyProfile.name (StartupProfile.company startup)
       = FitMetrics.startup_id metric
    /\ StartupProfile.quality_score startup = Some quality
    /\ StartupProfile.portfolio_fit startup = Some fit
    /\ StartupProfile.portfolio_conflicts startup = Some conflicts
    /\ ResultFitMetrics.overall_score (AnalysisResult.fit_metrics result)
       = Spec.combined_score
           (FitMetrics.overall_score metric)
           (if (quality =? 0)%float then 0%float else quality)
           (PortfolioFit.portfolio_fit_score fit)
    /\ (Conflicts.has_conflicts conflicts = true \/ Spec.from_detector conflicts ->
        Conflicts.severity conflicts = "high" ->
        AnalysisResult.recommendation result = "High Conflict - Avoid").
Proof.
  unfold UnifiedVCSourcingAgent._create_startup_analysis.
  unfold mbind, result_bind, Py.bind.
  destruct (UnifiedVCSourcingAgent.analysis_loop
              (UnifiedVCSourcingAgent.make_startup_map startups) vc_profile
              fit_metrics []) as [detailed|] eqn:Hloop; [| discriminate].
  intros [= <-] HIn. apply sort_desc_In in HIn.
  destruct (analysis_loop_In _ _ _ _ _ Hloop _ HIn)
    as [[] | (metric & startup & Hm & Hlookup & Hresult)].
  apply make_startup_map_lookup in Hlookup as [Hs Hname].
  apply analyse_startup_result in Hresult
    as (quality & fit & conflicts & Hq & Hf & Hc & Hscore & Hrec).
  exists metric, startup, quality, fit, conflicts. repeat split; assumption.
Qed.

Lemma ranked_result_witness :
  exists result,
    Examples.ranked_results = Py.Ok [result]
    /\ ResultFitMetrics.overall_score (AnalysisResult.fit_metrics result)
       = Spec.combined_score 90%float 37.5%float 65%float
    /\ AnalysisResult.recommendation result = "High Conflict - Avoid".
Proof.
  eexists. split; [vm_compute; reflexivity |].
  match goal with
  | |- ResultFitMetrics.overall_score (AnalysisResult.fit_metrics ?r) = _ /\ _ =>
      destruct (ranked_result_score_and_override
                  [Examples.scored_metrics] [Examples.scored_startup]
                  Examples.social_vc [r] r)
        as (metric & startup & quality & fit & conflicts
            & Hm & Hs & _ & Hq & Hf & Hc & Hscore & Hrec);
      [vm_compute; reflexivity | now left |]
  end.
  destruct Hm as [<- | []]. destruct Hs as [<- | []].
  injection Hq as <-. injection Hf as <-. injection Hc as <-.
  split.
  - rewrite Hscore. vm_compute. reflexivity.
  - apply Hrec.
    + right.
      exists Examples.equal_ratio, Examples.payments_startup, Examples.fintech_portfolio.
      reflexivity.
    + vm_compute. reflexivity.
Defined.

(** The ranker returns a list whenever the startups it is given carry a
    quality score, a portfolio fit and a conflict dict, as they do after the
    scoring steps of the pipeline. *)
Lemma create_startup_analysis_returns
    (fit_metrics : list FitMetrics.t) (startups : list StartupProfile.t)
    (vc_profile : VCProfile.t) :
  (forall startup, In startup startups ->
     StartupProfile.quality_score startup <> None
     /\ StartupProfile.portfolio_fit startup <> None
     /\ StartupProfile.portfolio_conflicts startup <> None) ->
  exists results,
    UnifiedVCSourcingAgent._create_startup_analysis fit_metrics startups vc_profile
    = Py.Ok results.
Proof.
  intros Hfilled. unfold UnifiedVCSourcingAgent._create_startup_analysis.
  assert (Hloop : forall detailed,
             exists results,
               UnifiedVCSourcingAgent.analysis_loop
                 (UnifiedVCSourcingAgent.make_startup_map startups) vc_profile
                 fit_metrics detailed = Py.Ok results).
  { induction fit_metrics as [|metric rest IH]; intros detailed; simpl.
    - now exists detailed.
    - destruct (UnifiedVCSourcingAgent.make_startup_map startups
                  !! FitMetrics.startup_id metric) as [startup|] eqn:Hlookup;
        [| apply IH].
      apply make_startup_map_lookup in Hlookup as [Hin _].
      destruct (Hfilled _ Hin) as (Hq & Hf & Hc).
      unfold UnifiedVCSourcingAgent.analyse_startup,
        UnifiedVCSourcingAgent._analyze_startup_pros_cons,
        UnifiedVCSourcingAgent.required, mbind, result_bind, Py.bind.
      destruct (StartupProfile.quality_score startup); [| congruence].
      destruct (StartupProfile.portfolio_fit startup); [| congruence].
      destruct (StartupProfile.portfolio_conflicts startup); [| congruence].
      repeat match goal with
             | |- context [if ?b then _ else _] => destruct b
             end; apply IH. }
  destruct (Hloop []) as [detailed ->].
  unfold mbind, result_bind, Py.bind. eauto.
Qed.

(** * Further properties of the scoring code *)

(** ** Order of floats and small whole numbers *)

Lemma SFcompare_antisym (x y : spec_float) :
  SFcompare y x = option_map CompOpp (SFcompare x y).
Proof.
  destruct x as [sx|sx| |sx mx ex], y as [sy|sy| |sy my ey]; simpl;
    try reflexivity;
    try (destruct sx; reflexivity); try (destruct sy; reflexivity);
    try (destruct sx, sy; reflexivity).
  destruct sx, sy; simpl; try reflexivity;
    rewrite (Z.compare_antisym ex ey); destruct (ex ?= ey); simpl;
    try reflexivity;
    rewrite Pos.compare_cont_antisym; simpl; try reflexivity.
  now rewrite CompOpp_involutive.
Qed.

Lemma ltb_asym (x y : float) : (x <? y)%float = true -> (y <? x)%float = false.
Proof.
  rewrite !ltb_spec. unfold SFltb.
  rewrite (SFcompare_antisym (Prim2SF x) (Prim2SF y)).
  destruct (SFcompare (Prim2SF x) (Prim2SF y)) as [[]|]; simpl; congruence.
Qed.

(** A check that holds on 0, 1, ..., n holds on every integer of that range. *)
Lemma on_small_ints (n : nat) (check : Z -> bool) :
  forallb check (map Z.of_nat (seq 0 (S n))) = true ->
  forall z, 0 <= z <= Z.of_nat n -> check z = true.
Proof.
  intros H z Hz. rewrite forallb_forall in H. apply H.
  apply in_map_iff. exists (Z.to_nat z). split; [lia |].
  apply in_seq. lia.
Qed.

Lemma existsb_Permutation {A : Type} (f : A -> bool) (l l' : list A) :
  Permutation l l' -> existsb f l = existsb f l'.
Proof.
  induction 1 as [|x l l' _ IH|x y l|l l' l'' _ IH1 _ IH2]; simpl.
  - reflexivity.
  - now rewrite IH.
  - now rewrite !orb_assoc, (orb_comm (f y)).
  - congruence.
Qed.

Lemma existsb_pointwise {A : Type} (f g : A -> bool) (l : list A) :
  (forall x, f x = g x) -> existsb f l = existsb g l.
Proof.
  intros H. induction l as [|x l IH]; simpl; [reflexivity |].
  now rewrite H, IH.
Qed.

Lemma str_in_Permutation (x : string) (l l' : list string) :
  Permutation l l' -> Py.str_in x l = Py.str_in x l'.
Proof. apply existsb_Permutation. Qed.

Lemma length_eqb_Permutation {A : Type} (l l' : list A) :
  Permutation l l' -> (length l =? 0)%nat = (length l' =? 0)%nat.
Proof. intros H. now rewrite (Permutation_length H). Qed.

(** ** Alignment scorers *)

(** X1: industry, stage and geographic alignment of both calculators take
    one of the four levels 0, 50, 75, 100, so each of them passes the range
    check of [FitMetrics]. *)
Theorem alignment_scores_in_range (sequence_ratio : string -> string -> float)
    (startup : StartupProfile.t) (vc_profile : VCProfile.t) :
  Forall (fun score => Spec.is_level score /\ FitMetrics.in_range score = true)
    [FitMetricCalculator._calculate_industry_alignment sequence_ratio startup vc_profile;
     FitMetricCalculator._calculate_stage_alignment startup vc_profile;
     FitMetricCalculator._calculate_geographic_alignment startup vc_profile;
     OptimizedFitMetricCalculator._calculate_industry_alignment startup vc_profile;
     OptimizedFitMetricCalculator._calculate_stage_alignment startup vc_profile;
     OptimizedFitMetricCalculator._calculate_geographic_alignment startup vc_profile].
Proof.
  destruct (alignment_scores_are_levels sequence_ratio startup vc_profile)
    as (H1 & H2 & H3 & H4 & H5 & H6).
  repeat (apply List.Forall_cons;
          [split; [assumption | now apply level_in_range] |]).
  apply List.Forall_nil.
Qed.

(** X2: once the funding stage is present and matches no VC stage exactly,
    stage alignment answers at the first VC stage (in list order) that lies
    within two steps of the startup's stage: 75 when that stage is within
    one step, 50 otherwise; later stages are not looked at.  When no VC stage
    lies within two steps it answers 0. *)
Theorem stage_alignment_first_near_stage
    (startup : StartupProfile.t) (vc_profile : VCProfile.t) (stage : string) :
  CompanyProfile.funding_stage (StartupProfile.company startup) = Some stage ->
  stage <> "" ->
  ~ In (Py.lower stage) (map Py.lower (VCProfile.investment_stages vc_profile)) ->
  let vc_stages := map Py.lower (VCProfile.investment_stages vc_profile) in
  let distance :=
    Spec.stage_distance (FitMetricCalculator.stage_hierarchy_get (Py.lower stage)) in
  (forall far vc_stage rest,
     vc_stages = (far ++ vc_stage :: rest)%list ->
     Forall (fun v => 2 < distance v) far ->
     distance vc_stage <= 2 ->
     FitMetricCalculator._calculate_stage_alignment startup vc_profile
     = if distance vc_stage <=? 1 then 75%float else 50%float)
  /\ (vc_stages <> [] ->
      Forall (fun v => 2 < distance v) vc_stages ->
      FitMetricCalculator._calculate_stage_alignment startup vc_profile = 0%float).
Proof.
  intros Hstage Hne Hno vc_stages distance.
  assert (Hrun : vc_stages <> [] ->
                 FitMetricCalculator._calculate_stage_alignment startup vc_profile
                 = FitMetricCalculator.stage_loop
                     (FitMetricCalculator.stage_hierarchy_get (Py.lower stage))
                     vc_stages).
  { intros Hstages. unfold FitMetricCalculator._calculate_stage_alignment.
    rewrite Hstage. change (Py.str_of (Some stage)) with stage.
    fold vc_stages.
    destruct (Py.str_in (Py.lower stage) vc_stages) eqn:E;
      [apply str_in_In in E; contradiction |].
    destruct stage as [|c stage]; [congruence |].
    subst vc_stages.
    destruct (VCProfile.investment_stages vc_profile);
      [exfalso; now apply Hstages | reflexivity]. }
  split.
  - intros far vc_stage rest E Hfar Hnear.
    rewrite Hrun by (rewrite E; now destruct far).
    rewrite E. now apply stage_loop_first_near_stage.
  - intros Hstages Hfar. rewrite (Hrun Hstages).
    now apply stage_loop_no_near_stage.
Qed.

Lemma stage_alignment_first_near_witness :
  FitMetricCalculator._calculate_stage_alignment
    Examples.payments_startup Examples.social_vc = 50%float.
Proof.
  assert (Hno : ~ In (Py.lower "seed")
                  (map Py.lower (VCProfile.investment_stages Examples.social_vc))).
  { simpl. intros [H | [H | []]]; discriminate H. }
  destruct (stage_alignment_first_near_stage
              Examples.payments_startup Examples.social_vc "seed"
              eq_refl ltac:(discriminate) Hno) as [Hfirst _].
  apply (Hfirst [] "series-b" ["series-a"]).
  - reflexivity.
  - constructor.
  - vm_compute. discriminate.
Defined.

(** X3: apart from the stage alignment of the first calculator, no
    alignment score depends on the order in which the firm lists its focus
    areas, stages or locations. *)
Theorem alignment_ignores_list_order (sequence_ratio : string -> string -> float)
    (startup : StartupProfile.t) (vc vc' : VCProfile.t) :
  Permutation (VCProfile.focus_areas vc) (VCProfile.focus_areas vc') ->
  Permutation (VCProfile.investment_stages vc) (VCProfile.investment_stages vc') ->
  Permutation (VCProfile.geographic_focus vc) (VCProfile.geographic_focus vc') ->
  FitMetricCalculator._calculate_industry_alignment sequence_ratio startup vc
  = FitMetricCalculator._calculate_industry_alignment sequence_ratio startup vc'
  /\ FitMetricCalculator._calculate_geographic_alignment startup vc
     = FitMetricCalculator._calculate_geographic_alignment startup vc'
  /\ OptimizedFitMetricCalculator._calculate_industry_alignment startup vc
     = OptimizedFitMetricCalculator._calculate_industry_alignment startup vc'
  /\ OptimizedFitMetricCalculator._calculate_stage_alignment startup vc
     = OptimizedFitMetricCalculator._calculate_stage_alignment startup vc'
  /\ OptimizedFitMetricCalculator._calculate_geographic_alignment startup vc
     = OptimizedFitMetricCalculator._calculate_geographic_alignment startup vc'.
Proof.
  intros Hfocus Hstages Hgeo.
  pose proof (Permutation_map Py.lower Hfocus) as Hfocus'.
  pose proof (Permutation_map Py.lower Hstages) as Hstages'.
  pose proof (Permutation_map Py.lower Hgeo) as Hgeo'.
  unfold FitMetricCalculator._calculate_industry_alignment,
    FitMetricCalculator._calculate_geographic_alignment,
    OptimizedFitMetricCalculator._calculate_industry_alignment,
    OptimizedFitMetricCalculator._calculate_stage_alignment,
    OptimizedFitMetricCalculator._calculate_geographic_alignment.
  rewrite (length_eqb_Permutation _ _ Hfocus), (length_eqb_Permutation _ _ Hstages),
    (length_eqb_Permutation _ _ Hgeo).
  repeat split.
  - rewrite (str_in_Permutation _ _ _ Hfocus'), (existsb_Permutation _ _ _ Hfocus').
    rewrite (existsb_pointwise
               (fun related => Py.str_in related (map Py.lower (VCProfile.focus_areas vc)))
               (fun related => Py.str_in related (map Py.lower (VCProfile.focus_areas vc')))
               _ (fun related => str_in_Permutation related _ _ Hfocus')).
    reflexivity.
  - rewrite (str_in_Permutation _ _ _ Hgeo').
    rewrite (existsb_pointwise
               (fun part => Py.str_in part (map Py.lower (VCProfile.geographic_focus vc)))
               (fun part => Py.str_in part (map Py.lower (VCProfile.geographic_focus vc')))
               _ (fun part => str_in_Permutation part _ _ Hgeo')).
    rewrite (existsb_Permutation _ _ _ Hgeo'). reflexivity.
  - rewrite (str_in_Permutation _ _ _ Hfocus'), (existsb_Permutation _ _ _ Hfocus').
    reflexivity.
  - rewrite (str_in_Permutation _ _ _ Hstages'), (existsb_Permutation _ _ _ Hstages').
    reflexivity.
  - rewrite (str_in_Permutation _ _ _ Hgeo').
    rewrite (existsb_pointwise
               (fun part => Py.str_in part (map Py.lower (VCProfile.geographic_focus vc)))
               (fun part => Py.str_in part (map Py.lower (VCProfile.geographic_focus vc')))
               _ (fun part => str_in_Permutation part _ _ Hgeo')).
    reflexivity.
Qed.

Lemma alignment_ignores_list_order_witness :
  OptimizedFitMetricCalculator._calculate_stage_alignment
    Examples.payments_startup Examples.social_vc
  = OptimizedFitMetricCalculator._calculate_stage_alignment
      Examples.payments_startup Examples.social_vc_reordered.
Proof.
  apply (alignment_ignores_list_order Examples.equal_ratio Examples.payments_startup
           Examples.social_vc Examples.social_vc_reordered).
  - apply Permutation_refl.
  - apply perm_swap.
  - apply Permutation_refl.
Defined.

(** X4: the two calculators agree on industry alignment whenever the
    optimized one answers above 0, and on geographic alignment except where
    the first calculator answers 50 (its region tier), which the optimized
    one answers with 0. *)
Theorem optimized_alignment_agrees (sequence_ratio : string -> string -> float)
    (startup : StartupProfile.t) (vc_profile : VCProfile.t) :
  (OptimizedFitMetricCalculator._calculate_industry_alignment startup vc_profile
   <> 0%float ->
   FitMetricCalculator._calculate_industry_alignment sequence_ratio startup vc_profile
   = OptimizedFitMetricCalculator._calculate_industry_alignment startup vc_profile)
  /\ (FitMetricCalculator._calculate_geographic_alignment startup vc_profile
      <> 50%float ->
      OptimizedFitMetricCalculator._calculate_geographic_alignment startup vc_profile
      = FitMetricCalculator._calculate_geographic_alignment startup vc_profile)
  /\ (FitMetricCalculator._calculate_geographic_alignment startup vc_profile
      = 50%float ->
      OptimizedFitMetricCalculator._calculate_geographic_alignment startup vc_profile
      = 0%float).
Proof.
  unfold FitMetricCalculator._calculate_industry_alignment,
    FitMetricCalculator._calculate_geographic_alignment,
    OptimizedFitMetricCalculator._calculate_industry_alignment,
    OptimizedFitMetricCalculator._calculate_geographic_alignment.
  split; [| split].
  - destruct (negb _ || _); [congruence |].
    destruct (Py.str_in _ _); [reflexivity |].
    set (focus := map Py.lower (VCProfile.focus_areas vc_profile)).
    set (industry := Py.lower _).
    destruct (existsb (fun focus_area => Py.contains industry focus_area
                                         || Py.contains focus_area industry) focus)
      eqn:E; [| congruence].
    intros _.
    assert (E' : existsb (FitMetricCalculator.partial_match sequence_ratio industry)
                   focus = true).
    { apply existsb_exists in E as (focus_area & Hin & Hsub).
      apply existsb_exists. exists focus_area. split; [assumption |].
      unfold FitMetricCalculator.partial_match.
      apply orb_true_iff in Hsub as [-> | ->]; [reflexivity |].
      now rewrite orb_true_r. }
    now rewrite E'.
  - destruct (negb _ || _); [reflexivity |].
    destruct (Py.str_in _ _); [reflexivity |].
    destruct (existsb _ (Py.split_comma_space _)); [reflexivity |].
    destruct (existsb _ _); [congruence | reflexivity].
  - destruct (negb _ || _); [intros E; float_discr E |].
    destruct (Py.str_in _ _); [intros E; float_discr E |].
    destruct (existsb _ (Py.split_comma_space _)); [intros E; float_discr E |].
    reflexivity.
Qed.

(** X5: the region table of the first calculator files every location that
    names none of its eleven cities under "other"; a startup and a VC
    location that are both filed there count as the same region, so the
    geographic alignment of such a pair is never 0. *)
Theorem other_regions_align (startup : StartupProfile.t) (vc_profile : VCProfile.t)
    (location vc_location : string) :
  CompanyProfile.location (StartupProfile.company startup) = Some location ->
  location <> "" ->
  In vc_location (VCProfile.geographic_focus vc_profile) ->
  FitMetricCalculator._get_region (Py.lower location) = "other" ->
  FitMetricCalculator._get_region (Py.lower vc_location) = "other" ->
  let score := FitMetricCalculator._calculate_geographic_alignment startup vc_profile in
  score = 50%float \/ score = 75%float \/ score = 100%float.
Proof.
  intros Hloc Hne Hin Hmine Htheirs.
  unfold FitMetricCalculator._calculate_geographic_alignment.
  rewrite Hloc. change (Py.str_of (Some location)) with location.
  destruct location as [|c location]; [congruence |].
  destruct (VCProfile.geographic_focus vc_profile) as [|v vs] eqn:Hfocus;
    [destruct Hin |].
  cbn [Py.truthy_str negb orb length Nat.eqb]. rewrite <- Hfocus.
  destruct (Py.str_in _ _); [auto |].
  destruct (existsb _ (Py.split_comma_space _)); [auto |].
  match goal with
  | |- context [existsb ?f ?l] =>
      assert (E : existsb f l = true)
  end.
  { apply existsb_exists. exists (Py.lower vc_location). split.
    - apply in_map. rewrite Hfocus. exact Hin.
    - rewrite Hmine, Htheirs. reflexivity. }
  rewrite E. auto.
Qed.

Lemma other_regions_align_witness :
  FitMetricCalculator._calculate_geographic_alignment
    Examples.paris_startup Examples.tokyo_vc = 50%float.
Proof.
  destruct (other_regions_align Examples.paris_startup Examples.tokyo_vc
              "Paris, France" "Tokyo" eq_refl ltac:(discriminate)
              ltac:(now left) eq_refl eq_refl) as [E | [E | E]].
  - exact E.
  - exfalso. revert E. vm_compute. intros E. float_discr E.
  - exfalso. revert E. vm_compute. intros E. float_discr E.
Defined.

(** ** Text similarity: the fallbacks *)

(** X6: the text similarity of the first calculator is 0.0 whenever no
    embedding model is loaded, the startup or the firm has no text, the model
    raises on one of the two texts, or the two embeddings differ in length:
    every failure inside the [try] ends in the fallback. *)
Theorem text_similarity_falls_back_to_zero (embedding_model : EmbeddingModel)
    (startup : StartupProfile.t) (vc_profile : VCProfile.t) :
  let startup_text := FitMetricCalculator._prepare_startup_text startup in
  let vc_text := FitMetricCalculator._prepare_vc_text vc_profile in
  embedding_model = None
  \/ startup_text = ""
  \/ vc_text = ""
  \/ (exists model e,
        embedding_model = Some model
        /\ (model startup_text = Py.Raise e \/ model vc_text = Py.Raise e))
  \/ (exists model a b,
        embedding_model = Some model
        /\ model startup_text = Py.Ok a /\ model vc_text = Py.Ok b
        /\ length a <> length b) ->
  FitMetricCalculator._calculate_text_similarity embedding_model startup vc_profile
  = 0%float.
Proof.
  intros startup_text vc_text H.
  unfold FitMetricCalculator._calculate_text_similarity.
  fold startup_text vc_text.
  destruct startup_text as [|c1 t1] eqn:E1; [reflexivity |].
  destruct vc_text as [|c2 t2] eqn:E2; [reflexivity |].
  cbn [Py.truthy_str negb orb].
  unfold FitMetricCalculator.encode, mbind, result_bind, Py.bind, Py.try_except.
  destruct H as [-> | [H | [H | [(model & e & -> & H) | (model & a & b & -> & Ha & Hb & Hlen)]]]];
    try discriminate; try reflexivity.
  - destruct H as [-> | H]; [reflexivity |].
    destruct (model (String c1 t1)); [now rewrite H | reflexivity].
  - rewrite Ha, Hb. unfold Sklearn.cosine_similarity.
    apply Nat.eqb_neq in Hlen. rewrite Hlen. reflexivity.
Qed.

Lemma text_similarity_falls_back_witness :
  FitMetricCalculator._calculate_text_similarity
    None Examples.payments_startup Examples.social_vc = 0%float.
Proof.
  apply (text_similarity_falls_back_to_zero
           None Examples.payments_startup Examples.social_vc).
  left. reflexivity.
Defined.

Lemma zeros_have_no_similarity :
  Sklearn.cosine_similarity
    OptimizedFitMetricCalculator.zeros384 OptimizedFitMetricCalculator.zeros384
  = Py.Ok 0%float.
Proof. vm_compute. reflexivity. Qed.

(** X7: in the optimized calculator a startup embedding whose length
    differs from the VC embedding's gives the text similarity 0.0 (the
    library's error is caught); and with no embedding model loaded, a batch
    that starts on an empty cache scores every startup's text similarity as
    0.0. *)
Theorem optimized_text_similarity_fallbacks (embedding_model : EmbeddingModel)
    (startup : StartupProfile.t) (vc_profile : VCProfile.t)
    (vc_embedding : list float) :
  (length (OptimizedFitMetricCalculator._get_text_embedding embedding_model
             (OptimizedFitMetricCalculator._prepare_startup_text startup))
   <> length vc_embedding ->
   OptimizedFitMetricCalculator._calculate_text_similarity_optimized
     embedding_model startup vc_embedding = 0%float)
  /\ OptimizedFitMetricCalculator._calculate_text_similarity_optimized
       None startup
       (fst (OptimizedFitMetricCalculator._get_vc_embedding None ∅ vc_profile))
     = 0%float.
Proof.
  unfold OptimizedFitMetricCalculator._calculate_text_similarity_optimized,
    mbind, result_bind, Py.bind, Py.try_except.
  split.
  - intros Hlen. unfold Sklearn.cosine_similarity.
    apply Nat.eqb_neq in Hlen. rewrite Hlen. reflexivity.
  - unfold OptimizedFitMetricCalculator._get_vc_embedding.
    rewrite lookup_empty. cbn [fst OptimizedFitMetricCalculator._get_text_embedding].
    rewrite zeros_have_no_similarity. vm_compute. reflexivity.
Qed.

(** ** Caches *)

(** X8: the VC embedding is cached under the firm's name alone: after one
    call, a call for any profile of the same name (whatever its thesis, focus
    areas or portfolio) returns the first embedding and leaves the cache as
    it is. *)
Theorem vc_embedding_cached_by_name (embedding_model : EmbeddingModel)
    (vc_embeddings : gmap string (list float)) (vc vc' : VCProfile.t) :
  VCProfile.name vc = VCProfile.name vc' ->
  let first_call :=
    OptimizedFitMetricCalculator._get_vc_embedding embedding_model vc_embeddings vc in
  OptimizedFitMetricCalculator._get_vc_embedding embedding_model (snd first_call) vc'
  = first_call.
Proof.
  intros Hname first_call. subst first_call.
  unfold OptimizedFitMetricCalculator._get_vc_embedding. rewrite <- Hname.
  destruct (vc_embeddings !! ("vc_" ++ VCProfile.name vc)%string) as [embedding|] eqn:E.
  - cbn [snd]. now rewrite E.
  - cbn [snd]. now rewrite lookup_insert_eq.
Qed.

Lemma vc_embedding_cached_witness :
  fst (OptimizedFitMetricCalculator._get_vc_embedding Examples.opposed_model
         (snd (OptimizedFitMetricCalculator._get_vc_embedding
                 Examples.opposed_model ∅ Examples.social_vc))
         Examples.social_vc_rewritten)
  = Examples.axis384 (-1)%float
  /\ OptimizedFitMetricCalculator._get_text_embedding Examples.opposed_model
       (OptimizedFitMetricCalculator._prepare_vc_text Examples.social_vc_rewritten)
     = Examples.axis384 1%float.
Proof.
  split.
  - rewrite (vc_embedding_cached_by_name Examples.opposed_model ∅
               Examples.social_vc Examples.social_vc_rewritten eq_refl).
    vm_compute. reflexivity.
  - vm_compute. reflexivity.
Defined.

(** X9: a result stored in the [CachingProcessor] at time [t0] is read back
    at time [t1] exactly while [t1 - t0] is below the 3600 seconds of
    [cache_ttl]; the first read after that returns nothing and deletes the
    entry, so the cache is then what it would be had the old entry been
    removed.  Reads of other keys see what they saw before the store. *)
Theorem cached_result_expires {V : Type} (t0 t1 : float) (key : string) (result : V)
    (cache : gmap string (V * float)) :
  let stored := CachingProcessor.cache_result t0 key result cache in
  CachingProcessor.get_cached_result t1 key stored
  = (if (t1 - t0 <? 3600)%float
     then (Some result, stored)
     else (None, delete key cache))
  /\ (forall other,
        other <> key ->
        fst (CachingProcessor.get_cached_result t1 other stored)
        = fst (CachingProcessor.get_cached_result t1 other cache)).
Proof.
  intros stored. subst stored.
  unfold CachingProcessor.get_cached_result, CachingProcessor.cache_result,
    CachingProcessor.cache_ttl.
  split.
  - rewrite lookup_insert_eq.
    destruct (t1 - t0 <? 3600)%float; [reflexivity |].
    now rewrite delete_insert_eq.
  - intros other Hne. rewrite lookup_insert_ne by congruence.
    destruct (cache !! other) as [[r t]|]; [| reflexivity].
    destruct (t1 - t <? 3600)%float; reflexivity.
Qed.

(** ** Batch scoring: what the returned metrics carry *)

(** X10: every [FitMetrics] the batch returns names the firm of the
    profile and one of the startups of the input, and each of its six scores
    passed the range check, so it lies in [0, 100]. *)
Theorem batch_metrics_are_valid (embedding_model : EmbeddingModel)
    (vc_embeddings : gmap string (list float))
    (startups : list StartupProfile.t) (vc_profile : VCProfile.t) :
  Forall
    (fun m =>
       FitMetrics.vc_firm m = VCProfile.name vc_profile
       /\ In (FitMetrics.startup_id m)
            (map (fun s => CompanyProfile.name (StartupProfile.company s)) startups)
       /\ Forall (fun score => FitMetrics.in_range score = true)
            [FitMetrics.overall_score m; FitMetrics.text_similarity m;
             FitMetrics.industry_alignment m; FitMetrics.stage_alignment m;
             FitMetrics.geographic_alignment m; FitMetrics.network_proximity m])
    (fst (OptimizedFitMetricCalculator.calculate_fit_metrics_batch
            embedding_model vc_embeddings startups vc_profile)).
Proof.
  unfold OptimizedFitMetricCalculator.calculate_fit_metrics_batch.
  destruct (OptimizedFitMetricCalculator._get_vc_embedding
              embedding_model vc_embeddings vc_profile) as [emb cache'].
  cbn [fst]. rewrite (batch_loop_appends embedding_model vc_profile emb startups []).
  cbn [app]. apply List.Forall_forall. intros m Hm.
  apply successfully_scored_In in Hm as (startup & Hin & Hok).
  unfold OptimizedFitMetricCalculator._calculate_single_fit_metrics,
    FitMetrics.create in Hok.
  match type of Hok with
  | (if ?c then _ else _) = _ => destruct c eqn:Hrange; [| discriminate]
  end.
  injection Hok as <-.
  cbn [FitMetrics.vc_firm FitMetrics.startup_id FitMetrics.overall_score
       FitMetrics.text_similarity FitMetrics.industry_alignment
       FitMetrics.stage_alignment FitMetrics.geographic_alignment
       FitMetrics.network_proximity].
  do 5 (apply andb_prop in Hrange as [Hrange ?]).
  split; [reflexivity | split].
  - apply in_map_iff. exists startup. now split.
  - repeat (apply List.Forall_cons; [assumption |]). apply List.Forall_nil.
Qed.

(** ** Quality sub-scores are whole numbers within their caps *)

(** The points of a keyword scan lie between the starting score and that
    score plus the sum of all weights. *)
Lemma conditional_sum_bounds {A : Type} (hit : A -> bool) (weight : A -> Z)
    (items : list A) :
  (forall x, 0 <= weight x) ->
  forall start,
    start
    <= fold_left (fun score x => if hit x then score + weight x else score) items start
    <= start + fold_right Z.add 0 (map weight items).
Proof.
  intros Hweight. induction items as [|x items IH]; intros start; simpl; [lia |].
  pose proof (Hweight x).
  destruct (hit x).
  - specialize (IH (start + weight x)). lia.
  - specialize (IH start). lia.
Qed.

Lemma keyword_points_bounds (points : Z) (keys : list string) (text : string) :
  0 <= points ->
  0 <= FitMetricCalculator.keyword_points points keys text
  <= points * Z.of_nat (length keys).
Proof.
  intros Hpoints. unfold FitMetricCalculator.keyword_points.
  pose proof (conditional_sum_bounds (fun k => Py.contains k text) (fun _ => points)
                keys (fun _ => Hpoints) 0) as H.
  assert (E : fold_right Z.add 0 (map (fun _ : string => points) keys)
              = points * Z.of_nat (length keys)).
  { clear. induction keys as [|k keys IH]; simpl length; simpl fold_right; [lia |].
    rewrite IH. lia. }
  rewrite E in H. exact H.
Qed.

Lemma honor_points_bounds (text : string) :
  0 <= QualityScorer.honor_points text <= 1483.
Proof.
  unfold QualityScorer.honor_points.
  assert (Hweights : forall hp : string * Z, In hp QualityScorer.prestigious_honors ->
                                             0 <= snd hp).
  { apply List.Forall_forall. unfold QualityScorer.prestigious_honors.
    repeat (apply List.Forall_cons; [simpl; lia |]). apply List.Forall_nil. }
  assert (Hgen : forall (items : list (string * Z)) start,
             (forall hp, In hp items -> 0 <= snd hp) ->
             start
             <= fold_left (fun score hp => if Py.contains (fst hp) text
                                           then score + snd hp else score) items start
             <= start + fold_right Z.add 0 (map snd items)).
  { induction items as [|hp items IH]; intros start Hpos; simpl; [lia |].
    pose proof (Hpos hp (or_introl eq_refl)).
    assert (Hrest : forall hp', In hp' items -> 0 <= snd hp') by (intros; apply Hpos; now right).
    destruct (Py.contains (fst hp) text).
    - specialize (IH (start + snd hp) Hrest). lia.
    - specialize (IH start Hrest). lia. }
  specialize (Hgen QualityScorer.prestigious_honors 0 Hweights).
  assert (E : fold_right Z.add 0 (map snd QualityScorer.prestigious_honors) = 1483)
    by (vm_compute; reflexivity).
  rewrite E in Hgen. exact Hgen.
Qed.

(** On whole numbers from 0 to 100 the float operations of the scorers are
    exact: each statement is checked on every number of its range. *)
Lemma capped_is_whole (cap : Z) (n : nat) :
  forallb
    (fun z => Leibniz.eqb (Py.min (Py.float_of_int cap) (Py.float_of_int z))
                (Py.float_of_int (Z.min cap z)))
    (map Z.of_nat (seq 0 (S n))) = true ->
  forall z, 0 <= z <= Z.of_nat n ->
    Py.min (Py.float_of_int cap) (Py.float_of_int z) = Py.float_of_int (Z.min cap z).
Proof.
  intros Hcheck z Hz. apply Leibniz.eqb_spec.
  exact (on_small_ints n _ Hcheck z Hz).
Qed.

Lemma float_add_whole (x y : Z) :
  0 <= x <= 100 -> 0 <= y <= 100 ->
  (Py.float_of_int x + Py.float_of_int y)%float = Py.float_of_int (x + y).
Proof.
  intros Hx Hy. apply Leibniz.eqb_spec. revert y Hy.
  apply (on_small_ints 100
           (fun y => Leibniz.eqb (Py.float_of_int x + Py.float_of_int y)%float
                       (Py.float_of_int (x + y)))).
  revert x Hx.
  apply (on_small_ints 100
           (fun x =>
              forallb
                (fun y => Leibniz.eqb (Py.float_of_int x + Py.float_of_int y)%float
                            (Py.float_of_int (x + y)))
                (map Z.of_nat (seq 0 101)))).
  vm_compute. reflexivity.
Qed.

Lemma float_zero_add_whole (x : Z) :
  0 <= x <= 100 -> (0 + Py.float_of_int x)%float = Py.float_of_int x.
Proof.
  intros Hx. change 0%float with (Py.float_of_int 0).
  now rewrite float_add_whole by lia.
Qed.

Lemma float_leb_whole (x y : Z) :
  0 <= x <= 100 -> 0 <= y <= 100 -> x <= y ->
  (Py.float_of_int x <=? Py.float_of_int y)%float = true.
Proof.
  intros Hx Hy Hxy.
  assert (H : (if x <=? y
               then (Py.float_of_int x <=? Py.float_of_int y)%float else true) = true).
  { revert y Hy Hxy. intros y Hy _. revert y Hy.
    apply (on_small_ints 100
             (fun y => if x <=? y
                       then (Py.float_of_int x <=? Py.float_of_int y)%float else true)).
    revert x Hx.
    apply (on_small_ints 100
             (fun x =>
                forallb
                  (fun y => if x <=? y
                            then (Py.float_of_int x <=? Py.float_of_int y)%float
                            else true)
                  (map Z.of_nat (seq 0 101)))).
    vm_compute. reflexivity. }
  apply Z.leb_le in Hxy. now rewrite Hxy in H.
Qed.

Lemma whole_in_range (k : Z) :
  0 <= k <= 100 -> FitMetrics.in_range (Py.float_of_int k) = true.
Proof.
  apply (on_small_ints 100 (fun k => FitMetrics.in_range (Py.float_of_int k))).
  vm_compute. reflexivity.
Qed.

(** [min(100.0, 0 + e + d + h + n)] for four whole sub-scores within the
    sub-caps: the sum is exact and the cap does not cut. *)
Lemma capped_sum_whole (k1 k2 k3 k4 : Z) :
  0 <= k1 <= 35 -> 0 <= k2 <= 20 -> 0 <= k3 <= 30 -> 0 <= k4 <= 15 ->
  Py.min 100%float
    (0 + Py.float_of_int k1 + Py.float_of_int k2 + Py.float_of_int k3
     + Py.float_of_int k4)%float
  = Py.float_of_int (k1 + k2 + k3 + k4)
  /\ (0 + Py.float_of_int k1 + Py.float_of_int k2 + Py.float_of_int k3
      + Py.float_of_int k4)%float
     = Py.float_of_int (k1 + k2 + k3 + k4).
Proof.
  intros H1 H2 H3 H4.
  rewrite float_zero_add_whole, !float_add_whole by lia.
  split; [| reflexivity].
  change 100%float with (Py.float_of_int 100).
  rewrite (capped_is_whole 100 100) by first [lia | vm_compute; reflexivity].
  f_equal. lia.
Qed.

Lemma years_bonus_bounds (text : string) (bonus : Z) :
  QualityScorer.years_bonus text = Py.Ok bonus -> 0 <= bonus <= 15.
Proof.
  unfold QualityScorer.years_bonus, mbind, result_bind, Py.bind.
  destruct (Py.contains "years" text || Py.contains "yr" text);
    [| intros [= <-]; lia].
  cbn zeta. destruct (QualityScorer.findall_years text) as [|y ys];
    [intros [= <-]; lia |].
  destruct (QualityScorer.int_of_each (y :: ys)) as [converted|]; [| discriminate].
  intros [= <-].
  repeat match goal with
         | |- context [if ?c then _ else _] => destruct c
         end; lia.
Qed.

Lemma experience_whole (experience : option string) (experience_score : float) :
  QualityScorer._evaluate_experience experience = Py.Ok experience_score ->
  Spec.whole_up_to 35 experience_score.
Proof.
  unfold QualityScorer._evaluate_experience, Spec.whole_up_to,
    mbind, result_bind, Py.bind.
  destruct (Py.truthy_str experience); cbn [negb];
    [| intros [= <-]; exists 0; split; [lia | reflexivity]].
  cbn zeta. set (text := Py.lower (Py.str_of experience)).
  destruct (QualityScorer.years_bonus text) as [bonus|] eqn:Hbonus; [| discriminate].
  intros [= <-].
  pose proof (keyword_points_bounds 12 QualityScorer.prestigious_companies text
                ltac:(lia)) as H1.
  pose proof (keyword_points_bounds 3 QualityScorer.experience_keywords text
                ltac:(lia)) as H2.
  pose proof (years_bonus_bounds text bonus Hbonus) as H3.
  change (Z.of_nat (length QualityScorer.prestigious_companies)) with 33 in H1.
  change (Z.of_nat (length QualityScorer.experience_keywords)) with 17 in H2.
  eexists. split; [| change 35%float with (Py.float_of_int 35);
                     apply (capped_is_whole 35 462);
                     [vm_compute; reflexivity | lia]].
  lia.
Qed.

(** The comprehension raises exactly on a capture that is too long for
    [int], and then with [ValueError]. *)
Lemma int_of_each_raises (year_patterns : list string) :
  (forall e, QualityScorer.int_of_each year_patterns = Py.Raise e -> e = Py.ValueError)
  /\ ((exists e, QualityScorer.int_of_each year_patterns = Py.Raise e)
      <-> exists y,
            In y year_patterns
            /\ QualityScorer.max_str_digits < Z.of_nat (String.length y)).
Proof.
  induction year_patterns as [|y rest [IHe IH]].
  - split; [discriminate |]. split; [intros [e H]; discriminate H | intros (y & [] & _)].
  - cbn [QualityScorer.int_of_each]. unfold QualityScorer.int_of_digits.
    unfold mbind, result_bind, Py.bind in *.
    destruct (Z.gtb_spec (Z.of_nat (String.length y)) QualityScorer.max_str_digits)
      as [Hlong | Hshort].
    + split; [now intros e [= <-] |]. split; [| eauto].
      intros _. exists y. split; [now left | exact Hlong].
    + destruct (QualityScorer.int_of_each rest) as [converted|e'].
      * split; [discriminate |]. split; [intros [e H]; discriminate H |].
        intros (y' & [<- | Hin] & Hlong); [lia |].
        destruct (proj2 IH) as [e H]; [eauto | discriminate H].
      * split; [intros e [= <-]; now apply IHe |]. split; [| eauto].
        intros _. destruct (proj1 IH) as (y' & Hin & Hlong); [eauto |].
        exists y'. split; [now right | exact Hlong].
Qed.

(** The experience score is lost exactly when the text passes the test for
    "years" or "yr" and the pattern captures more digits than [int]
    converts. *)
Lemma experience_raises (experience : option string) :
  (forall e, QualityScorer._evaluate_experience experience = Py.Raise e ->
             e = Py.ValueError)
  /\ ((exists e, QualityScorer._evaluate_experience experience = Py.Raise e)
      <-> exists text y,
            experience = Some text
            /\ Py.contains "years" (Py.lower text) || Py.contains "yr" (Py.lower text)
               = true
            /\ In y (QualityScorer.findall_years (Py.lower text))
            /\ QualityScorer.max_str_digits < Z.of_nat (String.length y)).
Proof.
  unfold QualityScorer._evaluate_experience, QualityScorer.years_bonus,
    mbind, result_bind, Py.bind.
  destruct experience as [[|c text]|]; cbn [Py.truthy_str negb].
  { split; [discriminate |]. split; [intros [e H]; discriminate H |].
    intros (text & y & [= <-] & Hguard & _). vm_compute in Hguard.
    discriminate Hguard. }
  2: { split; [discriminate |]. split; [intros [e H]; discriminate H |].
       intros (text & y & E & _). discriminate E. }
  change (Py.str_of (Some (String c text))) with (String c text). cbn zeta.
  destruct (Py.contains "years" (Py.lower (String c text))
            || Py.contains "yr" (Py.lower (String c text))) eqn:Hguard.
  2: { split; [discriminate |]. split; [intros [e H]; discriminate H |].
       intros (text' & y & [= <-] & Hguard' & _). congruence. }
  destruct (int_of_each_raises
              (QualityScorer.findall_years (Py.lower (String c text)))) as [He Hiff].
  destruct (QualityScorer.findall_years (Py.lower (String c text))) as [|y ys] eqn:Hfound.
  { split; [discriminate |]. split; [intros [e H]; discriminate H |].
    intros (text' & y & [= <-] & _ & Hin & _). rewrite Hfound in Hin. destruct Hin. }
  destruct (QualityScorer.int_of_each (y :: ys)) as [converted|e'].
  - split; [discriminate |]. split; [intros [e H]; discriminate H |].
    intros (text' & y' & [= <-] & _ & Hin & Hlong).
    rewrite Hfound in Hin.
    destruct (proj2 Hiff) as [e H]; [eauto | discriminate H].
  - split; [intros e [= <-]; now apply He |]. split; [| eauto].
    intros _. destruct (proj1 Hiff) as (y' & Hin & Hlong); [eauto |].
    exists (String c text), y'. rewrite Hfound. auto.
Qed.

Lemma education_whole (education : option string) :
  Spec.whole_up_to 20 (QualityScorer._evaluate_education education).
Proof.
  unfold QualityScorer._evaluate_education, Spec.whole_up_to.
  destruct (Py.truthy_str education); cbn [negb];
    [| exists 0; split; [lia | reflexivity]].
  cbn zeta. set (text := Py.lower (Py.str_of education)).
  match goal with
  | |- context [FitMetricCalculator.keyword_points 8 ?degrees text] =>
      pose proof (keyword_points_bounds 8 degrees text ltac:(lia)) as H2
  end.
  match goal with
  | |- context [FitMetricCalculator.keyword_points 3 ?fields text] =>
      pose proof (keyword_points_bounds 3 fields text ltac:(lia)) as H3
  end.
  pose proof (keyword_points_bounds 12 QualityScorer.prestigious_universities text
                ltac:(lia)) as H1.
  change (Z.of_nat (length QualityScorer.prestigious_universities)) with 25 in H1.
  simpl length in H2, H3.
  eexists. split; [| change 20%float with (Py.float_of_int 20);
                     apply (capped_is_whole 20 395);
                     [vm_compute; reflexivity | lia]].
  lia.
Qed.

Lemma honors_whole (founder : FounderProfile.t) :
  Spec.whole_up_to 30 (QualityScorer._evaluate_honors founder).
Proof.
  unfold QualityScorer._evaluate_honors, Spec.whole_up_to. cbn zeta.
  pose proof (honor_points_bounds
                (Py.lower (Py.str_of (FounderProfile.experience founder)))) as H1.
  pose proof (honor_points_bounds
                (Py.lower (Py.str_of (FounderProfile.education founder)))) as H2.
  eexists. split; [| change 30%float with (Py.float_of_int 30);
                     apply (capped_is_whole 30 2976); [vm_compute; reflexivity |]].
  all: destruct (Py.truthy_str (FounderProfile.experience founder)),
         (Py.truthy_str (FounderProfile.education founder)),
         (Py.truthy_str (Some (FounderProfile.name founder))
          && Py.contains "dr." (Py.lower (FounderProfile.name founder))); lia.
Qed.

Lemma network_points_bounds (connections endorsements : option Z) :
  0 <= Spec.network_points connections endorsements <= 15.
Proof.
  unfold Spec.network_points.
  repeat match goal with
         | |- context [if ?c then _ else _] => destruct c
         end; lia.
Qed.

Lemma network_whole (founder : FounderProfile.t) :
  QualityScorer._evaluate_network founder
  = Py.float_of_int
      (Spec.network_points (FounderProfile.linkedin_connections founder)
         (FounderProfile.endorsements founder)).
Proof.
  unfold QualityScorer._evaluate_network.
  fold (Spec.network_points (FounderProfile.linkedin_connections founder)
          (FounderProfile.endorsements founder)).
  pose proof (network_points_bounds (FounderProfile.linkedin_connections founder)
                (FounderProfile.endorsements founder)) as H.
  change 15%float with (Py.float_of_int 15).
  rewrite (capped_is_whole 15 15) by first [lia | vm_compute; reflexivity].
  f_equal. lia.
Qed.

(** X11: the quality score of a founder is a whole number between 0 and
    100 and passes the range check.  When the experience score is computed it
    is the plain sum of the four sub-scores, because their caps (35, 20, 30
    and 15) add up to 100 and the cap [min(100.0, ...)] of the sum never
    cuts.  When [_evaluate_experience] raises, which it does exactly when the
    text passes the test for "years" or "yr" and the pattern captures a run of
    more than 4300 digits ([int] then raises [ValueError]), the handler
    returns 0.0 whatever the other sub-scores are. *)
Theorem founder_quality_is_plain_sum (founder : FounderProfile.t) :
  let quality := QualityScorer._calculate_founder_quality founder in
  let experience :=
    QualityScorer._evaluate_experience (FounderProfile.experience founder) in
  let education_score :=
    QualityScorer._evaluate_education (FounderProfile.education founder) in
  let honors_score := QualityScorer._evaluate_honors founder in
  let network_score := QualityScorer._evaluate_network founder in
  Spec.whole_up_to 100 quality
  /\ FitMetrics.in_range quality = true
  /\ Spec.whole_up_to 20 education_score
  /\ Spec.whole_up_to 30 honors_score
  /\ Spec.whole_up_to 15 network_score
  /\ (forall experience_score,
        experience = Py.Ok experience_score ->
        Spec.whole_up_to 35 experience_score
        /\ quality
           = (0 + experience_score + education_score + honors_score
              + network_score)%float)
  /\ (forall e, experience = Py.Raise e -> e = Py.ValueError /\ quality = 0%float)
  /\ ((exists e, experience = Py.Raise e)
      <-> exists text y,
            FounderProfile.experience founder = Some text
            /\ Py.contains "years" (Py.lower text) || Py.contains "yr" (Py.lower text)
               = true
            /\ In y (QualityScorer.findall_years (Py.lower text))
            /\ QualityScorer.max_str_digits < Z.of_nat (String.length y)).
Proof.
  cbn zeta.
  unfold QualityScorer._calculate_founder_quality, Py.try_except,
    mbind, result_bind, Py.bind.
  pose proof (education_whole (FounderProfile.education founder)) as Hedu.
  pose proof (honors_whole founder) as Hhon.
  pose proof (network_points_bounds (FounderProfile.linkedin_connections founder)
                (FounderProfile.endorsements founder)) as Hnet.
  assert (Hnetw : Spec.whole_up_to 15 (QualityScorer._evaluate_network founder)).
  { eexists. split; [exact Hnet | apply network_whole]. }
  destruct (experience_raises (FounderProfile.experience founder)) as [Hexn Hraises].
  split; [| split; [| split; [exact Hedu | split; [exact Hhon | split;
    [exact Hnetw | split; [| split; [| exact Hraises]]]]]]].
  - destruct (QualityScorer._evaluate_experience (FounderProfile.experience founder))
      as [experience_score|] eqn:Hexp; [| exists 0; split; [lia | reflexivity]].
    destruct (experience_whole _ _ Hexp) as (k1 & H1 & ->).
    destruct Hedu as (k2 & H2 & ->), Hhon as (k3 & H3 & ->).
    destruct (capped_sum_whole k1 k2 k3 _ H1 H2 H3 Hnet) as [Hcap _].
    rewrite network_whole, Hcap. eexists. split; [| reflexivity]. lia.
  - destruct (QualityScorer._evaluate_experience (FounderProfile.experience founder))
      as [experience_score|] eqn:Hexp; [| vm_compute; reflexivity].
    destruct (experience_whole _ _ Hexp) as (k1 & H1 & ->).
    destruct Hedu as (k2 & H2 & ->), Hhon as (k3 & H3 & ->).
    destruct (capped_sum_whole k1 k2 k3 _ H1 H2 H3 Hnet) as [Hcap _].
    rewrite network_whole, Hcap. apply whole_in_range. lia.
  - intros experience_score Hexp. rewrite Hexp.
    split; [exact (experience_whole _ _ Hexp) |].
    destruct (experience_whole _ _ Hexp) as (k1 & H1 & ->).
    destruct Hedu as (k2 & H2 & ->), Hhon as (k3 & H3 & ->).
    destruct (capped_sum_whole k1 k2 k3 _ H1 H2 H3 Hnet) as [Hcap Hsum].
    rewrite network_whole, Hcap, Hsum. reflexivity.
  - intros e Hexp. rewrite Hexp. split; [now apply Hexn | reflexivity].
Qed.

(** With 4300 digits the years still count; one digit more and the whole
    founder score is lost. *)
Example years_too_long_for_int :
  QualityScorer._calculate_founder_quality (Examples.veteran 4300) = 45%float
  /\ QualityScorer._evaluate_experience
       (FounderProfile.experience (Examples.veteran 4301))
     = Py.Raise Py.ValueError
  /\ QualityScorer._calculate_founder_quality (Examples.veteran 4301) = 0%float.
Proof. repeat split; vm_compute; reflexivity. Qed.

Lemma network_points_monotone (c c' : Z) (endorsements : option Z) :
  c <= c' ->
  Spec.network_points (Some c) endorsements
  <= Spec.network_points (Some c') endorsements.
Proof.
  intros Hc. unfold Spec.network_points.
  apply Z.add_le_mono_r.
  change (Py.int_of (Some c)) with c. change (Py.int_of (Some c')) with c'.
  change (Py.truthy_int (Some c)) with (negb (c =? 0)).
  change (Py.truthy_int (Some c')) with (negb (c' =? 0)).
  destruct (Z.eqb_spec c 0), (Z.eqb_spec c' 0); cbn [negb];
    destruct (Z.gtb_spec c 1000), (Z.gtb_spec c 500), (Z.gtb_spec c 200),
      (Z.gtb_spec c 100), (Z.gtb_spec c' 1000), (Z.gtb_spec c' 500),
      (Z.gtb_spec c' 200), (Z.gtb_spec c' 100); lia.
Qed.

(** X12: all else equal, a founder with more LinkedIn connections never
    has a lower quality score (the tiers change at 100, 200, 500 and 1000
    connections). *)
Theorem founder_quality_monotone_in_connections
    (founder : FounderProfile.t) (c c' : Z) :
  c <= c' ->
  (QualityScorer._calculate_founder_quality (Spec.with_connections founder (Some c))
   <=? QualityScorer._calculate_founder_quality
         (Spec.with_connections founder (Some c')))%float
  = true.
Proof.
  intros Hc.
  unfold QualityScorer._calculate_founder_quality, Py.try_except,
    mbind, result_bind, Py.bind.
  assert (Hhon : forall x,
             QualityScorer._evaluate_honors (Spec.with_connections founder x)
             = QualityScorer._evaluate_honors founder) by reflexivity.
  rewrite !Hhon, !network_whole.
  cbn [Spec.with_connections FounderProfile.experience FounderProfile.education
       FounderProfile.linkedin_connections FounderProfile.endorsements].
  destruct (QualityScorer._evaluate_experience (FounderProfile.experience founder))
    as [experience_score|] eqn:Hexp; [| vm_compute; reflexivity].
  destruct (experience_whole _ _ Hexp) as (k1 & H1 & ->).
  destruct (education_whole (FounderProfile.education founder)) as (k2 & H2 & ->).
  destruct (honors_whole founder) as (k3 & H3 & ->).
  pose proof (network_points_bounds (Some c) (FounderProfile.endorsements founder)) as B.
  pose proof (network_points_bounds (Some c') (FounderProfile.endorsements founder)) as B'.
  pose proof (network_points_monotone c c' (FounderProfile.endorsements founder) Hc) as M.
  destruct (capped_sum_whole k1 k2 k3 _ H1 H2 H3 B) as [-> _].
  destruct (capped_sum_whole k1 k2 k3 _ H1 H2 H3 B') as [-> _].
  apply float_leb_whole; lia.
Qed.

Lemma founder_quality_monotone_witness :
  (QualityScorer._calculate_founder_quality
     (Spec.with_connections Examples.ada (Some 150%Z))
   <=? QualityScorer._calculate_founder_quality
         (Spec.with_connections Examples.ada (Some 1200%Z)))%float
  = true.
Proof.
  apply (founder_quality_monotone_in_connections Examples.ada 150 1200).
  lia.
Defined.

(** X13: the company score is a whole number between 0 and 60: its four
    parts give at most 20, 15, 10 and 15 points, so the cap of 100 in the
    code is never reached. *)
Theorem company_quality_at_most_60 (company : CompanyProfile.t) :
  Spec.whole_up_to 60 (QualityScorer._calculate_company_quality company).
Proof.
  unfold QualityScorer._calculate_company_quality, Spec.whole_up_to. cbn zeta.
  match goal with
  | |- exists k, _ /\ Py.min _ (Py.float_of_int ?points) = _ =>
      assert (Hpoints : 0 <= points <= 60)
  end.
  { repeat match goal with
           | |- context [if ?c then _ else _] => destruct c
           end; lia. }
  eexists. split; [| change 100%float with (Py.float_of_int 100);
                     apply (capped_is_whole 100 60); [vm_compute; reflexivity | lia]].
  lia.
Qed.

(** ** Team completeness *)

(** Every founder adds at most one role, and only one of the five roles the
    code knows. *)
Lemma collect_roles_size (founders : list FounderProfile.t) :
  (size (QualityScorer.collect_roles founders) <= length founders)%nat.
Proof.
  unfold QualityScorer.collect_roles.
  assert (Hgen : forall (roles : gset string),
             (size (fold_left
                      (fun roles founder =>
                         match QualityScorer.role_of_title
                                 (FounderProfile.title founder) with
                         | Some role => roles ∪ {[ role ]}
                         | None => roles
                         end) founders roles)
              <= size roles + length founders)%nat).
  { induction founders as [|founder rest IH]; intros roles; simpl; [lia |].
    etransitivity; [apply IH |].
    destruct (QualityScorer.role_of_title (FounderProfile.title founder)) as [role|];
      [| lia].
    rewrite size_union_alt.
    assert (size ({[ role ]} ∖ roles : gset string) <= 1)%nat.
    { rewrite <- (size_singleton (C := gset string) role).
      apply subseteq_size, subseteq_difference_l. reflexivity. }
    lia. }
  specialize (Hgen ∅). rewrite size_empty in Hgen. lia.
Qed.

(** X14: a founding team scores the full 100 for completeness exactly when
    its titles cover the three key roles CEO, CTO and CPO (which takes at
    least three founders, since each founder fills one role at most). *)
Theorem team_complete_iff_key_roles (founders : list FounderProfile.t) :
  QualityScorer._calculate_team_completeness founders = 100%float
  <-> ({[ "ceo"; "cto"; "cpo" ]} : gset string) ⊆ QualityScorer.collect_roles founders.
Proof.
  unfold QualityScorer._calculate_team_completeness. cbn zeta.
  set (roles := QualityScorer.collect_roles founders).
  set (key_roles := ({[ "ceo"; "cto"; "cpo" ]} : gset string)).
  pose proof (collect_roles_size founders) as Hsize. fold roles in Hsize.
  split.
  - intros H. destruct (bool_decide (key_roles ⊆ roles)) eqn:Hkey;
      [now apply bool_decide_eq_true in Hkey |].
    exfalso.
    repeat match type of H with
           | context [if ?c then _ else _] => destruct c
           end; revert H; vm_compute; intros H; float_discr H.
  - intros Hkey.
    assert (Hthree : (3 <= size roles)%nat).
    { transitivity (size key_roles); [| now apply subseteq_size].
      vm_compute. lia. }
    rewrite (bool_decide_eq_true_2 _ Hkey).
    destruct (Z.of_nat (length founders) >=? 3) eqn:E1;
      [| rewrite Z.geb_leb, Z.leb_gt in E1; lia].
    destruct (Z.of_nat (size roles) >=? 3) eqn:E2;
      [| rewrite Z.geb_leb, Z.leb_gt in E2; lia].
    vm_compute. reflexivity.
Qed.

(** ** The years pattern *)

Lemma span_taken (p : ascii -> bool) (s : string) :
  forallb p (list_ascii_of_string (fst (QualityScorer.span p s))) = true.
Proof.
  induction s as [|c s IH]; simpl; [reflexivity |].
  destruct (p c) eqn:E; [| reflexivity].
  destruct (QualityScorer.span p s) as [taken rest]. simpl in *.
  now rewrite E, IH.
Qed.

Lemma match_years_captures_digits (s digits : string) (n : nat) :
  QualityScorer.match_years s = Some (digits, n) ->
  digits <> "" /\ forallb QualityScorer.is_digit (list_ascii_of_string digits) = true.
Proof.
  unfold QualityScorer.match_years.
  pose proof (span_taken QualityScorer.is_digit s) as Hdigits.
  destruct (QualityScorer.span QualityScorer.is_digit s) as [taken after_digits].
  cbn [fst] in Hdigits.
  destruct taken as [|c taken]; [discriminate |].
  destruct (QualityScorer.span QualityScorer.is_space after_digits) as [spaces after].
  destruct (QualityScorer.unit_length after); [| discriminate].
  intros [= <- _]. split; [discriminate | exact Hdigits].
Qed.

(** X15: every string the years pattern captures is a non-empty run of
    decimal digits, so the conversion [int(y)] of each capture is the
    conversion of a decimal numeral. *)
Theorem captured_years_are_numerals (text y : string) :
  In y (QualityScorer.findall_years text) ->
  y <> "" /\ forallb QualityScorer.is_digit (list_ascii_of_string y) = true.
Proof.
  unfold QualityScorer.findall_years. generalize 0%nat as skip.
  induction text as [|c text IH]; intros skip Hin; [destruct Hin |].
  cbn [QualityScorer.findall_years_from] in Hin.
  destruct skip as [|skip]; [| exact (IH _ Hin)].
  destruct (QualityScorer.match_years (String c text)) as [[digits n]|] eqn:E;
    [| exact (IH _ Hin)].
  destruct Hin as [<- | Hin]; [| exact (IH _ Hin)].
  exact (match_years_captures_digits _ _ _ E).
Qed.

Lemma captured_years_witness :
  "12" <> "" /\ forallb QualityScorer.is_digit (list_ascii_of_string "12") = true.
Proof.
  apply (captured_years_are_numerals "founder at google for 12 years" "12").
  vm_compute. now left.
Defined.

(** ** The conflict dict *)

Lemma triggered_types_known (sequence_ratio : string -> string -> float)
    (startup : StartupProfile.t) (company : PortfolioCompany.t) (t : string) :
  In t (ConflictLoop.triggered_types sequence_ratio startup company) ->
  In t ["name_similarity"; "industry_conflict"; "business_model_conflict"].
Proof.
  unfold ConflictLoop.triggered_types.
  destruct (UnifiedVCSourcingAgent.name_rule _ _ _),
    (UnifiedVCSourcingAgent.industry_rule _ _),
    (UnifiedVCSourcingAgent.description_rule _ _ _); simpl; tauto.
Qed.

Lemma triggered_types_at_most_three (sequence_ratio : string -> string -> float)
    (startup : StartupProfile.t) (company : PortfolioCompany.t) :
  (length (ConflictLoop.triggered_types sequence_ratio startup company) <= 3)%nat.
Proof.
  unfold ConflictLoop.triggered_types.
  destruct (UnifiedVCSourcingAgent.name_rule _ _ _),
    (UnifiedVCSourcingAgent.industry_rule _ _),
    (UnifiedVCSourcingAgent.description_rule _ _ _); simpl; lia.
Qed.

(** The dict the detector returns, field by field. *)
Lemma detector_fields (sequence_ratio : string -> string -> float)
    (startup : StartupProfile.t) (portfolio : list PortfolioCompany.t) :
  let conflicts :=
    UnifiedVCSourcingAgent._detect_portfolio_conflicts sequence_ratio startup portfolio in
  let types := flat_map (ConflictLoop.triggered_types sequence_ratio startup) portfolio in
  Conflicts.conflict_companies conflicts
  = flat_map (ConflictLoop.triggered_companies sequence_ratio startup) portfolio
  /\ Conflicts.conflict_types conflicts = types
  /\ Conflicts.has_conflicts conflicts = negb (length types =? 0)%nat
  /\ Conflicts.severity conflicts
     = (if Z.of_nat (length types) >? 2 then "high"
        else if Z.of_nat (length types) >? 0 then "medium" else "none").
Proof.
  cbn zeta. unfold UnifiedVCSourcingAgent._detect_portfolio_conflicts.
  rewrite conflict_loop_appends.
  cbn [Conflicts.conflict_companies Conflicts.conflict_types Conflicts.severity
       Conflicts.has_conflicts app orb].
  now rewrite triggered_lengths.
Qed.

(** X16: in the dict the detector returns, the two lists have the same
    length (entry i of [conflict_types] belongs to entry i of
    [conflict_companies]), hold at most three entries per portfolio company,
    name only portfolio companies and only the three conflict types, and
    [has_conflicts] is set exactly when the severity is not "none". *)
Theorem conflict_dict_is_consistent (sequence_ratio : string -> string -> float)
    (startup : StartupProfile.t) (portfolio : list PortfolioCompany.t) :
  let conflicts :=
    UnifiedVCSourcingAgent._detect_portfolio_conflicts sequence_ratio startup portfolio in
  length (Conflicts.conflict_companies conflicts)
  = length (Conflicts.conflict_types conflicts)
  /\ (length (Conflicts.conflict_companies conflicts) <= 3 * length portfolio)%nat
  /\ (forall name, In name (Conflicts.conflict_companies conflicts) ->
                   In name (map PortfolioCompany.name portfolio))
  /\ (forall t, In t (Conflicts.conflict_types conflicts) ->
                In t ["name_similarity"; "industry_conflict"; "business_model_conflict"])
  /\ (Conflicts.has_conflicts conflicts = true
      <-> Conflicts.severity conflicts <> "none").
Proof.
  destruct (detector_fields sequence_ratio startup portfolio) as (Hc & Ht & Hh & Hs).
  cbn zeta in *. rewrite Hc, Ht, Hh, Hs. clear Hc Ht Hh Hs. repeat split.
  - apply triggered_lengths.
  - rewrite triggered_lengths.
    induction portfolio as [|company rest IH]; simpl; [lia |].
    rewrite length_app.
    pose proof (triggered_types_at_most_three sequence_ratio startup company). lia.
  - intros name Hin. apply in_flat_map in Hin as (company & Hcompany & Hin).
    unfold ConflictLoop.triggered_companies in Hin.
    apply in_map_iff in Hin as (t & <- & _). now apply in_map.
  - intros t Hin. apply in_flat_map in Hin as (company & _ & Hin).
    exact (triggered_types_known _ _ _ _ Hin).
  - intros Hflag.
    destruct (Nat.eqb_spec (length (flat_map (ConflictLoop.triggered_types sequence_ratio startup)
                                      portfolio)) 0) as [E|E]; [discriminate Hflag |].
    destruct (Z.gtb_spec (Z.of_nat (length (flat_map
                (ConflictLoop.triggered_types sequence_ratio startup) portfolio))) 2);
      [discriminate |].
    destruct (Z.gtb_spec (Z.of_nat (length (flat_map
                (ConflictLoop.triggered_types sequence_ratio startup) portfolio))) 0);
      [discriminate | lia].
  - intros Hseverity.
    destruct (Nat.eqb_spec (length (flat_map (ConflictLoop.triggered_types sequence_ratio startup)
                                      portfolio)) 0) as [E|E]; [| reflexivity].
    contradiction Hseverity. now rewrite E.
Qed.

Lemma lower_nonempty (s : string) : s <> "" -> Py.lower s <> "".
Proof. destruct s; [congruence | discriminate]. Qed.

(** X17: a portfolio company whose industry equals the candidate's (case
    apart, and not empty) is always reported: the dict has [has_conflicts]
    set, lists the company, lists "industry_conflict", and its severity is
    not "none". *)
Theorem shared_industry_is_reported (sequence_ratio : string -> string -> float)
    (startup : StartupProfile.t) (portfolio : list PortfolioCompany.t)
    (company : PortfolioCompany.t) (mine theirs : string) :
  In company portfolio ->
  CompanyProfile.industry (StartupProfile.company startup) = Some mine ->
  PortfolioCompany.industry company = Some theirs ->
  mine <> "" ->
  Py.lower mine = Py.lower theirs ->
  let conflicts :=
    UnifiedVCSourcingAgent._detect_portfolio_conflicts sequence_ratio startup portfolio in
  Conflicts.has_conflicts conflicts = true
  /\ In (PortfolioCompany.name company) (Conflicts.conflict_companies conflicts)
  /\ In "industry_conflict" (Conflicts.conflict_types conflicts)
  /\ Conflicts.severity conflicts <> "none".
Proof.
  intros Hin Hmine Htheirs Hne Hlower.
  destruct (detector_fields sequence_ratio startup portfolio) as (Hc & Ht & Hh & Hs).
  cbn zeta in *. rewrite Hc, Ht, Hh, Hs.
  assert (Hrule : UnifiedVCSourcingAgent.industry_rule startup company = true).
  { unfold UnifiedVCSourcingAgent.industry_rule. rewrite Hmine, Htheirs.
    change (Py.str_of (Some mine)) with mine.
    change (Py.str_of (Some theirs)) with theirs.
    rewrite Hlower, String.eqb_refl.
    assert (theirs <> "").
    { intros ->. apply (lower_nonempty mine Hne). exact Hlower. }
    destruct mine, theirs; try congruence. reflexivity. }
  assert (Htype : In "industry_conflict"
                    (ConflictLoop.triggered_types sequence_ratio startup company)).
  { unfold ConflictLoop.triggered_types. rewrite Hrule.
    apply in_or_app. right. now left. }
  assert (Htypes : In "industry_conflict"
                     (flat_map (ConflictLoop.triggered_types sequence_ratio startup) portfolio)).
  { apply in_flat_map. now exists company. }
  assert (Hsome : length (flat_map (ConflictLoop.triggered_types sequence_ratio startup)
                            portfolio) <> 0%nat).
  { intros E. apply List.length_zero_iff_nil in E. rewrite E in Htypes.
    destruct Htypes. }
  split; [| split; [| split]].
  - destruct (Nat.eqb_spec (length (flat_map (ConflictLoop.triggered_types sequence_ratio startup)
                                      portfolio)) 0) as [E|E];
      [contradiction | reflexivity].
  - apply in_flat_map. exists company. split; [assumption |].
    unfold ConflictLoop.triggered_companies. apply in_map_iff.
    now exists "industry_conflict".
  - exact Htypes.
  - destruct (Z.gtb_spec (Z.of_nat (length (flat_map
                (ConflictLoop.triggered_types sequence_ratio startup) portfolio))) 2);
      [discriminate |].
    destruct (Z.gtb_spec (Z.of_nat (length (flat_map
                (ConflictLoop.triggered_types sequence_ratio startup) portfolio))) 0);
      [discriminate | lia].
Qed.

Lemma shared_industry_witness :
  Conflicts.has_conflicts
    (UnifiedVCSourcingAgent._detect_portfolio_conflicts Examples.equal_ratio
       Examples.payments_startup Examples.fintech_portfolio) = true.
Proof.
  apply (shared_industry_is_reported Examples.equal_ratio Examples.payments_startup
           Examples.fintech_portfolio
           (PortfolioCompany.mk "Coinbase" (Some "fintech")
              (Some "Cryptocurrency exchange"))
           "Fintech" "fintech").
  - right. now left.
  - reflexivity.
  - reflexivity.
  - discriminate.
  - reflexivity.
Defined.

(** ** The portfolio checks and the order of the portfolio *)

Lemma industry_count_Permutation (startup : StartupProfile.t)
    (portfolio portfolio' : list PortfolioCompany.t) :
  Permutation portfolio portfolio' ->
  Spec.industry_count startup portfolio = Spec.industry_count startup portfolio'.
Proof.
  intros Hperm. unfold Spec.industry_count. f_equal.
  apply Permutation_length. now apply filter_Permutation.
Qed.

(** The estimator reads the portfolio only through its emptiness and the
    number of companies of the candidate's industry. *)
Lemma portfolio_fit_by_count (startup : StartupProfile.t)
    (portfolio : list PortfolioCompany.t) :
  portfolio <> [] ->
  UnifiedVCSourcingAgent._calculate_portfolio_fit startup portfolio
  = let count := Spec.industry_count startup portfolio in
    if decide (count = 0)
    then PortfolioFit.mk 75%float ["New industry for portfolio"]
    else if count >? 5 then
      PortfolioFit.mk 30%float
        ["Industry over-represented (" ++ Py.str_of_int count ++ " companies)"]
    else if count >? 2 then
      PortfolioFit.mk 50%float
        ["Industry well-represented (" ++ Py.str_of_int count ++ " companies)"]
    else
      PortfolioFit.mk 65%float
        ["Industry under-represented (" ++ Py.str_of_int count ++ " companies)"].
Proof.
  intros Hne. unfold UnifiedVCSourcingAgent._calculate_portfolio_fit.
  destruct portfolio as [|company rest]; [congruence |].
  cbn zeta. rewrite count_industries_lookup.
  now destruct (decide (Spec.industry_count startup (company :: rest) = 0)).
Qed.

(** X18: the portfolio checks do not depend on the order in which the
    portfolio companies are listed: the portfolio fit (score and reasoning)
    is the same, the conflict dict has the same flag and severity, and its
    two lists hold the same entries. *)
Theorem portfolio_checks_ignore_order (sequence_ratio : string -> string -> float)
    (startup : StartupProfile.t) (portfolio portfolio' : list PortfolioCompany.t) :
  Permutation portfolio portfolio' ->
  let conflicts :=
    UnifiedVCSourcingAgent._detect_portfolio_conflicts sequence_ratio startup portfolio in
  let conflicts' :=
    UnifiedVCSourcingAgent._detect_portfolio_conflicts sequence_ratio startup portfolio' in
  UnifiedVCSourcingAgent._calculate_portfolio_fit startup portfolio
  = UnifiedVCSourcingAgent._calculate_portfolio_fit startup portfolio'
  /\ Conflicts.has_conflicts conflicts = Conflicts.has_conflicts conflicts'
  /\ Conflicts.severity conflicts = Conflicts.severity conflicts'
  /\ Permutation (Conflicts.conflict_companies conflicts)
       (Conflicts.conflict_companies conflicts')
  /\ Permutation (Conflicts.conflict_types conflicts)
       (Conflicts.conflict_types conflicts').
Proof.
  intros Hperm.
  destruct (detector_fields sequence_ratio startup portfolio) as (Hc & Ht & Hh & Hs).
  destruct (detector_fields sequence_ratio startup portfolio') as (Hc' & Ht' & Hh' & Hs').
  cbn zeta in *. rewrite Hc, Ht, Hh, Hs, Hc', Ht', Hh', Hs'.
  assert (Htypes : Permutation
            (flat_map (ConflictLoop.triggered_types sequence_ratio startup) portfolio)
            (flat_map (ConflictLoop.triggered_types sequence_ratio startup) portfolio'))
    by now apply Permutation_flat_map.
  apply Permutation_length in Htypes as Hlength.
  split; [| split; [| split; [| split]]].
  - destruct portfolio as [|company rest].
    { apply Permutation_nil in Hperm. now subst. }
    destruct portfolio' as [|company' rest'].
    { symmetry in Hperm. now apply Permutation_nil in Hperm. }
    rewrite !portfolio_fit_by_count by discriminate. cbn zeta.
    now rewrite (industry_count_Permutation startup _ _ Hperm).
  - now rewrite Hlength.
  - now rewrite Hlength.
  - now apply Permutation_flat_map.
  - exact Htypes.
Qed.

Lemma portfolio_checks_order_witness :
  UnifiedVCSourcingAgent._calculate_portfolio_fit Examples.payments_startup
    Examples.fintech_portfolio
  = UnifiedVCSourcingAgent._calculate_portfolio_fit Examples.payments_startup
      (rev Examples.fintech_portfolio).
Proof.
  apply (portfolio_checks_ignore_order Examples.equal_ratio Examples.payments_startup
           Examples.fintech_portfolio (rev Examples.fintech_portfolio)).
  apply Permutation_rev.
Defined.

(** X19: the [industry_counts] dict maps every industry of the list to the
    number of times it occurs (at least 1), and has no other key. *)
Theorem industry_counts_are_occurrences (industries : list (option string))
    (key : option string) :
  let occurrences := Z.of_nat (length (filter (fun i => i = key) industries)) in
  (UnifiedVCSourcingAgent.count_industries industries !! key = None
   <-> ~ In key industries)
  /\ (In key industries ->
      UnifiedVCSourcingAgent.count_industries industries !! key = Some occurrences
      /\ 1 <= occurrences).
Proof.
  cbn zeta. unfold UnifiedVCSourcingAgent.count_industries.
  rewrite count_loop_lookup. cbn zeta. rewrite lookup_empty. cbn [default].
  assert (Hocc : length (filter (fun i => i = key) industries) = 0%nat
                 <-> ~ In key industries).
  { rewrite List.length_zero_iff_nil. split.
    - intros Hnil Hin. apply list_elem_of_In in Hin.
      assert (Hfiltered : key ∈ filter (fun i => i = key) industries)
        by now apply list_elem_of_filter.
      rewrite Hnil in Hfiltered. now apply not_elem_of_nil in Hfiltered.
    - intros Hnot. destruct (filter (fun i => i = key) industries) as [|i rest] eqn:E;
        [reflexivity |].
      assert (Hi : i ∈ filter (fun i => i = key) industries)
        by (rewrite E; left).
      apply list_elem_of_filter in Hi as [-> Hi].
      apply list_elem_of_In in Hi. contradiction. }
  split; [split |].
  - case_decide as Hzero; [| discriminate]. intros _. apply Hocc. lia.
  - intros Hnot. apply Hocc in Hnot. rewrite Hnot. reflexivity.
  - intros Hin. case_decide as Hzero.
    + exfalso. apply (proj1 Hocc); [lia | assumption].
    + split; [f_equal; lia | lia].
Qed.

(** ** The ranker *)

Lemma find_app {A : Type} (p : A -> bool) (l l' : list A) :
  find p (l ++ l')%list
  = match find p l with
    | Some x => Some x
    | None => find p l'
    end.
Proof.
  induction l as [|x l IH]; simpl; [reflexivity |].
  now destruct (p x).
Qed.

Lemma startup_map_loop_lookup (startups : list StartupProfile.t) :
  forall (startup_map : gmap string StartupProfile.t) (name : string),
    fold_left
      (fun startup_map startup =>
         <[CompanyProfile.name (StartupProfile.company startup) := startup]> startup_map)
      startups startup_map !! name
    = match find (fun startup =>
                    String.eqb (CompanyProfile.name (StartupProfile.company startup)) name)
              (rev startups) with
      | Some startup => Some startup
      | None => startup_map !! name
      end.
Proof.
  induction startups as [|startup rest IH]; intros startup_map name; [reflexivity |].
  cbn [fold_left rev]. rewrite IH, find_app. cbn [find].
  destruct (find _ (rev rest)); [reflexivity |].
  destruct (String.eqb_spec (CompanyProfile.name (StartupProfile.company startup)) name)
    as [<- | Hne].
  - now rewrite lookup_insert_eq.
  - now rewrite lookup_insert_ne.
Qed.

(** X20: looking a name up in [startup_map] gives the last startup of the
    list that has this company name, and nothing when no startup has it. *)
Theorem startup_map_keeps_last_of_a_name (startups : list StartupProfile.t)
    (name : string) :
  UnifiedVCSourcingAgent.make_startup_map startups !! name
  = find (fun startup =>
            String.eqb (CompanyProfile.name (StartupProfile.company startup)) name)
      (rev startups).
Proof.
  unfold UnifiedVCSourcingAgent.make_startup_map.
  rewrite startup_map_loop_lookup, lookup_empty.
  now destruct (find _ (rev startups)).
Qed.

(** One turn of the ranking loop succeeds exactly on a startup whose three
    scores have been filled in; on any other it raises [TypeError]. *)
Lemma analyse_startup_outcome (startup : StartupProfile.t) (metric : FitMetrics.t)
    (vc_profile : VCProfile.t) :
  (StartupProfile.quality_score startup <> None
   /\ StartupProfile.portfolio_fit startup <> None
   /\ StartupProfile.portfolio_conflicts startup <> None
   /\ exists result,
        UnifiedVCSourcingAgent.analyse_startup startup metric vc_profile = Py.Ok result)
  \/ ((StartupProfile.quality_score startup = None
       \/ StartupProfile.portfolio_fit startup = None
       \/ StartupProfile.portfolio_conflicts startup = None)
      /\ UnifiedVCSourcingAgent.analyse_startup startup metric vc_profile
         = Py.Raise Py.TypeError).
Proof.
  unfold UnifiedVCSourcingAgent.analyse_startup,
    UnifiedVCSourcingAgent._analyze_startup_pros_cons,
    UnifiedVCSourcingAgent.required, mbind, result_bind, Py.bind.
  destruct (StartupProfile.quality_score startup) as [quality|].
  2: { right. split; [now left |].
       repeat match goal with
              | |- context [if ?b then _ else _] => destruct b
              end; reflexivity. }
  destruct (StartupProfile.portfolio_fit startup) as [fit|].
  2: { right. split; [right; now left |].
       repeat match goal with
              | |- context [if ?b then _ else _] => destruct b
              end; reflexivity. }
  destruct (StartupProfile.portfolio_conflicts startup) as [conflicts|].
  2: { right. split; [right; now right |].
       repeat match goal with
              | |- context [if ?b then _ else _] => destruct b
              end; reflexivity. }
  left. split; [discriminate | split; [discriminate | split; [discriminate |]]].
  repeat match goal with
         | |- context [if ?b then _ else _] => destruct b
         end; eauto.
Qed.

(** The ranking loop on startups that all succeed: one result per metric that
    names a startup of the map, in the order of the metrics. *)
Lemma analysis_loop_length (startup_map : gmap string StartupProfile.t)
    (vc_profile : VCProfile.t) (fit_metrics : list FitMetrics.t) :
  forall detailed_results results,
    UnifiedVCSourcingAgent.analysis_loop startup_map vc_profile fit_metrics
      detailed_results = Py.Ok results ->
    length results
    = (length detailed_results
       + length (filter (fun metric => is_Some (startup_map !! FitMetrics.startup_id metric))
                   fit_metrics))%nat.
Proof.
  induction fit_metrics as [|metric rest IH]; intros detailed results H.
  - injection H as <-. simpl. lia.
  - cbn [UnifiedVCSourcingAgent.analysis_loop] in H.
    destruct (startup_map !! FitMetrics.startup_id metric) as [startup|] eqn:Hlookup.
    + rewrite filter_cons_True by (rewrite Hlookup; eauto).
      unfold mbind, result_bind, Py.bind in H.
      destruct (UnifiedVCSourcingAgent.analyse_startup startup metric vc_profile)
        as [r|]; [| discriminate].
      rewrite (IH _ _ H), length_app. simpl. lia.
    + rewrite filter_cons_False by (rewrite Hlookup; apply is_Some_None).
      exact (IH _ _ H).
Qed.

Lemma analysis_loop_raises (startup_map : gmap string StartupProfile.t)
    (vc_profile : VCProfile.t) (fit_metrics : list FitMetrics.t) :
  forall detailed_results,
    (exists metric startup,
        In metric fit_metrics
        /\ startup_map !! FitMetrics.startup_id metric = Some startup
        /\ (StartupProfile.quality_score startup = None
            \/ StartupProfile.portfolio_fit startup = None
            \/ StartupProfile.portfolio_conflicts startup = None)) ->
    UnifiedVCSourcingAgent.analysis_loop startup_map vc_profile fit_metrics
      detailed_results = Py.Raise Py.TypeError.
Proof.
  induction fit_metrics as [|metric rest IH];
    intros detailed (m & s & Hin & Hlookup & Hmissing); [destruct Hin |].
  cbn [UnifiedVCSourcingAgent.analysis_loop].
  destruct (startup_map !! FitMetrics.startup_id metric) as [startup|] eqn:Hmetric.
  - unfold mbind, result_bind, Py.bind.
    destruct (analyse_startup_outcome startup metric vc_profile)
      as [(Hq & Hf & Hc & result & ->) | [_ ->]]; [| reflexivity].
    destruct Hin as [-> | Hin].
    + rewrite Hmetric in Hlookup. injection Hlookup as <-.
      destruct Hmissing as [E | [E | E]]; congruence.
    + apply IH. eauto 10.
  - destruct Hin as [-> | Hin]; [congruence |].
    apply IH. eauto 10.
Qed.

(** X21: the ranker raises [TypeError] exactly when some fit metric names a
    startup whose quality score, portfolio fit or conflict dict is still
    [None]; otherwise it returns one result for every fit metric whose
    [startup_id] is the name of a startup, and no other. *)
Theorem ranker_needs_scored_startups (fit_metrics : list FitMetrics.t)
    (startups : list StartupProfile.t) (vc_profile : VCProfile.t) :
  let startup_map := UnifiedVCSourcingAgent.make_startup_map startups in
  let unscored :=
    exists metric startup,
      In metric fit_metrics
      /\ startup_map !! FitMetrics.startup_id metric = Some startup
      /\ (StartupProfile.quality_score startup = None
          \/ StartupProfile.portfolio_fit startup = None
          \/ StartupProfile.portfolio_conflicts startup = None) in
  (unscored
   /\ UnifiedVCSourcingAgent._create_startup_analysis fit_metrics startups vc_profile
      = Py.Raise Py.TypeError)
  \/ (~ unscored
      /\ exists results,
           UnifiedVCSourcingAgent._create_startup_analysis fit_metrics startups vc_profile
           = Py.Ok results
           /\ length results
              = length (filter (fun metric =>
                                  is_Some (startup_map !! FitMetrics.startup_id metric))
                          fit_metrics)).
Proof.
  cbn zeta. unfold UnifiedVCSourcingAgent._create_startup_analysis.
  generalize (UnifiedVCSourcingAgent.make_startup_map startups) as startup_map.
  intros startup_map.
  destruct (UnifiedVCSourcingAgent.analysis_loop startup_map vc_profile fit_metrics [])
    as [detailed | e] eqn:Hloop.
  - right. split.
    + intros Hunscored.
      rewrite (analysis_loop_raises startup_map vc_profile fit_metrics [] Hunscored)
        in Hloop.
      discriminate.
    + unfold mbind, result_bind, Py.bind.
      exists (Py.sort_desc UnifiedVCSourcingAgent.sort_key detailed).
      split; [reflexivity |].
      rewrite (Permutation_length (sort_desc_Permutation _ detailed)).
      now rewrite (analysis_loop_length _ _ _ _ _ Hloop).
  - left.
    assert (Hfind : forall detailed,
               UnifiedVCSourcingAgent.analysis_loop startup_map vc_profile fit_metrics
                 detailed = Py.Raise e ->
               e = Py.TypeError
               /\ exists metric startup,
                    In metric fit_metrics
                    /\ startup_map !! FitMetrics.startup_id metric = Some startup
                    /\ (StartupProfile.quality_score startup = None
                        \/ StartupProfile.portfolio_fit startup = None
                        \/ StartupProfile.portfolio_conflicts startup = None)).
    { clear Hloop. induction fit_metrics as [|metric rest IH]; intros detailed H;
        [discriminate |].
      cbn [UnifiedVCSourcingAgent.analysis_loop] in H.
      destruct (startup_map !! FitMetrics.startup_id metric) as [startup|] eqn:Hmetric.
      - unfold mbind, result_bind, Py.bind in H.
        destruct (analyse_startup_outcome startup metric vc_profile)
          as [(Hq & Hf & Hc & result & Hok) | [Hmissing Hraise]].
        + rewrite Hok in H.
          destruct (IH _ H) as (He & m & s & Hin & Hs & Hmissing).
          split; [exact He |]. exists m, s. split; [now right | now split].
        + rewrite Hraise in H. injection H as <-.
          split; [reflexivity |]. exists metric, startup.
          split; [now left | now split].
      - destruct (IH _ H) as (He & m & s & Hin & Hs & Hmissing).
        split; [exact He |]. exists m, s. split; [now right | now split]. }
    destruct (Hfind [] Hloop) as [-> Hunscored].
    split; [exact Hunscored | reflexivity].
Qed.

(** Two floats that are not NaN are comparable. *)
Lemma SFcompare_defined (x y : spec_float) :
  SFeqb x x = true -> SFeqb y y = true -> SFcompare x y <> None.
Proof.
  unfold SFeqb. destruct x, y; simpl; intros Hx Hy; discriminate.
Qed.

Lemma float_not_lt_ge (x y : float) :
  (x =? x)%float = true -> (y =? y)%float = true ->
  (x <? y)%float = false -> (y <=? x)%float = true.
Proof.
  rewrite !FloatAxioms.eqb_spec, ltb_spec, leb_spec. intros Hx Hy.
  pose proof (SFcompare_defined _ _ Hx Hy) as Hdefined.
  unfold SFltb, SFleb. rewrite (SFcompare_antisym (Prim2SF x) (Prim2SF y)).
  destruct (SFcompare (Prim2SF x) (Prim2SF y)) as [[]|]; simpl; congruence.
Qed.

Lemma float_lt_le (x y : float) :
  (x <? y)%float = true -> (x <=? y)%float = true.
Proof.
  rewrite ltb_spec, leb_spec. unfold SFltb, SFleb.
  destruct (SFcompare (Prim2SF x) (Prim2SF y)) as [[]|]; congruence.
Qed.

Section SortedDescending.
Context {A : Type} (key : A -> float).

Lemma insert_desc_sorted (x : A) (l : list A) :
  (key x =? key x)%float = true ->
  List.Forall (fun a => (key a =? key a)%float = true) l ->
  Sorted (fun a b => (key b <=? key a)%float = true) l ->
  Sorted (fun a b => (key b <=? key a)%float = true) (Py.insert_desc key x l).
Proof.
  intros Hx Hl Hsorted. induction l as [|y l IH]; simpl.
  - repeat constructor.
  - apply List.Forall_cons_iff in Hl as [Hy Hl].
    apply Sorted_inv in Hsorted as [Hsorted Hhead].
    destruct (key x <? key y)%float eqn:Hlt.
    + constructor; [now apply IH |].
      destruct l as [|z l]; simpl.
      * constructor. now apply float_lt_le.
      * destruct (key x <? key z)%float.
        -- constructor. now apply HdRel_inv in Hhead.
        -- constructor. now apply float_lt_le.
    + constructor; [now constructor |].
      constructor. now apply float_not_lt_ge.
Qed.

Lemma sort_desc_sorted (l : list A) :
  List.Forall (fun a => (key a =? key a)%float = true) l ->
  Sorted (fun a b => (key b <=? key a)%float = true) (Py.sort_desc key l).
Proof.
  induction l as [|x l IH]; intros Hl; simpl; [constructor |].
  apply List.Forall_cons_iff in Hl as [Hx Hl].
  apply insert_desc_sorted; [assumption | | now apply IH].
  apply List.Forall_forall. intros y Hy.
  apply sort_desc_In in Hy. revert y Hy. now apply List.Forall_forall.
Qed.

End SortedDescending.

(** X22: the ranker returns its results in descending order of the combined
    score (no result has a combined score that is not a number): each result
    scores at least as much as the one that follows it. *)
Theorem ranked_results_are_descending (fit_metrics : list FitMetrics.t)
    (startups : list StartupProfile.t) (vc_profile : VCProfile.t)
    (results : list AnalysisResult.t) :
  UnifiedVCSourcingAgent._create_startup_analysis fit_metrics startups vc_profile
  = Py.Ok results ->
  (forall result, In result results ->
     (UnifiedVCSourcingAgent.sort_key result
      =? UnifiedVCSourcingAgent.sort_key result)%float = true) ->
  Sorted
    (fun first second =>
       (UnifiedVCSourcingAgent.sort_key second
        <=? UnifiedVCSourcingAgent.sort_key first)%float = true)
    results.
Proof.
  unfold UnifiedVCSourcingAgent._create_startup_analysis, mbind, result_bind, Py.bind.
  destruct (UnifiedVCSourcingAgent.analysis_loop _ vc_profile fit_metrics [])
    as [detailed|]; [| discriminate].
  intros [= <-] Hcomparable.
  apply sort_desc_sorted. apply List.Forall_forall. intros result Hin.
  apply Hcomparable. now apply sort_desc_In.
Qed.

Lemma ranked_results_descending_witness :
  exists first second,
    Examples.two_ranked_results = Py.Ok [first; second]
    /\ AnalysisResult.company_name first = "ShopCo"
    /\ AnalysisResult.company_name second = "PayCo"
    /\ Sorted
         (fun first second =>
            (UnifiedVCSourcingAgent.sort_key second
             <=? UnifiedVCSourcingAgent.sort_key first)%float = true)
         [first; second].
Proof.
  eexists. eexists. split; [vm_compute; reflexivity |].
  split; [reflexivity |]. split; [reflexivity |].
  apply (ranked_results_are_descending
           [Examples.scored_metrics; Examples.retail_metrics]
           [Examples.scored_startup; Examples.scored_retail_startup]
           Examples.social_vc).
  - vm_compute. reflexivity.
  - intros result [<- | [<- | []]]; vm_compute; reflexivity.
Defined.

(** X23: for a startup whose conflict dict is the detector's, the
    recommendation follows the number of conflict entries: more than two
    give "High Conflict - Avoid", one or two give "Moderate Conflict - Review
    carefully", and none leaves the recommendation to the combined score
    (from 80, from 65, from 50, below). *)
Theorem recommendation_follows_conflict_count
    (sequence_ratio : string -> string -> float)
    (candidate : StartupProfile.t) (portfolio : list PortfolioCompany.t)
    (startup : StartupProfile.t) (metric : FitMetrics.t) (vc_profile : VCProfile.t)
    (result : AnalysisResult.t) :
  StartupProfile.portfolio_conflicts startup
  = Some (UnifiedVCSourcingAgent._detect_portfolio_conflicts
            sequence_ratio candidate portfolio) ->
  UnifiedVCSourcingAgent.analyse_startup startup metric vc_profile = Py.Ok result ->
  let entries :=
    Z.of_nat (length (Conflicts.conflict_types
                        (UnifiedVCSourcingAgent._detect_portfolio_conflicts
                           sequence_ratio candidate portfolio))) in
  let combined := ResultFitMetrics.overall_score (AnalysisResult.fit_metrics result) in
  AnalysisResult.recommendation result
  = if entries >? 2 then "High Conflict - Avoid"
    else if entries >? 0 then "Moderate Conflict - Review carefully"
    else if (80 <=? combined)%float then "Strong Match - Highly recommend"
    else if (65 <=? combined)%float then "Good Match - Worth considering"
    else if (50 <=? combined)%float then "Moderate Match - Review further"
    else "Weak Match - Low priority".
Proof.
  intros Hconflicts Hresult. cbn zeta.
  unfold UnifiedVCSourcingAgent.analyse_startup, mbind, result_bind, Py.bind in Hresult.
  destruct (UnifiedVCSourcingAgent._analyze_startup_pros_cons startup metric vc_profile)
    as [pros_cons|]; [| discriminate].
  injection Hresult as <-.
  cbn [AnalysisResult.recommendation AnalysisResult.fit_metrics
       ResultFitMetrics.overall_score].
  unfold UnifiedVCSourcingAgent.override_recommendation,
    UnifiedVCSourcingAgent._get_startup_recommendation.
  rewrite Hconflicts.
  destruct (detector_fields sequence_ratio candidate portfolio) as (_ & Ht & Hh & Hs).
  cbn zeta in *. rewrite Hh, Hs, Ht.
  destruct (Nat.eqb_spec (length (flat_map (ConflictLoop.triggered_types sequence_ratio candidate)
                                    portfolio)) 0) as [E|E].
  - rewrite E. reflexivity.
  - cbn [negb].
    destruct (Z.gtb_spec (Z.of_nat (length (flat_map
                (ConflictLoop.triggered_types sequence_ratio candidate) portfolio))) 2);
      [reflexivity |].
    destruct (Z.gtb_spec (Z.of_nat (length (flat_map
                (ConflictLoop.triggered_types sequence_ratio candidate) portfolio))) 0);
      [reflexivity | lia].
Qed.

Lemma recommendation_witness :
  exists result,
    UnifiedVCSourcingAgent.analyse_startup Examples.scored_retail_startup
      Examples.retail_metrics Examples.social_vc = Py.Ok result
    /\ AnalysisResult.recommendation result = "Good Match - Worth considering".
Proof.
  eexists. split; [vm_compute; reflexivity |].
  rewrite (recommendation_follows_conflict_count Examples.equal_ratio
             Examples.retail_startup Examples.fintech_portfolio
             Examples.scored_retail_startup Examples.retail_metrics Examples.social_vc).
  - vm_compute. reflexivity.
  - reflexivity.
  - vm_compute. reflexivity.
Defined.

(** ** De-duplication *)

(** What the loop of [_remove_duplicates] adds to [unique_startups], from
    any state of [seen]. *)
Lemma remove_duplicates_loop (startups : list StartupProfile.t) :
  forall (seen : gset string) (unique_startups : list StartupProfile.t),
  exists added,
    snd (fold_left SourcingPipeline.remove_duplicates_step startups
           (seen, unique_startups))
    = (unique_startups ++ added)%list
    /\ sublist added startups
    /\ NoDup (map SourcingPipeline.company_key added)
    /\ (forall startup, In startup added -> SourcingPipeline.company_key startup ∉ seen)
    /\ (forall startup, In startup startups ->
          SourcingPipeline.company_key startup ∈ seen
          \/ In (SourcingPipeline.company_key startup)
               (map SourcingPipeline.company_key added))
    /\ (forall before startup after,
          startups = (before ++ startup :: after)%list ->
          SourcingPipeline.company_key startup ∉ seen ->
          ~ In (SourcingPipeline.company_key startup)
              (map SourcingPipeline.company_key before) ->
          In startup added).
Proof.
  induction startups as [|first rest IH]; intros seen unique.
  - exists []. simpl. rewrite app_nil_r.
    split; [reflexivity |]. split; [constructor |]. split; [constructor |].
    split; [intros ? [] |]. split; [intros ? [] |].
    intros [|? ?] ? ? E; discriminate E.
  - cbn [fold_left SourcingPipeline.remove_duplicates_step].
    destruct (decide (SourcingPipeline.company_key first ∈ seen)) as [Hseen | Hnew].
    + destruct (IH seen unique) as (added & Hsnd & Hsub & Hnodup & Hfresh & Hkeys & Hfirst).
      exists added. split; [exact Hsnd |].
      split; [now apply sublist_cons |]. split; [exact Hnodup |].
      split; [exact Hfresh |]. split.
      * intros startup [<- | Hin]; [now left | now apply Hkeys].
      * intros [|b before] startup after E Hfresh' Hbefore;
          injection E as E1 E2; subst.
        -- contradiction.
        -- apply (Hfirst before startup after eq_refl Hfresh').
           intros Hin. apply Hbefore. now right.
    + destruct (IH ({[ SourcingPipeline.company_key first ]} ∪ seen)
                  (unique ++ [first])%list)
        as (added & Hsnd & Hsub & Hnodup & Hfresh & Hkeys & Hfirst).
      exists (first :: added). split; [now rewrite Hsnd, <- app_assoc |].
      split; [now apply sublist_skip |]. split.
      { cbn [map]. apply NoDup_cons. split; [| exact Hnodup].
        intros Hin. apply list_elem_of_In, in_map_iff in Hin as (startup & Hkey & Hin).
        apply (Hfresh startup Hin). rewrite Hkey. set_solver. }
      split.
      { intros startup [<- | Hin]; [exact Hnew |].
        intros Hseen. apply (Hfresh startup Hin). set_solver. }
      split.
      * intros startup [<- | Hin]; [right; now left |].
        destruct (Hkeys startup Hin) as [Hseen | Hadded]; [| right; now right].
        apply elem_of_union in Hseen as [Hsame | Hseen]; [| now left].
        apply elem_of_singleton in Hsame. right. left. now symmetry.
      * intros [|b before] startup after E Hfresh' Hbefore;
          injection E as E1 E2; subst.
        -- now left.
        -- right. apply (Hfirst before startup after eq_refl).
           ++ intros Hseen. apply elem_of_union in Hseen as [Hsame | Hseen];
                [| contradiction].
              apply elem_of_singleton in Hsame. apply Hbefore. left. now symmetry.
           ++ intros Hin. apply Hbefore. now right.
Qed.

(** The loop keeps a list whose names are all new and different. *)
Lemma remove_duplicates_loop_fixed (startups : list StartupProfile.t) :
  forall (seen : gset string) (unique_startups : list StartupProfile.t),
    NoDup (map SourcingPipeline.company_key startups) ->
    (forall startup, In startup startups ->
       SourcingPipeline.company_key startup ∉ seen) ->
    snd (fold_left SourcingPipeline.remove_duplicates_step startups
           (seen, unique_startups))
    = (unique_startups ++ startups)%list.
Proof.
  induction startups as [|first rest IH]; intros seen unique Hnodup Hfresh.
  - simpl. now rewrite app_nil_r.
  - cbn [fold_left SourcingPipeline.remove_duplicates_step].
    cbn [map] in Hnodup. apply NoDup_cons in Hnodup as [Hfirst Hnodup].
    destruct (decide (SourcingPipeline.company_key first ∈ seen)) as [Hseen | Hnew].
    { exfalso. apply (Hfresh first); [now left | exact Hseen]. }
    rewrite IH, <- app_assoc; [reflexivity | exact Hnodup |].
    intros startup Hin Hseen.
    apply elem_of_union in Hseen as [Hsame | Hseen].
    + apply elem_of_singleton in Hsame. apply Hfirst.
      rewrite <- Hsame. apply list_elem_of_In. now apply in_map.
    + apply (Hfresh startup); [now right | exact Hseen].
Qed.

(** X24: [_remove_duplicates] returns the startups in their input order with
    some left out; no two of the kept ones have the same lower-cased, stripped
    name; every name of the input is still the name of a kept one; and the
    first startup of each name is the one kept. *)
Theorem remove_duplicates_keeps_first_of_each_name (startups : list StartupProfile.t) :
  let unique_startups := SourcingPipeline._remove_duplicates startups in
  sublist unique_startups startups
  /\ NoDup (map SourcingPipeline.company_key unique_startups)
  /\ (forall startup, In startup startups ->
        In (SourcingPipeline.company_key startup)
          (map SourcingPipeline.company_key unique_startups))
  /\ (forall before startup after,
        startups = (before ++ startup :: after)%list ->
        ~ In (SourcingPipeline.company_key startup)
            (map SourcingPipeline.company_key before) ->
        In startup unique_startups).
Proof.
  cbn zeta. unfold SourcingPipeline._remove_duplicates.
  destruct (remove_duplicates_loop startups ∅ [])
    as (added & -> & Hsub & Hnodup & _ & Hkeys & Hfirst).
  cbn [app]. split; [exact Hsub |]. split; [exact Hnodup |]. split.
  - intros startup Hin. destruct (Hkeys startup Hin) as [Hseen | Hadded];
      [| exact Hadded].
    now apply not_elem_of_empty in Hseen.
  - intros before startup after E Hbefore.
    apply (Hfirst before startup after E); [apply not_elem_of_empty | exact Hbefore].
Qed.

(** X25: [_remove_duplicates] leaves a list without duplicate names as it
    is, and so removing duplicates twice is the same as removing them once. *)
Theorem remove_duplicates_is_idempotent (startups : list StartupProfile.t) :
  (NoDup (map SourcingPipeline.company_key startups) ->
   SourcingPipeline._remove_duplicates startups = startups)
  /\ SourcingPipeline._remove_duplicates (SourcingPipeline._remove_duplicates startups)
     = SourcingPipeline._remove_duplicates startups.
Proof.
  assert (Hfixed : forall l, NoDup (map SourcingPipeline.company_key l) ->
                             SourcingPipeline._remove_duplicates l = l).
  { intros l Hnodup. unfold SourcingPipeline._remove_duplicates.
    rewrite remove_duplicates_loop_fixed; [reflexivity | exact Hnodup |].
    intros startup _. apply not_elem_of_empty. }
  split; [apply Hfixed |].
  apply Hfixed. unfold SourcingPipeline._remove_duplicates.
  destruct (remove_duplicates_loop startups ∅ []) as (added & -> & _ & Hnodup & _).
  exact Hnodup.
Qed.

(** ** The scoring steps of the pipeline *)

Lemma set_website_keeps (websites : gmap string (option string))
    (startup : StartupProfile.t) :
  let enhanced := SourcingPipeline.set_website websites startup in
  CompanyProfile.name (StartupProfile.company enhanced)
  = CompanyProfile.name (StartupProfile.company startup)
  /\ StartupProfile.founders enhanced = StartupProfile.founders startup
  /\ StartupProfile.quality_score enhanced = StartupProfile.quality_score startup
  /\ StartupProfile.portfolio_conflicts enhanced
     = StartupProfile.portfolio_conflicts startup
  /\ StartupProfile.portfolio_fit enhanced = StartupProfile.portfolio_fit startup.
Proof.
  cbn zeta. unfold SourcingPipeline.set_website.
  destruct (websites !! CompanyProfile.name (StartupProfile.company startup))
    as [url|]; [| tauto].
  destruct (Py.truthy_str url); cbn; tauto.
Qed.

Section ScoringSteps.
Variable embedding_model : EmbeddingModel.
Variable sequence_ratio : string -> string -> float.
Variable portfolio_companies : list PortfolioCompany.t.
Variable find_websites : bool.
Variable found : Py.Result (gmap string (option string)).

(** The startups handed to the ranker by steps 6 to 8. *)
Local Abbreviation scored unique_startups :=
  (if find_websites
   then SourcingPipeline._enhance_startups_with_websites found
          (map (SourcingPipeline.set_portfolio_checks sequence_ratio portfolio_companies)
             (map SourcingPipeline.set_quality_score unique_startups))
   else map (SourcingPipeline.set_portfolio_checks sequence_ratio portfolio_companies)
          (map SourcingPipeline.set_quality_score unique_startups)).

Lemma scored_startup_origin (unique_startups : list StartupProfile.t)
    (scored_startup : StartupProfile.t) :
  In scored_startup (scored unique_startups) ->
  exists startup,
    In startup unique_startups
    /\ CompanyProfile.name (StartupProfile.company scored_startup)
       = CompanyProfile.name (StartupProfile.company startup)
    /\ StartupProfile.quality_score scored_startup
       = Some (QualityScorer.calculate_quality_score startup)
    /\ StartupProfile.portfolio_conflicts scored_startup
       = Some (UnifiedVCSourcingAgent._detect_portfolio_conflicts sequence_ratio
                 startup portfolio_companies)
    /\ StartupProfile.portfolio_fit scored_startup
       = Some (UnifiedVCSourcingAgent._calculate_portfolio_fit startup
                 portfolio_companies).
Proof.
  assert (Hchecked : forall checked,
             In checked
               (map (SourcingPipeline.set_portfolio_checks sequence_ratio
                       portfolio_companies)
                  (map SourcingPipeline.set_quality_score unique_startups)) ->
             exists startup,
               In startup unique_startups
               /\ checked
                  = SourcingPipeline.set_portfolio_checks sequence_ratio
                      portfolio_companies
                      (SourcingPipeline.set_quality_score startup)).
  { intros checked Hin. apply in_map_iff in Hin as (with_quality & <- & Hin).
    apply in_map_iff in Hin as (startup & <- & Hin). now exists startup. }
  assert (Hfields : forall startup,
             let checked :=
               SourcingPipeline.set_portfolio_checks sequence_ratio portfolio_companies
                 (SourcingPipeline.set_quality_score startup) in
             CompanyProfile.name (StartupProfile.company checked)
             = CompanyProfile.name (StartupProfile.company startup)
             /\ StartupProfile.quality_score checked
                = Some (QualityScorer.calculate_quality_score startup)
             /\ StartupProfile.portfolio_conflicts checked
                = Some (UnifiedVCSourcingAgent._detect_portfolio_conflicts
                          sequence_ratio startup portfolio_companies)
             /\ StartupProfile.portfolio_fit checked
                = Some (UnifiedVCSourcingAgent._calculate_portfolio_fit startup
                          portfolio_companies)).
  { intros startup. cbn zeta. repeat split; reflexivity. }
  intros Hin.
  assert (Hcase : In scored_startup
                    (map (SourcingPipeline.set_portfolio_checks sequence_ratio
                            portfolio_companies)
                       (map SourcingPipeline.set_quality_score unique_startups))
                  \/ exists websites checked,
                       In checked
                         (map (SourcingPipeline.set_portfolio_checks sequence_ratio
                                 portfolio_companies)
                            (map SourcingPipeline.set_quality_score unique_startups))
                       /\ scored_startup = SourcingPipeline.set_website websites checked).
  { destruct find_websites; [| now left].
    unfold SourcingPipeline._enhance_startups_with_websites in Hin.
    destruct found as [websites|]; [| now left].
    apply in_map_iff in Hin as (checked & <- & Hin). right. eauto. }
  destruct Hcase as [Hplain | (websites & checked & Hchecked' & ->)].
  - destruct (Hchecked _ Hplain) as (startup & Hstartup & ->).
    exists startup. split; [exact Hstartup | apply Hfields].
  - destruct (Hchecked _ Hchecked') as (startup & Hstartup & ->).
    exists startup. split; [exact Hstartup |].
    destruct (set_website_keeps websites
                (SourcingPipeline.set_portfolio_checks sequence_ratio portfolio_companies
                   (SourcingPipeline.set_quality_score startup)))
      as (Hname & _ & Hq & Hc & Hf).
    cbn zeta in *. rewrite Hname, Hq, Hc, Hf. apply Hfields.
Qed.

Lemma scored_startup_names (unique_startups : list StartupProfile.t)
    (startup : StartupProfile.t) :
  In startup unique_startups ->
  exists scored_startup,
    In scored_startup (scored unique_startups)
    /\ CompanyProfile.name (StartupProfile.company scored_startup)
       = CompanyProfile.name (StartupProfile.company startup).
Proof.
  intros Hin.
  set (checked := SourcingPipeline.set_portfolio_checks sequence_ratio
                    portfolio_companies (SourcingPipeline.set_quality_score startup)).
  assert (Hchecked : In checked
                       (map (SourcingPipeline.set_portfolio_checks sequence_ratio
                               portfolio_companies)
                          (map SourcingPipeline.set_quality_score unique_startups)))
    by (apply in_map, in_map; exact Hin).
  destruct find_websites; [| now exists checked].
  unfold SourcingPipeline._enhance_startups_with_websites.
  destruct found as [websites|]; [| now exists checked].
  exists (SourcingPipeline.set_website websites checked).
  split; [now apply in_map |].
  now destruct (set_website_keeps websites checked) as [-> _].
Qed.

End ScoringSteps.

Lemma filter_all_length {A : Type} (P : A -> Prop) `{forall x, Decision (P x)}
    (l : list A) :
  (forall x, In x l -> P x) -> length (filter P l) = length l.
Proof.
  induction l as [|x l IH]; intros Hall; [reflexivity |].
  rewrite filter_cons_True by (apply Hall; now left).
  cbn [length]. f_equal. apply IH. intros y Hy. apply Hall. now right.
Qed.

Lemma startup_map_has_every_name (startups : list StartupProfile.t)
    (startup : StartupProfile.t) :
  In startup startups ->
  is_Some (UnifiedVCSourcingAgent.make_startup_map startups
             !! CompanyProfile.name (StartupProfile.company startup)).
Proof.
  intros Hin. unfold UnifiedVCSourcingAgent.make_startup_map.
  rewrite startup_map_loop_lookup, lookup_empty.
  destruct (find _ (rev startups)) as [s|] eqn:Hfind; [eauto |].
  exfalso. apply in_rev in Hin.
  pose proof (find_none _ _ Hfind _ Hin) as Hnone. cbn beta in Hnone.
  now rewrite String.eqb_refl in Hnone.
Qed.

Lemma single_fit_metrics_id (embedding_model : EmbeddingModel)
    (startup : StartupProfile.t) (vc_profile : VCProfile.t)
    (vc_embedding : list float) (metric : FitMetrics.t) :
  OptimizedFitMetricCalculator._calculate_single_fit_metrics embedding_model startup
    vc_profile vc_embedding = Py.Ok metric ->
  FitMetrics.startup_id metric = CompanyProfile.name (StartupProfile.company startup).
Proof.
  unfold OptimizedFitMetricCalculator._calculate_single_fit_metrics, FitMetrics.create.
  cbn zeta.
  match goal with
  | |- (if ?b then _ else _) = _ -> _ => destruct b
  end; [| discriminate].
  now intros [= <-].
Qed.

(** X26: steps 5 to 9 of [source_startups_for_vc] raise nothing: they return
    one ranked result for every fit metric the batch produced (so at most one
    per startup), and every result carries the name of a startup together with
    that startup's quality score, conflict dict and portfolio fit, whether or
    not the website search ran or failed. *)
Theorem scoring_steps_rank_every_metric
    (embedding_model : EmbeddingModel) (sequence_ratio : string -> string -> float)
    (vc_embeddings : gmap string (list float))
    (portfolio_companies : list PortfolioCompany.t)
    (find_websites : bool) (found : Py.Result (gmap string (option string)))
    (unique_startups : list StartupProfile.t) (vc_profile : VCProfile.t) :
  let fit_metrics :=
    fst (OptimizedFitMetricCalculator.calculate_fit_metrics_batch
           embedding_model vc_embeddings unique_startups vc_profile) in
  exists results,
    SourcingPipeline.score_and_rank embedding_model sequence_ratio vc_embeddings
      portfolio_companies find_websites found unique_startups vc_profile
    = Py.Ok results
    /\ length results = length fit_metrics
    /\ (length results <= length unique_startups)%nat
    /\ forall result, In result results ->
         exists startup,
           In startup unique_startups
           /\ AnalysisResult.company_name result
              = CompanyProfile.name (StartupProfile.company startup)
           /\ ResultFitMetrics.quality_score (AnalysisResult.fit_metrics result)
              = Some (QualityScorer.calculate_quality_score startup)
           /\ AnalysisResult.portfolio_conflict_details result
              = Some (UnifiedVCSourcingAgent._detect_portfolio_conflicts sequence_ratio
                        startup portfolio_companies)
           /\ AnalysisResult.portfolio_fit_details result
              = Some (UnifiedVCSourcingAgent._calculate_portfolio_fit startup
                        portfolio_companies).
Proof.
  cbn zeta. unfold SourcingPipeline.score_and_rank.
  unfold OptimizedFitMetricCalculator.calculate_fit_metrics_batch.
  destruct (OptimizedFitMetricCalculator._get_vc_embedding embedding_model
              vc_embeddings vc_profile) as [vc_embedding vc_embeddings'].
  cbn [fst]. rewrite batch_loop_appends. cbn [app].
  set (fit_metrics := Spec.successfully_scored embedding_model vc_profile vc_embedding
                        unique_startups).
  set (enhanced :=
         if find_websites
         then SourcingPipeline._enhance_startups_with_websites found
                (map (SourcingPipeline.set_portfolio_checks sequence_ratio
                        portfolio_companies)
                   (map SourcingPipeline.set_quality_score unique_startups))
         else map (SourcingPipeline.set_portfolio_checks sequence_ratio
                     portfolio_companies)
                (map SourcingPipeline.set_quality_score unique_startups)).
  assert (Horigin := scored_startup_origin sequence_ratio portfolio_companies
                       find_websites found unique_startups).
  assert (Hnames := scored_startup_names sequence_ratio portfolio_companies
                      find_websites found unique_startups).
  cbv zeta in Horigin, Hnames. fold enhanced in Horigin, Hnames.
  destruct (create_startup_analysis_returns fit_metrics enhanced vc_profile)
    as [results Hresults].
  { intros startup Hin.
    destruct (Horigin startup Hin) as (s & _ & _ & -> & -> & ->).
    repeat split; discriminate. }
  exists results. split; [exact Hresults |].
  unfold UnifiedVCSourcingAgent._create_startup_analysis, mbind, result_bind, Py.bind
    in Hresults.
  destruct (UnifiedVCSourcingAgent.analysis_loop
              (UnifiedVCSourcingAgent.make_startup_map enhanced) vc_profile
              fit_metrics []) as [detailed|] eqn:Hloop; [| discriminate].
  injection Hresults as <-.
  assert (Hlength : length (Py.sort_desc UnifiedVCSourcingAgent.sort_key detailed)
                    = length fit_metrics).
  { rewrite (Permutation_length (sort_desc_Permutation _ detailed)).
    rewrite (analysis_loop_length _ _ _ _ _ Hloop). cbn [length plus].
    apply filter_all_length. intros metric Hmetric.
    apply successfully_scored_In in Hmetric as (startup & Hin & Hok).
    rewrite (single_fit_metrics_id _ _ _ _ _ Hok).
    destruct (Hnames startup Hin) as (scored_startup & Hscored & <-).
    now apply startup_map_has_every_name. }
  split; [exact Hlength |]. split.
  { rewrite Hlength. apply successfully_scored_length. }
  intros result Hin. apply sort_desc_In in Hin.
  destruct (analysis_loop_In _ _ _ _ _ Hloop result Hin)
    as [[] | (metric & scored_startup & _ & Hlookup & Hresult)].
  apply make_startup_map_lookup in Hlookup as [Hscored _].
  destruct (Horigin scored_startup Hscored) as (startup & Hstartup & Hname & Hq & Hc & Hf).
  exists startup. split; [exact Hstartup |].
  unfold UnifiedVCSourcingAgent.analyse_startup, mbind, result_bind, Py.bind in Hresult.
  destruct (UnifiedVCSourcingAgent._analyze_startup_pros_cons scored_startup metric
              vc_profile) as [pros_cons|]; [| discriminate].
  injection Hresult as <-.
  cbn [AnalysisResult.company_name AnalysisResult.fit_metrics
       ResultFitMetrics.quality_score AnalysisResult.portfolio_conflict_details
       AnalysisResult.portfolio_fit_details].
  now rewrite Hname, Hq, Hc, Hf.
Qed.

(** ** The website step *)

(** X27: the website step changes nothing but websites.  It returns as many
    startups as it was given, in the same order; each keeps its name, its
    other company fields, its founders and its three scores; its website is
    either the one it had or the non-empty URL the finder returned under its
    name.  When the finder raises, the startups come back as they were. *)
Theorem website_step_changes_websites_only
    (found : Py.Result (gmap string (option string)))
    (startups : list StartupProfile.t) :
  let enhanced := SourcingPipeline._enhance_startups_with_websites found startups in
  (forall e, found = Py.Raise e -> enhanced = startups)
  /\ Forall2
       (fun before after =>
          let company := StartupProfile.company before in
          let company' := StartupProfile.company after in
          CompanyProfile.name company' = CompanyProfile.name company
          /\ CompanyProfile.description company' = CompanyProfile.description company
          /\ CompanyProfile.industry company' = CompanyProfile.industry company
          /\ CompanyProfile.location company' = CompanyProfile.location company
          /\ CompanyProfile.founded_year company' = CompanyProfile.founded_year company
          /\ CompanyProfile.funding_stage company' = CompanyProfile.funding_stage company
          /\ StartupProfile.founders after = StartupProfile.founders before
          /\ StartupProfile.quality_score after = StartupProfile.quality_score before
          /\ StartupProfile.portfolio_conflicts after
             = StartupProfile.portfolio_conflicts before
          /\ StartupProfile.portfolio_fit after = StartupProfile.portfolio_fit before
          /\ (CompanyProfile.website company' = CompanyProfile.website company
              \/ exists websites url,
                   found = Py.Ok websites
                   /\ websites !! CompanyProfile.name company = Some (Some url)
                   /\ url <> ""
                   /\ CompanyProfile.website company' = Some url))
       startups enhanced.
Proof.
  cbn zeta. split.
  - now intros e ->.
  - unfold SourcingPipeline._enhance_startups_with_websites.
    destruct found as [websites | e].
    + induction startups as [|startup rest IH]; [constructor |].
      cbn [map]. constructor; [| exact IH].
      unfold SourcingPipeline.set_website.
      destruct (websites !! CompanyProfile.name (StartupProfile.company startup))
        as [url|] eqn:Hlookup; [| repeat split; now left].
      destruct (Py.truthy_str url) eqn:Htruthy; [| repeat split; now left].
      cbn. repeat split. right.
      destruct url as [[|c url]|]; try discriminate Htruthy.
      exists websites, (String c url). repeat split; [assumption | discriminate].
    + induction startups as [|startup rest IH]; constructor; [| exact IH].
      repeat split. now left.
Qed.

(** ** Network proximity *)

Lemma min_at_most (cap x : float) :
  (cap <=? cap)%float = true -> (Py.min cap x <=? cap)%float = true.
Proof.
  intros Hcap. unfold Py.min.
  destruct (x <? cap)%float eqn:Hlt; [now apply float_lt_le | exact Hcap].
Qed.

(** A capped keyword score added to at most 50 whole points. *)
Lemma founder_score_whole (points keywords : Z) :
  0 <= points <= 50 -> 0 <= keywords <= 170 ->
  (Py.float_of_int points + Py.min 50%float (Py.float_of_int keywords))%float
  = Py.float_of_int (points + Z.min 50 keywords).
Proof.
  intros Hp Hk. change 50%float with (Py.float_of_int 50).
  rewrite (capped_is_whole 50 170) by first [lia | vm_compute; reflexivity].
  apply float_add_whole; lia.
Qed.

Lemma one_founder_average (k : Z) :
  0 <= k <= 100 ->
  Py.min 100%float ((0 + Py.float_of_int k) / Py.float_of_int 1)%float
  = Py.float_of_int k.
Proof.
  intros Hk. apply Leibniz.eqb_spec. revert k Hk.
  apply (on_small_ints 100
           (fun k => Leibniz.eqb
                       (Py.min 100%float
                          ((0 + Py.float_of_int k) / Py.float_of_int 1)%float)
                       (Py.float_of_int k))).
  vm_compute. reflexivity.
Qed.

Lemma first_founder_network_whole (founder : FounderProfile.t) :
  Spec.whole_up_to 100 (FitMetricCalculator.founder_network_score founder).
Proof.
  unfold FitMetricCalculator.founder_network_score,
    FitMetricCalculator._evaluate_experience_quality, Spec.whole_up_to.
  cbn zeta.
  assert (Hpoints : 0 <= FitMetricCalculator.connection_points founder
                         + FitMetricCalculator.endorsement_points founder <= 50).
  { unfold FitMetricCalculator.connection_points,
      FitMetricCalculator.endorsement_points. cbn zeta.
    repeat match goal with
           | |- context [if ?b then _ else _] => destruct b
           end; lia. }
  destruct (Py.truthy_str (FounderProfile.experience founder)).
  - pose proof (keyword_points_bounds 10 FitMetricCalculator.relevant_keywords
                  (Py.lower (Py.str_of (FounderProfile.experience founder)))
                  ltac:(lia)) as Hk.
    change (Z.of_nat (length FitMetricCalculator.relevant_keywords)) with 17 in Hk.
    rewrite founder_score_whole by lia.
    eexists. split; [| reflexivity]. lia.
  - eexists. split; [| reflexivity]. lia.
Qed.

Lemma optimized_founder_network_whole (founder : FounderProfile.t) :
  Spec.whole_up_to 100 (OptimizedFitMetricCalculator.founder_network_score founder).
Proof.
  unfold OptimizedFitMetricCalculator.founder_network_score,
    OptimizedFitMetricCalculator._evaluate_experience_fast, Spec.whole_up_to.
  cbn zeta.
  assert (Hpoints : 0 <= OptimizedFitMetricCalculator.connection_points founder
                         + OptimizedFitMetricCalculator.endorsement_points founder <= 50).
  { unfold OptimizedFitMetricCalculator.connection_points,
      OptimizedFitMetricCalculator.endorsement_points. cbn zeta.
    repeat match goal with
           | |- context [if ?b then _ else _] => destruct b
           end; lia. }
  destruct (Py.truthy_str (FounderProfile.experience founder)).
  - match goal with
    | |- context [FitMetricCalculator.keyword_points 10 ?keys ?text] =>
        pose proof (keyword_points_bounds 10 keys text ltac:(lia)) as Hk
    end.
    cbn [length] in Hk.
    rewrite founder_score_whole by lia.
    eexists. split; [| reflexivity]. lia.
  - eexists. split; [| reflexivity]. lia.
Qed.

(** X28: the network proximity of both calculators never exceeds 100; it is
    0.0 for a startup without founders, and for a startup with one founder
    it is that founder's score, a whole number between 0 and 100 (at most 30
    points for connections, 20 for endorsements and 50 for experience). *)
Theorem network_proximity_bounds (startup : StartupProfile.t) (vc_profile : VCProfile.t) :
  let first := FitMetricCalculator._calculate_network_proximity startup vc_profile in
  let optimized :=
    OptimizedFitMetricCalculator._calculate_network_proximity startup vc_profile in
  (first <=? 100)%float = true
  /\ (optimized <=? 100)%float = true
  /\ (StartupProfile.founders startup = [] ->
      first = 0%float /\ optimized = 0%float)
  /\ (forall founder,
        StartupProfile.founders startup = [founder] ->
        first = FitMetricCalculator.founder_network_score founder
        /\ optimized = OptimizedFitMetricCalculator.founder_network_score founder
        /\ Spec.whole_up_to 100 first
        /\ Spec.whole_up_to 100 optimized).
Proof.
  cbn zeta.
  unfold FitMetricCalculator._calculate_network_proximity,
    OptimizedFitMetricCalculator._calculate_network_proximity.
  cbn zeta. split; [| split; [| split]].
  - destruct (Z.of_nat (length (StartupProfile.founders startup)) =? 0);
      [vm_compute; reflexivity |].
    apply min_at_most. vm_compute. reflexivity.
  - destruct (StartupProfile.founders startup); [vm_compute; reflexivity |].
    apply min_at_most. vm_compute. reflexivity.
  - intros ->. split; reflexivity.
  - intros founder ->. cbn [length fold_left].
    change (Z.of_nat 1 =? 0) with false. cbn iota.
    change (Z.of_nat 1) with 1.
    destruct (first_founder_network_whole founder) as (k & Hk & Ek).
    destruct (optimized_founder_network_whole founder) as (k' & Hk' & Ek').
    rewrite Ek, Ek', !one_founder_average by lia.
    split; [reflexivity |]. split; [reflexivity |].
    split; [now exists k | now exists k'].
Qed.

Lemma keyword_points_from (points : Z) (keys : list string) (text : string) :
  forall start,
    fold_left (fun score k => if Py.contains k text then score + points else score)
      keys start
    = start + FitMetricCalculator.keyword_points points keys text.
Proof.
  unfold FitMetricCalculator.keyword_points.
  induction keys as [|k keys IH]; intros start; simpl; [lia |].
  rewrite IH. rewrite (IH (if Py.contains k text then 0 + points else 0)).
  destruct (Py.contains k text); lia.
Qed.

Lemma keyword_points_cons (points : Z) (k : string) (keys : list string)
    (text : string) :
  FitMetricCalculator.keyword_points points (k :: keys) text
  = (if Py.contains k text then points else 0)
    + FitMetricCalculator.keyword_points points keys text.
Proof.
  unfold FitMetricCalculator.keyword_points at 1. cbn [fold_left].
  rewrite keyword_points_from. destruct (Py.contains k text); lia.
Qed.

Lemma keyword_points_sublist (points : Z) (keys keys' : list string) (text : string) :
  0 <= points -> sublist keys keys' ->
  FitMetricCalculator.keyword_points points keys text
  <= FitMetricCalculator.keyword_points points keys' text.
Proof.
  intros Hpoints Hsub.
  induction Hsub as [|k keys keys' _ IH|k keys keys' _ IH].
  - lia.
  - rewrite !keyword_points_cons. lia.
  - rewrite keyword_points_cons. destruct (Py.contains k text); lia.
Qed.

(** X29: how the optimized calculator's founder score differs from the first
    calculator's: it gives at least as many points for connections and for
    endorsements (its tiers start lower), and at most as many for experience
    (it looks for 7 of the 17 keywords). *)
Theorem optimized_network_tiers (founder : FounderProfile.t) (experience : string) :
  FitMetricCalculator.connection_points founder
  <= OptimizedFitMetricCalculator.connection_points founder
  /\ FitMetricCalculator.endorsement_points founder
     <= OptimizedFitMetricCalculator.endorsement_points founder
  /\ (OptimizedFitMetricCalculator._evaluate_experience_fast experience
      <=? FitMetricCalculator._evaluate_experience_quality experience)%float = true.
Proof.
  split; [| split].
  - unfold FitMetricCalculator.connection_points,
      OptimizedFitMetricCalculator.connection_points. cbn zeta.
    destruct (Py.truthy_int (FounderProfile.linkedin_connections founder)); [| lia].
    repeat match goal with
           | |- context [?a >? ?b] => destruct (Z.gtb_spec a b)
           end; lia.
  - unfold FitMetricCalculator.endorsement_points,
      OptimizedFitMetricCalculator.endorsement_points. cbn zeta.
    destruct (Py.truthy_int (FounderProfile.endorsements founder)); [| lia].
    repeat match goal with
           | |- context [?a >? ?b] => destruct (Z.gtb_spec a b)
           end; lia.
  - unfold OptimizedFitMetricCalculator._evaluate_experience_fast,
      FitMetricCalculator._evaluate_experience_quality. cbn zeta.
    set (text := Py.lower experience).
    match goal with
    | |- context [FitMetricCalculator.keyword_points 10 ?keys text] =>
        lazymatch keys with
        | FitMetricCalculator.relevant_keywords => fail
        | _ =>
            pose proof (keyword_points_bounds 10 keys text ltac:(lia)) as Hfast;
            pose proof (keyword_points_sublist 10 keys
                          FitMetricCalculator.relevant_keywords text ltac:(lia))
              as Hsub
        end
    end.
    cbn [length] in Hfast.
    pose proof (keyword_points_bounds 10 FitMetricCalculator.relevant_keywords text
                  ltac:(lia)) as Hfull.
    change (Z.of_nat (length FitMetricCalculator.relevant_keywords)) with 17 in Hfull.
    assert (Hle : FitMetricCalculator.keyword_points 10
                    ["founder"; "ceo"; "cto"; "startup"; "google"; "facebook"; "amazon"]
                    text
                  <= FitMetricCalculator.keyword_points 10
                       FitMetricCalculator.relevant_keywords text).
    { apply Hsub. unfold FitMetricCalculator.relevant_keywords.
      repeat first [apply sublist_nil | apply sublist_skip | apply sublist_cons]. }
    change 50%float with (Py.float_of_int 50).
    rewrite !(capped_is_whole 50 170) by first [lia | vm_compute; reflexivity].
    apply float_leb_whole; lia.
Qed.

(** ** Batches *)

Section BatchesOfItems.
Context {A B : Type}.
Variable truthy : B -> bool.
Variable processor_func : A -> Py.Result B.

(** The loop over a batch appends to what it holds what it would produce
    from nothing. *)
Lemma process_loop_appends (batch : list A) :
  forall batch_results : list B,
    fold_left
      (fun batch_results item =>
         match processor_func item with
         | Py.Ok result =>
             if truthy result then (batch_results ++ [result])%list else batch_results
         | Py.Raise _ => batch_results
         end)
      batch batch_results
    = (batch_results ++ BatchProcessor.process_items truthy processor_func batch)%list.
Proof.
  unfold BatchProcessor.process_items.
  induction batch as [|item batch IH]; intros batch_results; cbn [fold_left].
  - now rewrite app_nil_r.
  - rewrite IH.
    rewrite (IH (match processor_func item with
                 | Py.Ok result => if truthy result then ([] ++ [result])%list else []
                 | Py.Raise _ => []
                 end)).
    destruct (processor_func item) as [result|]; [| reflexivity].
    destruct (truthy result); [| reflexivity].
    now rewrite <- app_assoc.
Qed.

Lemma process_items_app (batch batch' : list A) :
  BatchProcessor.process_items truthy processor_func (batch ++ batch')
  = (BatchProcessor.process_items truthy processor_func batch
     ++ BatchProcessor.process_items truthy processor_func batch')%list.
Proof.
  unfold BatchProcessor.process_items at 1.
  rewrite fold_left_app, process_loop_appends.
  reflexivity.
Qed.

Lemma process_items_length (batch : list A) :
  (length (BatchProcessor.process_items truthy processor_func batch)
   <= length batch)%nat.
Proof.
  induction batch as [|item batch IH]; [simpl; lia |].
  change (item :: batch) with ([item] ++ batch)%list.
  rewrite process_items_app, length_app.
  unfold BatchProcessor.process_items at 1. cbn [fold_left app length].
  destruct (processor_func item) as [result|]; [destruct (truthy result) |];
    simpl; lia.
Qed.

(** Consecutive slices of [batch_size] items that reach the end of the list
    make up the list. *)
Lemma slices_cover (batch_size batches : nat) :
  forall items : list A,
    (length items <= batches * batch_size)%nat ->
    concat (map (fun k => BatchProcessor.slice items (k * batch_size) batch_size)
              (seq 0 batches))
    = items.
Proof.
  induction batches as [|batches IH]; intros items Hlength.
  - destruct items; [reflexivity | simpl in Hlength; lia].
  - cbn [seq map concat]. rewrite <- seq_shift, map_map.
    transitivity (take batch_size items ++ drop batch_size items)%list;
      [| apply take_drop].
    f_equal.
    assert (Hrest : (length (drop batch_size items) <= batches * batch_size)%nat)
      by (rewrite length_drop; lia).
    etransitivity; [| exact (IH (drop batch_size items) Hrest)].
    f_equal. apply map_ext. intros k. unfold BatchProcessor.slice.
    rewrite drop_drop. reflexivity.
Qed.

Lemma batches_reach_the_end (n batch_size : nat) :
  (0 < batch_size)%nat -> (n <= (n + batch_size - 1) / batch_size * batch_size)%nat.
Proof.
  intros Hpos.
  pose proof (Nat.div_mod_eq (n + batch_size - 1) batch_size) as Hdiv.
  pose proof (Nat.mod_upper_bound (n + batch_size - 1) batch_size ltac:(lia)) as Hmod.
  lia.
Qed.

Lemma concat_process_items (batches : list (list A)) :
  concat (map (BatchProcessor.process_items truthy processor_func) batches)
  = BatchProcessor.process_items truthy processor_func (concat batches).
Proof.
  induction batches as [|batch batches IH]; [reflexivity |].
  cbn [map concat]. now rewrite process_items_app, IH.
Qed.

Lemma batches_of_items (batch_size : Z) (items : list A) :
  0 < batch_size ->
  exists batches,
    BatchProcessor.process_large_dataset truthy processor_func batch_size items
    = Some batches
    /\ concat batches = BatchProcessor.process_items truthy processor_func items
    /\ Z.of_nat (length batches)
       = (Z.of_nat (length items) + batch_size - 1) / batch_size
    /\ Forall (fun batch => Z.of_nat (length batch) <= batch_size) batches.
Proof.
  intros Hpos. unfold BatchProcessor.process_large_dataset.
  destruct (Z.eqb_spec batch_size 0) as [|_]; [lia |].
  destruct (Z.ltb_spec batch_size 0) as [|_]; [lia |].
  eexists. split; [reflexivity |].
  set (size := Z.to_nat batch_size).
  assert (Hsize : (0 < size)%nat) by (unfold size; lia).
  split; [| split].
  - unfold BatchProcessor.range_step. rewrite map_map.
    rewrite <- (map_map (fun k => BatchProcessor.slice items (k * size) size)
                  (BatchProcessor.process_items truthy processor_func)).
    rewrite concat_process_items, slices_cover;
      [reflexivity | now apply batches_reach_the_end].
  - unfold BatchProcessor.range_step. rewrite !length_map, length_seq.
    rewrite Nat2Z.inj_div. f_equal; unfold size; lia.
  - apply List.Forall_forall. intros batch Hin.
    apply in_map_iff in Hin as (i & <- & _).
    pose proof (process_items_length (BatchProcessor.slice items i size)) as Hle.
    unfold BatchProcessor.slice in Hle at 2. rewrite length_take in Hle.
    subst size. lia.
Qed.

End BatchesOfItems.

(** X30: cutting the items into batches changes nothing in what
    [process_large_dataset] produces: for a positive batch size the batches
    it yields, put end to end, are the results of processing all items in
    order (items on which the processor raises, or whose result is falsy,
    are left out); there are ceil(len(items) / batch_size) batches, none
    longer than the batch size.  A batch size of 0 raises and a negative one
    yields nothing. *)
Theorem batching_keeps_results {A B : Type} (truthy : B -> bool)
    (processor_func : A -> Py.Result B) (batch_size : Z) (items : list A) :
  (0 < batch_size ->
   exists batches,
     BatchProcessor.process_large_dataset truthy processor_func batch_size items
     = Some batches
     /\ concat batches = BatchProcessor.process_items truthy processor_func items
     /\ Z.of_nat (length batches)
        = (Z.of_nat (length items) + batch_size - 1) / batch_size
     /\ Forall (fun batch => Z.of_nat (length batch) <= batch_size) batches)
  /\ (batch_size = 0 ->
      BatchProcessor.process_large_dataset truthy processor_func batch_size items = None)
  /\ (batch_size < 0 ->
      BatchProcessor.process_large_dataset truthy processor_func batch_size items
      = Some []).
Proof.
  split; [apply batches_of_items |]. split.
  - now intros ->.
  - intros Hneg. unfold BatchProcessor.process_large_dataset.
    destruct (Z.eqb_spec batch_size 0) as [|_]; [lia |].
    destruct (Z.ltb_spec batch_size 0) as [_|]; [reflexivity | lia].
Qed.
